(** * Signal generation pipeline of the AI trading agent

    A shallow embedding of [analysis/signal_generator.py] and of the
    aggregation part of [data_acquisition/parse_twitter_trends.py], with the
    properties of the design document proved (or refuted) on it.  The
    extraction and detection methods of the parser, the retry decorator of
    [utils/logger.py] and the batching of [analysis/sentiment_analyzer.py]
    follow, with the properties their code shows.

    Numbers.  The Python code computes with IEEE binary64 floats.  Here a
    finite float is idealised as the real number it denotes (no rounding, no
    overflow, no signed zero), and the three special values [inf], [-inf] and
    [nan] that NumPy and Python produce and compare are kept, with their IEEE
    rules.  A Python [int] is converted when it meets a float, and the code
    tells the two apart in two places only: the conversion raises
    [OverflowError] for an int beyond the range of the floats, and [np.log1p]
    raises [TypeError] for an int that fits no 64-bit integer type.  So an int
    that NumPy converts (from [-2^63] to [2^64 - 1]) behaves as the float of
    the same value and is written as one, [PyNum]; [PyInt] keeps an int as an
    integer, which is needed for the others.

    Values.  Arguments annotated [Dict[str, Any]], [int] or [float] are not
    checked by Python, so they are modelled as dynamically typed values
    [pyval]; operations on them raise [TypeError], [KeyError],
    [AttributeError] or [OverflowError] as the interpreter does, and
    [try ... except Exception] is the [try_except] combinator of the [result]
    monad. *)

From Stdlib Require Import Reals Lra ZArith.
From stdpp Require Import base option list sorting gmap strings.

(* ===================================================================== *)
(** ** Python values, exceptions and floats                               *)
(* ===================================================================== *)

Module Py.

Local Open Scope R_scope.

#[global] Instance Rlt_decision (a b : R) : Decision (a < b) := Rlt_dec a b.
#[global] Instance Rle_decision (a b : R) : Decision (a <= b) := Rle_dec a b.
#[global] Instance Req_decision : EqDecision R := Req_dec_T.

(** Exceptions the modelled code can meet (all subclasses of [Exception]). *)
Inductive exn : Set :=
  | TypeError
  | KeyError
  | AttributeError
  | ZeroDivisionError
  | OverflowError.

(** A computation either returns a value or raises. *)
Inductive result (A : Type) : Type :=
  | Ok (a : A)
  | Raise (e : exn).
Arguments Ok {A} a.
Arguments Raise {A} e.

#[global] Instance result_ret : MRet result := fun A a => Ok a.
#[global] Instance result_bind : MBind result := fun A B f m =>
  match m with
  | Ok a => f a
  | Raise e => Raise e
  end.

(** [try: body except Exception as e: handler e]. *)
Definition try_except {A} (body : result A) (handler : exn -> result A) : result A :=
  match body with
  | Ok a => Ok a
  | Raise e => handler e
  end.

(** A binary64 value: a finite number, idealised as a real, or one of the
    three special values. *)
Inductive npfloat : Type :=
  | Fin (r : R)
  | PInf
  | NInf
  | NaN.

Definition fneg (x : npfloat) : npfloat :=
  match x with
  | Fin a => Fin (- a)
  | PInf => NInf
  | NInf => PInf
  | NaN => NaN
  end.

Definition fabs (x : npfloat) : npfloat :=
  match x with
  | Fin a => Fin (Rabs a)
  | PInf | NInf => PInf
  | NaN => NaN
  end.

Definition fadd (x y : npfloat) : npfloat :=
  match x, y with
  | NaN, _ | _, NaN => NaN
  | Fin a, Fin b => Fin (a + b)
  | PInf, NInf | NInf, PInf => NaN
  | PInf, _ | _, PInf => PInf
  | NInf, _ | _, NInf => NInf
  end.

Definition fsub (x y : npfloat) : npfloat := fadd x (fneg y).

(** An infinity of sign [pos] scaled by the finite factor [a]. *)
Definition inf_times (pos : bool) (a : R) : npfloat :=
  if decide (0 < a) then (if pos then PInf else NInf)
  else if decide (a < 0) then (if pos then NInf else PInf)
  else NaN.

Definition fmul (x y : npfloat) : npfloat :=
  match x, y with
  | NaN, _ | _, NaN => NaN
  | Fin a, Fin b => Fin (a * b)
  | Fin a, PInf | PInf, Fin a => inf_times true a
  | Fin a, NInf | NInf, Fin a => inf_times false a
  | PInf, PInf | NInf, NInf => PInf
  | PInf, NInf | NInf, PInf => NInf
  end.

(** IEEE division, as NumPy does it on [np.float64] operands: a zero divisor
    gives an infinity or [nan] (and a warning), never an exception.  A zero is
    taken as [+0.0]. *)
Definition fdiv (x y : npfloat) : npfloat :=
  match x, y with
  | NaN, _ | _, NaN => NaN
  | Fin a, Fin b =>
      if decide (b = 0) then
        (if decide (0 < a) then PInf else if decide (a < 0) then NInf else NaN)
      else Fin (a / b)
  | Fin _, (PInf | NInf) => Fin 0
  | PInf, Fin b => if decide (b < 0) then NInf else PInf
  | NInf, Fin b => if decide (b < 0) then PInf else NInf
  | (PInf | NInf), (PInf | NInf) => NaN
  end.

(** [x < y] on floats; every comparison with [nan] is false. *)
Definition flt (x y : npfloat) : bool :=
  match x, y with
  | NaN, _ | _, NaN => false
  | Fin a, Fin b => bool_decide (a < b)
  | _, NInf => false
  | NInf, _ => true
  | PInf, _ => false
  | _, PInf => true
  end.

(** [x <= y] on floats. *)
Definition fle (x y : npfloat) : bool :=
  match x, y with
  | NaN, _ | _, NaN => false
  | Fin a, Fin b => bool_decide (a <= b)
  | NInf, _ => true
  | _, PInf => true
  | _, NInf => false
  | PInf, _ => false
  end.

Definition fgt (x y : npfloat) : bool := flt y x.
Definition fge (x y : npfloat) : bool := fle y x.

(** The builtins [min(a, b)] and [max(a, b)] on two floats: the first
    argument is kept unless the second is strictly smaller (larger). *)
Definition fmin (a b : npfloat) : npfloat := if flt b a then b else a.
Definition fmax (a b : npfloat) : npfloat := if fgt b a then b else a.

(** [np.log1p] on a float. *)
Definition flog1p (x : npfloat) : npfloat :=
  match x with
  | Fin a =>
      if decide (-1 < a) then Fin (ln (1 + a))
      else if decide (a = -1) then NInf
      else NaN
  | PInf => PInf
  | NInf | NaN => NaN
  end.

(** Dynamically typed values: [None], a number, a string, or a dictionary
    with string keys.  [PyNum] is a float, or an int that NumPy converts,
    taken as the float of the same value; [PyInt] is an int kept as an
    integer. *)
#[warnings="-register-all"]
Inductive pyval : Type :=
  | PyNone
  | PyNum (x : npfloat)
  | PyStr (s : string)
  | PyDict (d : gmap string pyval)
  | PyInt (z : Z).

(** A numeric literal. *)
Definition num (r : R) : pyval := PyNum (Fin r).

(** The conversion of an int that meets a float in [*] or [-]: the ints
    from [2^1024 - 2^970] on would round to [2^1024], which is no float, and
    raise [OverflowError] ("int too large to convert to float"). *)
Definition float_of_int (z : Z) : result npfloat :=
  if decide (Z.abs z < 2 ^ 1024 - 2 ^ 970)%Z then Ok (Fin (IZR z))
  else Raise OverflowError.

(** The ints for which NumPy has an integer type: [int64] or [uint64]. *)
Definition numpy_int (z : Z) : Prop := (- 2 ^ 63 <= z < 2 ^ 64)%Z.

(** [d.get(key, default)]; [d] has no [get] unless it is a dictionary. *)
Definition dict_get (d : pyval) (key : string) (dflt : pyval) : result pyval :=
  match d with
  | PyDict m => Ok (default dflt (m !! key))
  | _ => Raise AttributeError
  end.

(** [d[key]]: [KeyError] on a missing key, [TypeError] on a value that
    cannot be indexed by a string. *)
Definition getitem (d : pyval) (key : string) : result pyval :=
  match d with
  | PyDict m =>
      match m !! key with
      | Some v => Ok v
      | None => Raise KeyError
      end
  | _ => Raise TypeError
  end.

(** [v * c], [a - b], [v > c], [x >= v], [x <= v] with [c], [x] floats: defined
    on numbers, [TypeError] on anything else.  An int operand of [*] and [-]
    is converted; a comparison of an int with a float is exact. *)
Definition py_mul (v : pyval) (c : npfloat) : result npfloat :=
  match v with
  | PyNum x => Ok (fmul x c)
  | PyInt z => x ← float_of_int z; Ok (fmul x c)
  | _ => Raise TypeError
  end.

(** The difference is multiplied by a float next: the difference of two
    ints, which is exact, is converted there and is given here as that
    float. *)
Definition py_sub (a b : pyval) : result npfloat :=
  match a, b with
  | PyNum x, PyNum y => Ok (fsub x y)
  | PyInt z, PyNum y => x ← float_of_int z; Ok (fsub x y)
  | PyNum x, PyInt z => y ← float_of_int z; Ok (fsub x y)
  | PyInt z1, PyInt z2 => float_of_int (z1 - z2)
  | _, _ => Raise TypeError
  end.

Definition py_gt (v : pyval) (c : npfloat) : result bool :=
  match v with
  | PyNum x => Ok (fgt x c)
  | PyInt z => Ok (fgt (Fin (IZR z)) c)
  | _ => Raise TypeError
  end.

Definition py_ge (x : npfloat) (v : pyval) : result bool :=
  match v with
  | PyNum y => Ok (fge x y)
  | PyInt z => Ok (fge x (Fin (IZR z)))
  | _ => Raise TypeError
  end.

Definition py_le (x : npfloat) (v : pyval) : result bool :=
  match v with
  | PyNum y => Ok (fle x y)
  | PyInt z => Ok (fle x (Fin (IZR z)))
  | _ => Raise TypeError
  end.

(** [max(c, v)] with [c] a number: [v] itself when it is larger. *)
Definition py_max (c : npfloat) (v : pyval) : result pyval :=
  match v with
  | PyNum x => Ok (PyNum (fmax c x))
  | PyInt z => Ok (if fgt (Fin (IZR z)) c then PyInt z else PyNum c)
  | _ => Raise TypeError
  end.

(** [np.log1p(v)]: the ufunc rejects what is not a number, and an int for
    which NumPy has no integer type. *)
Definition np_log1p (v : pyval) : result npfloat :=
  match v with
  | PyNum x => Ok (flog1p x)
  | PyInt z => if decide (numpy_int z) then Ok (flog1p (Fin (IZR z))) else Raise TypeError
  | _ => Raise TypeError
  end.

(** [sorted(l, key=key, reverse=True)]: a stable sort into descending key
    order, comparing keys with [<] only.  On keys that [<] orders totally the
    result of a stable sort does not depend on the algorithm; it is written
    here as an insertion sort. *)
Section Sorted.
Context {A : Type} (key : A -> npfloat).

Fixpoint insert_desc (x : A) (l : list A) : list A :=
  match l with
  | [] => [x]
  | y :: l' => if flt (key x) (key y) then y :: insert_desc x l' else x :: l
  end.

Definition sorted_reverse (l : list A) : list A := foldr insert_desc [] l.
End Sorted.

End Py.

(* ===================================================================== *)
(** ** analysis/signal_generator.py                                       *)
(* ===================================================================== *)

Module SignalType.
Inductive t : Set := STRONG_BUY | BUY | NEUTRAL | SELL | STRONG_SELL.

(** The [value] of each member of the enumeration. *)
Definition value (s : t) : string :=
  match s with
  | STRONG_BUY => "STRONG_BUY"
  | BUY => "BUY"
  | NEUTRAL => "NEUTRAL"
  | SELL => "SELL"
  | STRONG_SELL => "STRONG_SELL"
  end.
End SignalType.

Module SignalGenerator.
Import Py.
Local Open Scope R_scope.

(** The dataclass is not type checked: its fields hold any value. *)
Record SignalThresholds : Type := {
  STRONG_BUY : pyval;
  BUY : pyval;
  NEUTRAL : pyval;
  SELL : pyval;
  STRONG_SELL : pyval;
  MIN_MENTIONS : pyval;
  MIN_ENGAGEMENT : pyval
}.

(** [SignalThresholds()]. *)
Definition default_thresholds : SignalThresholds := {|
  STRONG_BUY := num 0.8;
  BUY := num 0.5;
  NEUTRAL := num 0.0;
  SELL := num (-0.5);
  STRONG_SELL := num (-0.8);
  MIN_MENTIONS := num 5;
  MIN_ENGAGEMENT := num 100.0
|}.

Record Metrics : Type := {
  sentiment_score : npfloat;
  engagement_impact : npfloat;
  mention_count : pyval;
  raw_sentiment : pyval
}.

(** The dictionary [generate_signal] returns; its [timestamp] entry (the wall
    clock) is left out. *)
Record Signal : Type := {
  coin : pyval;
  signal_type : string;
  signal_strength : npfloat;
  confidence : npfloat;
  metrics : Metrics
}.

Section Generator.
Variable thresholds : SignalThresholds.

Definition _calculate_sentiment_score_body (sentiment_data : pyval) : result npfloat :=
  compound_score ← dict_get sentiment_data "compound" (num 0);
  pos_score ← dict_get sentiment_data "pos" (num 0);
  neg_score ← dict_get sentiment_data "neg" (num 0);
  t1 ← py_mul compound_score (Fin 0.5);
  d ← py_sub pos_score neg_score;
  positive ← py_gt compound_score (Fin 0);
  let weighted_score :=
    fadd (fadd t1 (fmul d (Fin 0.3)))
         (fmul (Fin (if (positive : bool) then 1 else -1)) (Fin 0.2)) in
  mret (fmax (Fin (-1.0)) (fmin (Fin 1.0) weighted_score)).

Definition _calculate_sentiment_score (sentiment_data : pyval) : result npfloat :=
  try_except (_calculate_sentiment_score_body sentiment_data)
             (fun _ => mret (Fin 0.0)).

Definition _calculate_engagement_impact_body (engagement_score : pyval) : result npfloat :=
  m ← py_max (Fin 0) engagement_score;
  numerator ← np_log1p m;
  denominator ← np_log1p (MIN_ENGAGEMENT thresholds);
  let normalized := fdiv numerator denominator in
  mret (fmin (Fin 1.0) normalized).

Definition _calculate_engagement_impact (engagement_score : pyval) : result npfloat :=
  try_except (_calculate_engagement_impact_body engagement_score)
             (fun _ => mret (Fin 0.0)).

Definition _calculate_mention_confidence_body (mention_count : pyval) : result npfloat :=
  numerator ← np_log1p mention_count;
  denominator ← np_log1p (MIN_MENTIONS thresholds);
  let base_confidence := fdiv numerator denominator in
  mret (fmin (Fin 1.0) (fmax (Fin 0.0) base_confidence)).

Definition _calculate_mention_confidence (mention_count : pyval) : result npfloat :=
  try_except (_calculate_mention_confidence_body mention_count)
             (fun _ => mret (Fin 0.0)).

(** The [if / elif] chain of [generate_signal]: a threshold is only looked
    at when the tests before it have failed. *)
Definition classify (signal_strength : npfloat) : result SignalType.t :=
  b1 ← py_ge signal_strength (STRONG_BUY thresholds);
  if (b1 : bool) then mret SignalType.STRONG_BUY else
  b2 ← py_ge signal_strength (BUY thresholds);
  if (b2 : bool) then mret SignalType.BUY else
  b3 ← py_le signal_strength (STRONG_SELL thresholds);
  if (b3 : bool) then mret SignalType.STRONG_SELL else
  b4 ← py_le signal_strength (SELL thresholds);
  if (b4 : bool) then mret SignalType.SELL else
  mret SignalType.NEUTRAL.

Definition generate_signal_body (coin sentiment_data mention_count engagement_score : pyval)
    : result (option Signal) :=
  sentiment_score ← _calculate_sentiment_score sentiment_data;
  engagement_impact ← _calculate_engagement_impact engagement_score;
  confidence ← _calculate_mention_confidence mention_count;
  let signal_strength :=
    fadd (fadd (fmul sentiment_score (Fin 0.5))
               (fmul engagement_impact (Fin 0.3)))
         (fmul confidence (Fin 0.2)) in
  signal_type ← classify signal_strength;
  mret (Some {|
    coin := coin;
    signal_type := SignalType.value signal_type;
    signal_strength := signal_strength;
    confidence := confidence;
    metrics := {|
      sentiment_score := sentiment_score;
      engagement_impact := engagement_impact;
      mention_count := mention_count;
      raw_sentiment := sentiment_data
    |}
  |}).

(** [None] is the result when the body raises. *)
Definition generate_signal (coin sentiment_data mention_count engagement_score : pyval)
    : result (option Signal) :=
  try_except (generate_signal_body coin sentiment_data mention_count engagement_score)
             (fun _ => mret None).

(** One turn of the loop of [generate_signals_batch], from the list of
    signals collected so far to the list after the item [data]. *)
Definition batch_step (signals : list Signal) (data : pyval) : result (list Signal) :=
  try_except
    (coin ← getitem data "coin";
     sentiment ← getitem data "sentiment";
     mentions ← getitem data "mentions";
     engagement ← getitem data "engagement";
     signal ← generate_signal coin sentiment mentions engagement;
     mret (match signal with
           | Some s => signals ++ [s]
           | None => signals
           end))
    (fun _ => mret signals).

Fixpoint batch_loop (signals : list Signal) (coin_data : list pyval) : result (list Signal) :=
  match coin_data with
  | [] => mret signals
  | data :: rest =>
      signals' ← batch_step signals data;
      batch_loop signals' rest
  end.

Definition generate_signals_batch (coin_data : list pyval) : result (list Signal) :=
  signals ← batch_loop [] coin_data;
  mret (sorted_reverse (fun x => fabs (signal_strength x)) signals).

End Generator.

End SignalGenerator.

(* ===================================================================== *)
(** ** data_acquisition/parse_twitter_trends.py                           *)
(* ===================================================================== *)

Module TwitterTrendParser.
Import Py SignalGenerator.
Local Open Scope R_scope.

(** What [_extract_tweet_data] returns for an entry that has all the keys. *)
Record Tweet : Type := {
  text : string;
  created_at : string;
  favorites : Z;
  retweets : Z
}.

(** The scores of the sentiment analyzer for one text. *)
Record Polarity : Type := {
  neg : R;
  neu : R;
  pos : R;
  compound : R
}.

(** One element of [results]. *)
Record Processed : Type := {
  p_text : string;
  p_created_at : string;
  sentiment : Polarity;
  crypto_mentions : list string;
  engagement_score : R
}.

(** One value of [aggregated_data['crypto_mentions']]. *)
Record CoinData : Type := {
  mentions : nat;
  avg_sentiment : R;
  total_engagement : R
}.

(** The document [process_tweets] returns (without its [timestamp]).  The
    dictionary of the coins keeps the order of insertion, as Python's does. *)
Record AggregatedData : Type := {
  total_tweets : nat;
  average_sentiment : R;
  coin_mentions : list (string * CoinData);
  trading_signals : list Signal
}.

(** [a / b] on Python numbers. *)
Definition truediv (a b : R) : result R :=
  if decide (b = 0) then Raise ZeroDivisionError else Ok (a / b).

Definition _calculate_engagement_score (favorites retweets : Z) : R :=
  (IZR favorites * 1.0 + IZR retweets * 2.0) / 3.0.

Definition new_coin : CoinData :=
  {| mentions := 0; avg_sentiment := 0.0; total_engagement := 0.0 |}.

(** The body of the inner aggregation loop for one mention of [coin]: the
    entry is created at the end of the dictionary when the coin is new, then
    updated in place. *)
Definition count_mention (r : Processed) (c : CoinData) : CoinData :=
  {| mentions := mentions c + 1;
     avg_sentiment := avg_sentiment c + compound (sentiment r);
     total_engagement := total_engagement c + engagement_score r |}.

Fixpoint add_mention (r : Processed) (coin : string) (d : list (string * CoinData))
    : list (string * CoinData) :=
  match d with
  | [] => [(coin, count_mention r new_coin)]
  | (k, c) :: d' =>
      if decide (k = coin) then (k, count_mention r c) :: d'
      else (k, c) :: add_mention r coin d'
  end.

Definition add_result (d : list (string * CoinData)) (r : Processed)
    : list (string * CoinData) :=
  foldl (fun d coin => add_mention r coin d) d (crypto_mentions r).

(** The second loop: sums become averages. *)
Definition finalize (c : CoinData) : CoinData :=
  if decide (0 < mentions c)%nat then
    {| mentions := mentions c;
       avg_sentiment := avg_sentiment c / INR (mentions c);
       total_engagement := total_engagement c |}
  else c.

(** The input of the signal generator for one coin.  The count of a coin is
    at most the number of posts, which the size of a list keeps below
    [2^63]: it is an int that NumPy converts. *)
Definition coin_input (coin : string) (data : CoinData) : pyval :=
  let avg := Fin (avg_sentiment data) in
  PyDict (list_to_map
    [ ("coin", PyStr coin);
      ("sentiment", PyDict (list_to_map
         [ ("compound", PyNum avg);
           ("pos", PyNum (fmax (Fin 0) avg));
           ("neg", PyNum (fmax (Fin 0) (fneg avg)));
           ("neu", PyNum (fsub (Fin 1) (fabs avg))) ]));
      ("mentions", num (INR (mentions data)));
      ("engagement", num (total_engagement data)) ]).

Section Parser.
(** The parser is built with [max_tweets] and holds a sentiment analyzer
    and a keyword detector; [_analyze_sentiment] never raises (it falls back
    to all-zero scores) and [_detect_crypto_mentions] lists the keywords
    found in a text. *)
Variable max_tweets : nat.
Variable _analyze_sentiment : string -> Polarity.
Variable _detect_crypto_mentions : string -> list string.

Definition process_one (tweet : Tweet) : Processed :=
  {| p_text := text tweet;
     p_created_at := created_at tweet;
     sentiment := _analyze_sentiment (text tweet);
     crypto_mentions := _detect_crypto_mentions (text tweet);
     engagement_score := _calculate_engagement_score (favorites tweet) (retweets tweet) |}.

(** The aggregation and signal part of [process_tweets]. *)
Definition aggregate (results : list Processed) : result AggregatedData :=
  average ← truediv (foldl Rplus 0 (map (fun r => compound (sentiment r)) results))
                    (INR (length results));
  let sums := foldl add_result [] results in
  let mentioned := map (fun kv => (kv.1, finalize kv.2)) sums in
  let coin_data :=
    map (fun kv => coin_input kv.1 kv.2)
        (filter (fun kv => 5 <= mentions kv.2)%nat mentioned) in
  signals ← generate_signals_batch default_thresholds coin_data;
  mret {| total_tweets := length results;
          average_sentiment := average;
          coin_mentions := mentioned;
          trading_signals := signals |}.

(** [entries] are the timeline entries of the input file, [None] standing
    for an entry on which [_extract_tweet_data] fails and returns [None].
    Whatever the body raises is logged and raised again. *)
Definition process_tweets (entries : list (option Tweet)) : result AggregatedData :=
  try_except
    (let tweets := omap (fun tweet_data => tweet_data) (take max_tweets entries) in
     let results := map process_one tweets in
     aggregate results)
    (fun e => Raise e).

End Parser.

End TwitterTrendParser.

(* ===================================================================== *)
(** ** The formulas of the design document                                *)
(* ===================================================================== *)

Module Design.
Import Py.
Local Open Scope R_scope.

(** [x] clamped to the interval from [lo] to [hi]. *)
Definition clamp (lo hi x : R) : R := Rmax lo (Rmin hi x).

(** The tie-break of the sentiment score: [+1] above zero, [-1] otherwise. *)
Definition sign (c : R) : R := if decide (0 < c) then 1 else -1.

(** Section 4.1: the weighted sentiment score. *)
Definition sentiment_formula (c p n : R) : R :=
  clamp (-1) 1 (c * 0.5 + (p - n) * 0.3 + sign c * 0.2).

(** Section 4.2: the normalized engagement, clamped from above only. *)
Definition engagement_formula (min_engagement e : R) : R :=
  Rmin 1 (ln (1 + Rmax 0 e) / ln (1 + min_engagement)).

(** Section 4.3: the mention confidence. *)
Definition confidence_formula (min_mentions n : R) : R :=
  clamp 0 1 (ln (1 + n) / ln (1 + min_mentions)).

(** The number [v] has the finite value [x] and is a float, or an int below
    [2^64]: an int is written as an integer, or as the float NumPy makes of
    it. *)
Definition small_number (v : pyval) (x : R) : Prop :=
  v = num x \/ exists z : Z, v = PyInt z /\ x = IZR z /\ (z < 2 ^ 64)%Z.

(** A float that is not negative: a finite one from zero on, or [inf]. *)
Definition not_negative (x : npfloat) : Prop :=
  match x with
  | Fin a => 0 <= a
  | PInf => True
  | NInf | NaN => False
  end.

(** A field of a dictionary read with default zero: the key is bound to the
    number [x], or it is missing and [x] is zero. *)
Definition field (d : gmap string pyval) (key : string) (x : R) : Prop :=
  d !! key = Some (num x) \/ (d !! key = None /\ x = 0).

(** The four cut points of [th] are the numbers [sb], [b], [ss] and [s]. *)
Definition numeric_cut_points (th : SignalGenerator.SignalThresholds)
    (sb b ss s : npfloat) : Prop :=
  SignalGenerator.STRONG_BUY th = PyNum sb /\ SignalGenerator.BUY th = PyNum b /\
  SignalGenerator.STRONG_SELL th = PyNum ss /\ SignalGenerator.SELL th = PyNum s.

(** Section 4.4: the type [t] is the first of the five rules that applies to
    the strength [x]. *)
Definition first_match (sb b ss s x : npfloat) (t : SignalType.t) : Prop :=
  let ge a := fge x a = true in
  let le a := fle x a = true in
  (ge sb -> t = SignalType.STRONG_BUY) /\
  (~ ge sb -> ge b -> t = SignalType.BUY) /\
  (~ ge sb -> ~ ge b -> le ss -> t = SignalType.STRONG_SELL) /\
  (~ ge sb -> ~ ge b -> ~ le ss -> le s -> t = SignalType.SELL) /\
  (~ ge sb -> ~ ge b -> ~ le ss -> ~ le s -> t = SignalType.NEUTRAL).

(** What the body of the batch loop obtains for the item [data]: the
    classifier's result, or the exception of a failed extraction. *)
Definition item_signal (th : SignalGenerator.SignalThresholds) (data : pyval)
    : result (option SignalGenerator.Signal) :=
  coin ← getitem data "coin";
  sentiment ← getitem data "sentiment";
  mentions ← getitem data "mentions";
  engagement ← getitem data "engagement";
  SignalGenerator.generate_signal th coin sentiment mentions engagement.

(** The signal of an item, when it has one. *)
Definition successful (th : SignalGenerator.SignalThresholds) (data : pyval)
    : option SignalGenerator.Signal :=
  match item_signal th data with
  | Ok (Some s) => Some s
  | Ok None | Raise _ => None
  end.

(** The sort key of the batch. *)
Definition abs_strength (s : SignalGenerator.Signal) : npfloat :=
  fabs (SignalGenerator.signal_strength s).

(** Thresholds whose [STRONG_BUY] is [None]: the first comparison of the
    classifier raises [TypeError]. *)
Definition thresholds_without_strong_buy : SignalGenerator.SignalThresholds := {|
  SignalGenerator.STRONG_BUY := PyNone;
  SignalGenerator.BUY := num 0.5;
  SignalGenerator.NEUTRAL := num 0.0;
  SignalGenerator.SELL := num (-0.5);
  SignalGenerator.STRONG_SELL := num (-0.8);
  SignalGenerator.MIN_MENTIONS := num 5;
  SignalGenerator.MIN_ENGAGEMENT := num 100.0
|}.

(** A small corpus for the scenario of a coin below the mention threshold:
    five posts, all mentioning [btc], three of them also [eth]. *)
Definition sample_polarity : TwitterTrendParser.Polarity :=
  {| TwitterTrendParser.neg := 0; TwitterTrendParser.neu := 0.5;
     TwitterTrendParser.pos := 0.5; TwitterTrendParser.compound := 0.5 |}.

Definition sample_detector (text : string) : list string :=
  if String.eqb text "btc" then ["btc"] else ["btc"; "eth"].

Definition sample_tweet (text : string) : option TwitterTrendParser.Tweet :=
  Some {| TwitterTrendParser.text := text;
          TwitterTrendParser.created_at := "Mon Jan 01 00:00:00 +0000 2024";
          TwitterTrendParser.favorites := 3;
          TwitterTrendParser.retweets := 1 |}.

Definition sample_entries : list (option TwitterTrendParser.Tweet) :=
  [ sample_tweet "btc eth"; sample_tweet "btc"; sample_tweet "btc eth"; None;
    sample_tweet "btc"; sample_tweet "btc eth" ].

End Design.

(* ===================================================================== *)
(** ** Sample inputs                                                      *)
(* ===================================================================== *)

Module Samples.
Import Py.
Local Open Scope R_scope.

(** An analyzer that finds every text negative. *)
Definition bearish_polarity : TwitterTrendParser.Polarity :=
  {| TwitterTrendParser.neg := 0.7; TwitterTrendParser.neu := 0.3;
     TwitterTrendParser.pos := 0; TwitterTrendParser.compound := -0.6 |}.

(** The keywords of the parser, and an analyzer that always fails. *)
Definition parser_keywords : list string :=
  ["btc"; "eth"; "bitcoin"; "ethereum"; "crypto"; "blockchain"; "defi"; "nft";
   "altcoin"; "token"].

Definition broken_analyzer (text : string) : result TwitterTrendParser.Polarity :=
  Raise TypeError.

(** A timeline entry with its [legacy] object. *)
Definition entry_with (res : pyval) : pyval :=
  PyDict {["content" := PyDict {["itemContent" := PyDict {["tweet_results" :=
    PyDict {["result" := res]} ]} ]} ]}.

Definition sample_legacy : gmap string pyval :=
  list_to_map [ ("full_text", PyStr "Ethereum to the moon");
                ("created_at", PyStr "Mon Jan 01 00:00:00 +0000 2024");
                ("favorite_count", num 3);
                ("retweet_count", num 1) ].

Definition sample_entry : pyval :=
  entry_with (PyDict {["legacy" := PyDict sample_legacy]}).

(** An entry whose [result] is [null]. *)
Definition entry_without_result : pyval := entry_with PyNone.

End Samples.

(* ===================================================================== *)
(** ** What the aggregation computes                                      *)
(* ===================================================================== *)

Module Summary.
Import Py TwitterTrendParser.
Local Open Scope R_scope.

(** The mentions of a corpus, in the order in which the two nested loops of
    the aggregation visit them. *)
Definition mention_pairs (results : list Processed) : list (string * Processed) :=
  flat_map (fun r => map (fun coin => (coin, r)) (crypto_mentions r)) results.

(** The posts that mention [coin], once for each mention. *)
Definition posts_mentioning (coin : string) (results : list Processed) : list Processed :=
  map snd (filter (fun p => p.1 = coin) (mention_pairs results)).

(** A sum taken from left to right, starting from zero. *)
Definition Rsum (l : list R) : R := foldl Rplus 0 l.

(** The value bound to [coin] in the dictionary of the coins. *)
Fixpoint coin_lookup (coin : string) (d : list (string * CoinData)) : option CoinData :=
  match d with
  | [] => None
  | (k, c) :: d' => if decide (k = coin) then Some c else coin_lookup coin d'
  end.

(** The record of a coin after the mentions of [posts] have been counted. *)
Definition tally (c : CoinData) (posts : list Processed) : CoinData :=
  foldl (fun c r => count_mention r c) c posts.

End Summary.

(* ===================================================================== *)
(** ** Vocabulary for the edge cases of the generator                     *)
(* ===================================================================== *)

Module Edges.
Import Py.
Local Open Scope R_scope.

(** A field read with default zero that holds any float, [nan] and the
    infinities included. *)
Definition float_field (d : gmap string pyval) (key : string) (x : npfloat) : Prop :=
  d !! key = Some (PyNum x) \/ (d !! key = None /\ x = Fin 0).

(** The value is not a number. *)
Definition not_a_number (v : pyval) : Prop :=
  (forall x, v <> PyNum x) /\ (forall z, v <> PyInt z).

(** The item is a dictionary that has the four keys the batch loop reads. *)
Definition has_all_keys (data : pyval) : bool :=
  match data with
  | PyDict m =>
      bool_decide (is_Some (m !! "coin")) && bool_decide (is_Some (m !! "sentiment"))
      && bool_decide (is_Some (m !! "mentions")) && bool_decide (is_Some (m !! "engagement"))
  | _ => false
  end.

#[global] Instance npfloat_eq_dec : EqDecision npfloat.
Proof. solve_decision. Defined.

(** The five signal types from the most bearish to the most bullish. *)
Definition rank (t : SignalType.t) : nat :=
  match t with
  | SignalType.STRONG_SELL => 0
  | SignalType.SELL => 1
  | SignalType.NEUTRAL => 2
  | SignalType.BUY => 3
  | SignalType.STRONG_BUY => 4
  end.

End Edges.

(* ===================================================================== *)
(** ** The extraction methods of the parser                               *)
(* ===================================================================== *)

Module TweetFields.
Import Py.
Local Open Scope string_scope.

(** [_extract_tweet_data]: the four fields of the [legacy] object of a
    timeline entry.  Only a [KeyError] is handled. *)
Definition _extract_tweet_data (tweet_entry : pyval) : result (option pyval) :=
  try_except
    (content ← getitem tweet_entry "content";
     item_content ← getitem content "itemContent";
     tweet_results ← getitem item_content "tweet_results";
     res ← getitem tweet_results "result";
     tweet ← getitem res "legacy";
     full_text ← getitem tweet "full_text";
     created_at ← getitem tweet "created_at";
     favorite_count ← getitem tweet "favorite_count";
     retweet_count ← getitem tweet "retweet_count";
     mret (Some (PyDict (list_to_map
       [ ("text", full_text);
         ("created_at", created_at);
         ("favorites", favorite_count);
         ("retweets", retweet_count) ]))))
    (fun e => match e with
              | KeyError => mret None
              | _ => Raise e
              end).

(** The value reached from [v] by indexing with the keys of [path] in turn. *)
Fixpoint follow (v : pyval) (path : list string) : result pyval :=
  match path with
  | [] => Ok v
  | key :: path' => v' ← getitem v key; follow v' path'
  end.

(** Where the [legacy] object of an entry is. *)
Definition legacy_path : list string :=
  ["content"; "itemContent"; "tweet_results"; "result"; "legacy"].

(** [keyword in text]: [keyword] occurs in [text] as a substring. *)
Fixpoint is_substring (keyword text : string) : bool :=
  String.prefix keyword text
  || match text with
     | EmptyString => false
     | String _ rest => is_substring keyword rest
     end.

Section Detection.
(** [str.lower], and the keywords of the parser in the order in which the
    set is iterated. *)
Variable lower : string -> string.
Variable crypto_keywords : list string.

Definition _detect_crypto_mentions (text : string) : list string :=
  let text_lower := lower text in
  List.filter (fun keyword => is_substring keyword text_lower) crypto_keywords.

End Detection.

(** [_analyze_sentiment] around an analyzer that may raise: the scores of
    the analyzer, or all zeros. *)
Definition _analyze_sentiment
    (polarity_scores : string -> result TwitterTrendParser.Polarity) (text : string)
    : TwitterTrendParser.Polarity :=
  match polarity_scores text with
  | Ok scores => scores
  | Raise _ =>
      {| TwitterTrendParser.neg := 0.0; TwitterTrendParser.neu := 0.0;
         TwitterTrendParser.pos := 0.0; TwitterTrendParser.compound := 0.0 |}
  end.

End TweetFields.

(* ===================================================================== *)
(** ** utils/logger.py: [retry_on_error]                                  *)
(* ===================================================================== *)

Module Logger.
Import Py.
Local Open Scope Z_scope.

(** How a call of the decorated function ends: with the value of [func]
    ([Some]) or the final [return None], with the exception of [func] that is
    raised again, or with the exception of [time.sleep] on a duration it does
    not take. *)
Inductive outcome (A : Type) : Type :=
  | Returned (v : option A)
  | Raised (e : exn)
  | SleepRejected (wait_time : Z).
Arguments Returned {A} v.
Arguments Raised {A} e.
Arguments SleepRejected {A} wait_time.

Section Retry.
Context {A : Type}.
(** The parameters of the decorator, and the decorated function, given by
    what its successive calls do: [func k] is the result of call number [k],
    counted from zero.  It is a function with a [__name__], which the
    warning before each wait formats. *)
Variable max_retries : Z.
Variable delay : Z.
Variable func : nat -> result A.
(** [time.sleep] raises instead of waiting on a negative duration
    ([ValueError]) and on one that the clock of the platform cannot
    represent ([OverflowError], from about [2^63] nanoseconds on);
    [sleep_accepts] tells which of the durations that are not negative it
    takes. *)
Variable sleep_accepts : Z -> bool.

(** The [while] loop of [wrapper], from the state [retries] with the waits
    done so far; [fuel] bounds the number of turns. *)
Fixpoint retry_loop (fuel : nat) (retries : nat) (sleeps : list Z)
    : option (outcome A * list Z) :=
  match fuel with
  | O => None
  | S fuel' =>
      if Z.of_nat retries <? max_retries then
        match func retries with
        | Ok v => Some (Returned (Some v), sleeps)
        | Raise e =>
            let retries' := S retries in
            if Z.of_nat retries' =? max_retries then Some (Raised e, sleeps)
            else
              let wait_time := delay * 2 ^ (Z.of_nat retries' - 1) in
              if wait_time <? 0 then Some (SleepRejected wait_time, sleeps)
              else if sleep_accepts wait_time
              then retry_loop fuel' retries' (sleeps ++ [wait_time])
              else Some (SleepRejected wait_time, sleeps)
        end
      else Some (Returned None, sleeps)
  end.

(** The decorated function: its outcome and the durations it slept. *)
Definition wrapper : option (outcome A * list Z) :=
  retry_loop (S (Z.to_nat max_retries)) 0 [].

End Retry.

(** The waits of an exponential backoff: [delay], [2*delay], ..., [k] of
    them. *)
Definition backoff (delay : Z) (k : nat) : list Z :=
  map (fun j => delay * 2 ^ Z.of_nat j) (seq 0 k).

(** For the examples: a [time.sleep] that takes the waits of up to [10^9]
    seconds and refuses the longer ones. *)
Definition sample_sleep (wait_time : Z) : bool := wait_time <=? 10 ^ 9.

End Logger.

(* ===================================================================== *)
(** ** analysis/sentiment_analyzer.py                                     *)
(* ===================================================================== *)

Module SentimentAnalyzer.
Import Py.

(** [list.insert(idx, x)] for an index that is not negative. *)
Definition list_insert_at {X} (idx : nat) (x : X) (l : list X) : list X :=
  take idx l ++ x :: drop idx l.

(** [range(0, n, step)] for a positive [step]. *)
Definition range_step (n step : nat) : list nat :=
  map (fun k => k * step)%nat (seq 0 ((n + step - 1) / step)).

(** A loop whose body may raise. *)
Fixpoint for_each {X S} (body : S -> X -> result S) (state : S) (items : list X)
    : result S :=
  match items with
  | [] => Ok state
  | item :: rest => state' ← body state item; for_each body state' rest
  end.

Section Batch.
(** The results of the analysis, the two methods [analyze_batch] calls, and
    the batch size (32 in the constructor, a positive number). *)
Variable Res : Type.
Variable _cached_analyze : string -> result (option Res).
Variable _analyze_single : string -> result Res.
Variable batch_size : positive.

(** The first inner loop: cached results in order, and the texts without
    one with their indices. *)
Definition scan (state : list Res * list string * list nat) (item : nat * string)
    : result (list Res * list string * list nat) :=
  let '(batch_results, uncached_texts, uncached_indices) := state in
  cached_result ← _cached_analyze item.2;
  mret (match cached_result with
        | Some r => (batch_results ++ [r], uncached_texts, uncached_indices)
        | None => (batch_results, uncached_texts ++ [item.2], uncached_indices ++ [item.1])
        end).

(** One batch.  The futures of the executor give their results, or the
    exception of the first one that failed, in the order of submission. *)
Definition analyze_one_batch (batch_texts : list string) : result (list Res) :=
  state ← for_each scan ([], [], []) (zip (seq 0 (length batch_texts)) batch_texts);
  let '(batch_results, uncached_texts, uncached_indices) := state in
  match uncached_texts with
  | [] => mret batch_results
  | _ =>
      futures ← for_each (fun done text => r ← _analyze_single text; mret (done ++ [r]))
                         [] uncached_texts;
      mret (foldl (fun acc p => list_insert_at p.1 p.2 acc) batch_results
                  (zip uncached_indices futures))
  end.

Definition analyze_batch (texts : list string) : result (list Res) :=
  for_each
    (fun results i =>
       batch_results ← analyze_one_batch
                         (take (Pos.to_nat batch_size) (drop i texts));
       mret (results ++ batch_results))
    [] (range_step (length texts) (Pos.to_nat batch_size)).

End Batch.

Local Open Scope R_scope.

(** [np.argmax] on three scores: the first index that holds the maximum. *)
Definition argmax3 (s0 s1 s2 : R) : nat :=
  if decide (s1 <= s0 /\ s2 <= s0) then 0%nat
  else if decide (s2 <= s1) then 1%nat
  else 2%nat.

(** The labels, in the order of the scores. *)
Definition labels : list string := ["negative"; "neutral"; "positive"].

(** What [_analyze_single] builds from the softmax scores [s0], [s1], [s2]
    of the model. *)
Record Analysis : Type := {
  label : string;
  confidence : R;
  negative : R;
  neutral : R;
  positive : R;
  compound : R
}.

Definition analysis_of_scores (s0 s1 s2 : R) : Analysis :=
  let label_idx := argmax3 s0 s1 s2 in
  {| label := nth label_idx labels "";
     confidence := nth label_idx [s0; s1; s2] 0;
     negative := s0;
     neutral := s1;
     positive := s2;
     compound := (s2 - s0) / (1e-6 + (s0 + s1 + s2)) |}.

(** The same result as the dictionary the method returns. *)
Definition analysis_dict (a : Analysis) : pyval :=
  PyDict (list_to_map
    [ ("label", PyStr (label a));
      ("confidence", num (confidence a));
      ("scores", PyDict (list_to_map
         [ ("negative", num (negative a));
           ("neutral", num (neutral a));
           ("positive", num (positive a));
           ("compound", num (compound a)) ])) ]).

End SentimentAnalyzer.

Module BatchView.
Import Py.

(** The positions, counted from [k], and the texts of [l] for which the
    cache [c] has no result. *)
Fixpoint uncached {Res} (c : string -> option Res) (k : nat) (l : list string)
    : list (nat * string) :=
  match l with
  | [] => []
  | text :: l' =>
      match c text with
      | Some _ => uncached c (S k) l'
      | None => (k, text) :: uncached c (S k) l'
      end
  end.

(** The result for a text: the cached one, or the fresh one [s]. *)
Definition result_for {Res} (c : string -> option Res) (s : string -> Res)
    (text : string) : Res :=
  default (s text) (c text).

End BatchView.

(* ===================================================================== *)
(** ** Facts about floats and the monad                                   *)
(* ===================================================================== *)

Import Py SignalGenerator Design.
Local Open Scope R_scope.

Lemma fmin_Fin a b : fmin (Fin a) (Fin b) = Fin (Rmin a b).
Proof.
  unfold fmin, flt, Rmin. case_bool_decide; destruct (Rle_dec a b); f_equal; lra.
Qed.

Lemma fmax_Fin a b : fmax (Fin a) (Fin b) = Fin (Rmax a b).
Proof.
  unfold fmax, fgt, flt, Rmax. case_bool_decide; destruct (Rle_dec a b); f_equal; lra.
Qed.

Lemma clamp_bounds lo hi x : lo <= hi -> lo <= clamp lo hi x <= hi.
Proof.
  intros Hle. unfold clamp, Rmax, Rmin.
  repeat destruct (Rle_dec _ _); lra.
Qed.

Lemma clamp_id lo hi x : lo <= x <= hi -> clamp lo hi x = x.
Proof.
  intros Hx. unfold clamp, Rmax, Rmin.
  repeat destruct (Rle_dec _ _); lra.
Qed.

Lemma dict_get_field d key x :
  field d key x -> dict_get (PyDict d) key (num 0) = Ok (num x).
Proof.
  intros [Hk | [Hk ->]]; simpl; rewrite Hk; reflexivity.
Qed.

(** The sentiment score on a dictionary whose three fields are numbers. *)
Lemma sentiment_score_fields d c p n :
  field d "compound" c -> field d "pos" p -> field d "neg" n ->
  _calculate_sentiment_score (PyDict d) = Ok (Fin (sentiment_formula c p n)).
Proof.
  intros Hc Hp Hn.
  unfold _calculate_sentiment_score, _calculate_sentiment_score_body.
  rewrite (dict_get_field _ _ _ Hc), (dict_get_field _ _ _ Hp), (dict_get_field _ _ _ Hn).
  cbn [mbind result_bind num py_mul py_sub py_gt mret result_ret try_except].
  unfold fgt, flt. cbn [fsub fneg fadd fmul].
  rewrite fmin_Fin, fmax_Fin.
  unfold sentiment_formula, clamp, sign.
  do 2 f_equal.
  case_bool_decide; destruct (decide (0 < c)); try lra;
    f_equal; f_equal; lra.
Qed.

(** C1.  On every sentiment dictionary whose [compound], [pos] and [neg]
    entries are numbers (a missing entry counting as 0), the sentiment score
    is [compound*0.5 + (pos - neg)*0.3 + s*0.2] clamped to [-1, 1], where [s]
    is [1] if [compound > 0] and [-1] otherwise; the result lies in [-1, 1];
    for [compound = 0] the third term is [-0.2]; the score is exactly [1] at
    [compound = 1, pos = 1, neg = 0] and exactly [-1] at [compound = -1,
    pos = 0, neg = 1]. *)
Theorem C1_sentiment_score (d : gmap string pyval) (c p n : R) :
  field d "compound" c -> field d "pos" p -> field d "neg" n ->
  _calculate_sentiment_score (PyDict d)
  = Ok (Fin (clamp (-1) 1
          (c * 0.5 + (p - n) * 0.3 + (if decide (0 < c) then 1 else -1) * 0.2)))
  /\ (exists score, _calculate_sentiment_score (PyDict d) = Ok (Fin score)
                    /\ -1 <= score <= 1)
  /\ (c = 0 ->
      _calculate_sentiment_score (PyDict d)
      = Ok (Fin (clamp (-1) 1 ((p - n) * 0.3 + -0.2))))
  /\ (c = 1 -> p = 1 -> n = 0 -> _calculate_sentiment_score (PyDict d) = Ok (Fin 1))
  /\ (c = -1 -> p = 0 -> n = 1 -> _calculate_sentiment_score (PyDict d) = Ok (Fin (-1))).
Proof.
  intros Hc Hp Hn.
  pose proof (sentiment_score_fields d c p n Hc Hp Hn) as Hscore.
  split; [exact Hscore |].
  split.
  { eexists. split; [exact Hscore |]. apply clamp_bounds. lra. }
  rewrite Hscore. unfold sentiment_formula, sign.
  repeat split.
  - intros ->. destruct (decide (0 < 0)); [lra |]. do 3 f_equal. lra.
  - intros -> -> ->. destruct (decide (0 < 1)); [| lra].
    do 2 f_equal. unfold clamp, Rmax, Rmin. repeat destruct (Rle_dec _ _); lra.
  - intros -> -> ->. destruct (decide (0 < -1)); [lra |].
    do 2 f_equal. unfold clamp, Rmax, Rmin. repeat destruct (Rle_dec _ _); lra.
Qed.

(** The score of [{'compound': 1, 'pos': 1}], whose [neg] is missing. *)
Lemma C1_sentiment_score_witness :
  _calculate_sentiment_score (PyDict (<["compound" := num 1]> {["pos" := num 1]}))
  = Ok (Fin 1).
Proof.
  refine (proj1 (proj2 (proj2 (proj2
    (C1_sentiment_score (<["compound" := num 1]> {["pos" := num 1]}) 1 1 0 _ _ _))))
    eq_refl eq_refl eq_refl).
  - left. reflexivity.
  - left. reflexivity.
  - right. split; reflexivity.
Defined.

(** *** Exception handlers *)

Lemma try_except_default {A} (body : result A) (v0 : A) :
  exists v, try_except body (fun _ => mret v0) = Ok v.
Proof. destruct body; simpl; eauto. Qed.

Lemma try_except_caught {A} (body : result A) (e : exn) (v0 : A) :
  body = Raise e -> try_except body (fun _ => mret v0) = Ok v0.
Proof. intros ->. reflexivity. Qed.

(** Splits the hypothesis [H] along the binds of a body that returned. *)
Ltac bind_inv H :=
  repeat match type of H with
    | context [mbind _ ?m] =>
        let E := fresh "E" in
        destruct m eqn:E; cbn [mbind result_bind] in H; [| discriminate H]
    end.

(** *** Ranges of the three components *)

Lemma sentiment_clamp_range (w : npfloat) :
  exists r, fmax (Fin (-1.0)) (fmin (Fin 1.0) w) = Fin r /\ -1 <= r <= 1.
Proof.
  destruct w as [a | | |]; unfold fmax, fmin, fgt, flt;
    repeat (case_bool_decide; try lra); eexists; (split; [reflexivity | lra]).
Qed.

Lemma unit_clamp_range (w : npfloat) :
  exists r, fmin (Fin 1.0) (fmax (Fin 0.0) w) = Fin r /\ 0 <= r <= 1.
Proof.
  destruct w as [a | | |]; unfold fmax, fmin, fgt, flt;
    repeat (case_bool_decide; try lra); eexists; (split; [reflexivity | lra]).
Qed.

Lemma sentiment_score_range (sentiment_data : pyval) :
  exists r, _calculate_sentiment_score sentiment_data = Ok (Fin r) /\ -1 <= r <= 1.
Proof.
  unfold _calculate_sentiment_score.
  destruct (_calculate_sentiment_score_body sentiment_data) as [v | e] eqn:Hbody; simpl.
  - unfold _calculate_sentiment_score_body in Hbody. bind_inv Hbody.
    injection Hbody as <-.
    match goal with
    | |- context [fmax _ (fmin _ ?w)] =>
        destruct (sentiment_clamp_range w) as (r & -> & Hr)
    end.
    eauto.
  - exists 0.0. split; [reflexivity | lra].
Qed.

Lemma mention_confidence_range th (mention_count : pyval) :
  exists r, _calculate_mention_confidence th mention_count = Ok (Fin r) /\ 0 <= r <= 1.
Proof.
  unfold _calculate_mention_confidence.
  destruct (_calculate_mention_confidence_body th mention_count) as [v | e] eqn:Hbody; simpl.
  - unfold _calculate_mention_confidence_body in Hbody. bind_inv Hbody.
    injection Hbody as <-.
    match goal with
    | |- context [fmin _ (fmax _ ?w)] =>
        destruct (unit_clamp_range w) as (r & -> & Hr)
    end.
    eauto.
  - exists 0.0. split; [reflexivity | lra].
Qed.

Lemma ln_1p_nonneg a : 0 <= a -> 0 <= ln (1 + a).
Proof.
  intros [Ha | <-].
  - left. rewrite <- ln_1. apply ln_increasing; lra.
  - rewrite Rplus_0_r, ln_1. lra.
Qed.

Lemma ln_1p_pos a : 0 < a -> 0 < ln (1 + a).
Proof. intros Ha. rewrite <- ln_1. apply ln_increasing; lra. Qed.

Lemma ln_1p_le a b : 0 <= a -> a <= b -> ln (1 + a) <= ln (1 + b).
Proof.
  intros Ha [Hab | ->]; [| lra].
  left. apply ln_increasing; lra.
Qed.

Lemma fmax_zero_nonneg x : not_negative (fmax (Fin 0) x).
Proof.
  destruct x as [a | | |]; unfold fmax, fgt, flt;
    try case_bool_decide; cbn [not_negative]; try lra; exact I.
Qed.

(** What [np.log1p(max(0, v))] is the logarithm of, when it has a value. *)
Lemma py_max_log1p v w y :
  py_max (Fin 0) v = Ok w -> np_log1p w = Ok y -> exists x, not_negative x /\ y = flog1p x.
Proof.
  destruct v as [| x | | | z]; try discriminate; cbn [py_max].
  - intros [= <-] [= <-]. exists (fmax (Fin 0) x). split; [apply fmax_zero_nonneg | reflexivity].
  - unfold fgt, flt. case_bool_decide as Hz; intros [= <-]; cbn [np_log1p].
    + destruct (decide (numpy_int z)); [| discriminate].
      intros [= <-]. exists (Fin (IZR z)). split; [cbn [not_negative]; lra | reflexivity].
    + intros [= <-]. exists (Fin 0). split; [cbn [not_negative]; lra | reflexivity].
Qed.

Lemma log1p_ratio_range m x :
  0 < m -> not_negative x ->
  exists r, fmin (Fin 1.0) (fdiv (flog1p x) (Fin (ln (1 + m)))) = Fin r /\ 0 <= r <= 1.
Proof.
  intros Hpos Hx. pose proof (ln_1p_pos m Hpos) as Hden.
  destruct x as [a | | |]; cbn [not_negative] in Hx; try contradiction.
  - cbn [flog1p]. destruct (decide (-1 < a)); [| lra].
    cbn [fdiv]. destruct (decide (ln (1 + m) = 0)); [lra |].
    pose proof (ln_1p_nonneg a Hx) as Hnum.
    assert (0 <= ln (1 + a) / ln (1 + m)) as Hq.
    { apply Rmult_le_pos; [lra |]. left. apply Rinv_0_lt_compat. lra. }
    rewrite fmin_Fin. eexists. split; [reflexivity |].
    unfold Rmin. destruct (Rle_dec _ _); lra.
  - cbn [flog1p fdiv]. destruct (decide (ln (1 + m) < 0)); [lra |].
    exists 1.0. split; [reflexivity | lra].
Qed.

(** With a positive [MIN_ENGAGEMENT] the engagement impact is a number of
    [0, 1], whatever the engagement score is. *)
Lemma engagement_impact_range th m (engagement_score : pyval) :
  MIN_ENGAGEMENT th = num m -> 0 < m ->
  exists r, _calculate_engagement_impact th engagement_score = Ok (Fin r) /\ 0 <= r <= 1.
Proof.
  intros Hm Hpos.
  unfold _calculate_engagement_impact, _calculate_engagement_impact_body.
  rewrite Hm.
  destruct (py_max (Fin 0) engagement_score) as [w | e] eqn:Hw; cbn [mbind result_bind];
    [| exists 0.0; split; [reflexivity | lra]].
  destruct (np_log1p w) as [y | e] eqn:Hy; cbn [mbind result_bind];
    [| exists 0.0; split; [reflexivity | lra]].
  destruct (py_max_log1p _ _ _ Hw Hy) as (x & Hx & ->).
  cbn [np_log1p num mbind result_bind mret result_ret try_except flog1p].
  destruct (decide (-1 < m)) as [_ | Hno]; [| lra].
  destruct (log1p_ratio_range m x Hpos Hx) as (r & -> & Hr). eauto.
Qed.

(** *** The classifier *)

Lemma fge_Fin x a : fge (Fin x) (Fin a) = true <-> a <= x.
Proof. unfold fge, fle. apply bool_decide_eq_true. Qed.

Lemma fle_Fin x a : fle (Fin x) (Fin a) = true <-> x <= a.
Proof. unfold fle. apply bool_decide_eq_true. Qed.

Lemma classify_first_match th sb b ss s (x : npfloat) :
  numeric_cut_points th sb b ss s ->
  exists t, classify th x = Ok t /\ first_match sb b ss s x t.
Proof.
  intros (Hsb & Hb & Hss & Hs). unfold classify, first_match.
  rewrite Hsb, Hb, Hss, Hs.
  cbn [num py_ge py_le mbind result_bind mret result_ret].
  destruct (fge x sb) eqn:E1; cbn [mbind result_bind].
  { eexists. split; [reflexivity |]. repeat split; intros; congruence. }
  destruct (fge x b) eqn:E2; cbn [mbind result_bind].
  { eexists. split; [reflexivity |]. repeat split; intros; congruence. }
  destruct (fle x ss) eqn:E3; cbn [mbind result_bind].
  { eexists. split; [reflexivity |]. repeat split; intros; congruence. }
  destruct (fle x s) eqn:E4; cbn [mbind result_bind].
  { eexists. split; [reflexivity |]. repeat split; intros; congruence. }
  eexists. split; [reflexivity |]. repeat split; intros; congruence.
Qed.

(** [generate_signal] once its three components and the type are known. *)
Lemma generate_signal_components th coin sentiment_data mention_count engagement_score
    sscore impact conf t :
  _calculate_sentiment_score sentiment_data = Ok sscore ->
  _calculate_engagement_impact th engagement_score = Ok impact ->
  _calculate_mention_confidence th mention_count = Ok conf ->
  classify th (fadd (fadd (fmul sscore (Fin 0.5)) (fmul impact (Fin 0.3)))
                    (fmul conf (Fin 0.2))) = Ok t ->
  generate_signal th coin sentiment_data mention_count engagement_score
  = Ok (Some {|
      coin := coin;
      signal_type := SignalType.value t;
      signal_strength :=
        fadd (fadd (fmul sscore (Fin 0.5)) (fmul impact (Fin 0.3))) (fmul conf (Fin 0.2));
      confidence := conf;
      metrics := {| sentiment_score := sscore; engagement_impact := impact;
                    mention_count := mention_count; raw_sentiment := sentiment_data |}
    |}).
Proof.
  intros Hs He Hc Ht. unfold generate_signal, generate_signal_body.
  rewrite Hs, He, Hc. cbn [mbind result_bind]. rewrite Ht. reflexivity.
Qed.

(** With numeric cut points [generate_signal] always returns a signal. *)
Lemma generate_signal_numeric th sb b ss s coin sentiment_data mention_count engagement_score :
  numeric_cut_points th sb b ss s ->
  exists sscore impact conf t,
    _calculate_sentiment_score sentiment_data = Ok sscore /\
    _calculate_engagement_impact th engagement_score = Ok impact /\
    _calculate_mention_confidence th mention_count = Ok conf /\
    let strength :=
      fadd (fadd (fmul sscore (Fin 0.5)) (fmul impact (Fin 0.3))) (fmul conf (Fin 0.2)) in
    first_match sb b ss s strength t /\
    generate_signal th coin sentiment_data mention_count engagement_score
    = Ok (Some {|
        coin := coin;
        signal_type := SignalType.value t;
        signal_strength := strength;
        confidence := conf;
        metrics := {| sentiment_score := sscore; engagement_impact := impact;
                      mention_count := mention_count; raw_sentiment := sentiment_data |}
      |}).
Proof.
  intros Hcuts.
  destruct (sentiment_score_range sentiment_data) as (r1 & Hs & _).
  destruct (try_except_default (_calculate_engagement_impact_body th engagement_score) (Fin 0.0))
    as (impact & He).
  destruct (mention_confidence_range th mention_count) as (r3 & Hc & _).
  destruct (classify_first_match th sb b ss s
              (fadd (fadd (fmul (Fin r1) (Fin 0.5)) (fmul impact (Fin 0.3)))
                    (fmul (Fin r3) (Fin 0.2))) Hcuts) as (t & Ht & Hfm).
  exists (Fin r1), impact, (Fin r3), t.
  split; [exact Hs |]. split; [exact He |]. split; [exact Hc |].
  split; [exact Hfm |].
  now apply generate_signal_components.
Qed.

(** C2.  For thresholds whose cut points are numbers, [generate_signal]
    returns a signal whose type is chosen by first match in the order
    STRONG_BUY ([strength >= STRONG_BUY]), BUY ([strength >= BUY]),
    STRONG_SELL ([strength <= STRONG_SELL]), SELL ([strength <= SELL]),
    NEUTRAL; the comparisons are inclusive, so a strength equal to the
    STRONG_BUY threshold is a STRONG_BUY. *)
Theorem C2_first_match_classification (th : SignalThresholds) (sb b ss s : npfloat) :
  numeric_cut_points th sb b ss s ->
  (forall coin sentiment_data mention_count engagement_score,
     exists sig t,
       generate_signal th coin sentiment_data mention_count engagement_score = Ok (Some sig)
       /\ signal_type sig = SignalType.value t
       /\ first_match sb b ss s (signal_strength sig) t)
  /\ (forall x, exists t, classify th x = Ok t /\ first_match sb b ss s x t)
  /\ (forall x a : R, fge (Fin x) (Fin a) = true <-> a <= x)
  /\ (forall x a : R, fle (Fin x) (Fin a) = true <-> x <= a)
  /\ (forall r : R, sb = Fin r -> classify th (Fin r) = Ok SignalType.STRONG_BUY).
Proof.
  intros Hcuts. split; [| split; [| split; [| split]]].
  - intros coin sd mc es.
    destruct (generate_signal_numeric th sb b ss s coin sd mc es Hcuts)
      as (sscore & impact & conf & t & _ & _ & _ & Hfm & Hsig).
    eexists _, t. split; [exact Hsig |]. split; [reflexivity | exact Hfm].
  - intros x. now apply classify_first_match.
  - apply fge_Fin.
  - apply fle_Fin.
  - intros r ->.
    destruct (classify_first_match th (Fin r) b ss s (Fin r) Hcuts) as (t & Ht & Hfm & _).
    rewrite Ht, Hfm; [reflexivity |]. apply fge_Fin. lra.
Qed.

Lemma default_cut_points :
  numeric_cut_points default_thresholds (Fin 0.8) (Fin 0.5) (Fin (-0.8)) (Fin (-0.5)).
Proof. repeat split. Qed.

(** With the default thresholds a strength of exactly 0.8 is a STRONG_BUY. *)
Lemma C2_first_match_classification_witness :
  classify default_thresholds (Fin 0.8) = Ok SignalType.STRONG_BUY.
Proof.
  exact (proj2 (proj2 (proj2 (proj2
    (C2_first_match_classification default_thresholds
       (Fin 0.8) (Fin 0.5) (Fin (-0.8)) (Fin (-0.5))
       (conj eq_refl (conj eq_refl (conj eq_refl eq_refl)))))))
    0.8 eq_refl).
Defined.

(** *** The signal strength *)

(** The signal with its numbers, for thresholds with numeric cut points and
    a positive [MIN_ENGAGEMENT]. *)
Lemma generate_signal_finite th sb b ss s m coin sentiment_data mention_count engagement_score :
  numeric_cut_points th sb b ss s ->
  MIN_ENGAGEMENT th = num m -> 0 < m ->
  exists sscore impact conf t,
    _calculate_sentiment_score sentiment_data = Ok (Fin sscore) /\
    _calculate_engagement_impact th engagement_score = Ok (Fin impact) /\
    _calculate_mention_confidence th mention_count = Ok (Fin conf) /\
    -1 <= sscore <= 1 /\ 0 <= impact <= 1 /\ 0 <= conf <= 1 /\
    first_match sb b ss s (Fin (sscore * 0.5 + impact * 0.3 + conf * 0.2)) t /\
    generate_signal th coin sentiment_data mention_count engagement_score
    = Ok (Some {|
        coin := coin;
        signal_type := SignalType.value t;
        signal_strength := Fin (sscore * 0.5 + impact * 0.3 + conf * 0.2);
        confidence := Fin conf;
        metrics := {| sentiment_score := Fin sscore; engagement_impact := Fin impact;
                      mention_count := mention_count; raw_sentiment := sentiment_data |}
      |}).
Proof.
  intros Hcuts Hm Hpos.
  destruct (sentiment_score_range sentiment_data) as (r1 & Hs & Hr1).
  destruct (engagement_impact_range th m engagement_score Hm Hpos) as (r2 & He & Hr2).
  destruct (mention_confidence_range th mention_count) as (r3 & Hc & Hr3).
  destruct (classify_first_match th sb b ss s
              (Fin (r1 * 0.5 + r2 * 0.3 + r3 * 0.2)) Hcuts) as (t & Ht & Hfm).
  exists r1, r2, r3, t.
  do 6 (split; [assumption |]). split; [exact Hfm |].
  now apply (generate_signal_components th coin sentiment_data mention_count
               engagement_score (Fin r1) (Fin r2) (Fin r3) t).
Qed.

(** C3.  For thresholds with numeric cut points and a positive
    [MIN_ENGAGEMENT], [generate_signal] returns on every input a signal whose
    strength is [sentiment_score*0.5 + engagement_impact*0.3 + confidence*0.2]
    of its three components, not clamped; as the sentiment score is in
    [-1, 1] and the two others in [0, 1], the strength is in [-0.5, 1.0]. *)
Theorem C3_signal_strength (th : SignalThresholds) (sb b ss s : npfloat) (m : R) :
  numeric_cut_points th sb b ss s ->
  MIN_ENGAGEMENT th = num m -> 0 < m ->
  forall coin sentiment_data mention_count engagement_score,
  exists sig sscore impact conf,
    generate_signal th coin sentiment_data mention_count engagement_score = Ok (Some sig)
    /\ _calculate_sentiment_score sentiment_data = Ok (Fin sscore)
    /\ _calculate_engagement_impact th engagement_score = Ok (Fin impact)
    /\ _calculate_mention_confidence th mention_count = Ok (Fin conf)
    /\ signal_strength sig = Fin (sscore * 0.5 + impact * 0.3 + conf * 0.2)
    /\ -1 <= sscore <= 1 /\ 0 <= impact <= 1 /\ 0 <= conf <= 1
    /\ -0.5 <= sscore * 0.5 + impact * 0.3 + conf * 0.2 <= 1.0.
Proof.
  intros Hcuts Hm Hpos coin sd mc es.
  destruct (generate_signal_finite th sb b ss s m coin sd mc es Hcuts Hm Hpos)
    as (r1 & r2 & r3 & t & Hs & He & Hc & Hr1 & Hr2 & Hr3 & _ & Hsig).
  eexists _, r1, r2, r3.
  split; [exact Hsig |].
  do 3 (split; [assumption |]). split; [reflexivity |].
  do 3 (split; [assumption |]). lra.
Qed.

(** The default thresholds on the sample of the module's [main]. *)
Lemma C3_signal_strength_witness :
  exists sig sscore impact conf,
    generate_signal default_thresholds (PyStr "BTC")
      (PyDict (<["compound" := num 0.8]> (<["pos" := num 0.6]> {["neg" := num 0.1]})))
      (num 10) (num 500.0) = Ok (Some sig)
    /\ _calculate_sentiment_score
         (PyDict (<["compound" := num 0.8]> (<["pos" := num 0.6]> {["neg" := num 0.1]})))
       = Ok (Fin sscore)
    /\ _calculate_engagement_impact default_thresholds (num 500.0) = Ok (Fin impact)
    /\ _calculate_mention_confidence default_thresholds (num 10) = Ok (Fin conf)
    /\ signal_strength sig = Fin (sscore * 0.5 + impact * 0.3 + conf * 0.2)
    /\ -1 <= sscore <= 1 /\ 0 <= impact <= 1 /\ 0 <= conf <= 1
    /\ -0.5 <= sscore * 0.5 + impact * 0.3 + conf * 0.2 <= 1.0.
Proof.
  apply (C3_signal_strength default_thresholds (Fin 0.8) (Fin 0.5) (Fin (-0.8)) (Fin (-0.5)) 100.0).
  - repeat split.
  - reflexivity.
  - lra.
Defined.

(** *** The logarithmic components *)

Lemma mention_confidence_formula th M n :
  MIN_MENTIONS th = num M -> 0 < M -> 0 <= n ->
  _calculate_mention_confidence th (num n) = Ok (Fin (confidence_formula M n)).
Proof.
  intros HM Hpos Hn.
  unfold _calculate_mention_confidence, _calculate_mention_confidence_body.
  rewrite HM.
  cbn [num np_log1p flog1p mbind result_bind mret result_ret try_except].
  destruct (decide (-1 < n)); [| lra]. destruct (decide (-1 < M)); [| lra].
  cbn [mbind result_bind fdiv].
  pose proof (ln_1p_pos M Hpos) as Hden.
  destruct (decide (ln (1 + M) = 0)); [lra |].
  cbn [try_except]. rewrite fmax_Fin, fmin_Fin.
  do 2 f_equal. unfold confidence_formula, clamp, Rmax, Rmin.
  repeat destruct (Rle_dec _ _); lra.
Qed.

Lemma confidence_formula_mono M n1 n2 :
  0 < M -> 0 <= n1 -> n1 <= n2 -> confidence_formula M n1 <= confidence_formula M n2.
Proof.
  intros Hpos Hn1 Hle. unfold confidence_formula, clamp.
  pose proof (ln_1p_pos M Hpos) as Hden.
  pose proof (ln_1p_le n1 n2 Hn1 Hle) as Hnum.
  assert (ln (1 + n1) / ln (1 + M) <= ln (1 + n2) / ln (1 + M)) as Hq.
  { apply Rmult_le_compat_r; [| exact Hnum]. left. now apply Rinv_0_lt_compat. }
  unfold Rmax, Rmin. repeat destruct (Rle_dec _ _); lra.
Qed.

Lemma engagement_impact_formula th m e :
  MIN_ENGAGEMENT th = num m -> 0 < m ->
  _calculate_engagement_impact th (num e) = Ok (Fin (engagement_formula m e)).
Proof.
  intros Hm Hpos.
  unfold _calculate_engagement_impact, _calculate_engagement_impact_body.
  rewrite Hm.
  cbn [num py_max np_log1p mbind result_bind mret result_ret].
  rewrite fmax_Fin. cbn [flog1p].
  assert (0 <= Rmax 0 e) as Hmax by apply Rmax_l.
  destruct (decide (-1 < Rmax 0 e)); [| lra]. destruct (decide (-1 < m)); [| lra].
  cbn [mbind result_bind fdiv].
  pose proof (ln_1p_pos m Hpos) as Hden.
  destruct (decide (ln (1 + m) = 0)); [lra |].
  rewrite fmin_Fin. cbn [try_except mret result_ret].
  do 2 f_equal. unfold engagement_formula. f_equal. lra.
Qed.

Lemma engagement_formula_mono m e1 e2 :
  0 < m -> e1 <= e2 -> engagement_formula m e1 <= engagement_formula m e2.
Proof.
  intros Hpos Hle. unfold engagement_formula.
  pose proof (ln_1p_pos m Hpos) as Hden.
  assert (0 <= Rmax 0 e1) as H1 by apply Rmax_l.
  assert (Rmax 0 e1 <= Rmax 0 e2) as H12.
  { unfold Rmax. repeat destruct (Rle_dec _ _); lra. }
  pose proof (ln_1p_le _ _ H1 H12) as Hnum.
  assert (ln (1 + Rmax 0 e1) / ln (1 + m) <= ln (1 + Rmax 0 e2) / ln (1 + m)) as Hq.
  { apply Rmult_le_compat_r; [| exact Hnum]. left. now apply Rinv_0_lt_compat. }
  unfold Rmin. repeat destruct (Rle_dec _ _); lra.
Qed.

Lemma ln_ratio_self a : 0 < a -> ln (1 + a) / ln (1 + a) = 1.
Proof.
  intros Ha. pose proof (ln_1p_pos a Ha). unfold Rdiv. apply Rinv_r. lra.
Qed.

Lemma ln_ratio_zero a : ln (1 + 0) / ln (1 + a) = 0.
Proof. rewrite Rplus_0_r, ln_1. unfold Rdiv. apply Rmult_0_l. Qed.

Lemma confidence_formula_saturated M n :
  0 < M -> M <= n -> confidence_formula M n = 1.
Proof.
  intros Hpos Hle. unfold confidence_formula.
  pose proof (ln_1p_pos M Hpos) as Hden.
  pose proof (ln_1p_le M n ltac:(lra) Hle) as Hnum.
  assert (1 <= ln (1 + n) / ln (1 + M)) as Hq.
  { apply (Rmult_le_reg_r (ln (1 + M))); [exact Hden |].
    unfold Rdiv. rewrite Rmult_assoc, Rinv_l by lra. lra. }
  unfold clamp, Rmax, Rmin. repeat destruct (Rle_dec _ _); lra.
Qed.

(** *** Floats, and ints below [2^64] *)

Lemma np_log1p_small v x :
  small_number v x -> 0 <= x -> np_log1p v = Ok (Fin (ln (1 + x))).
Proof.
  intros [-> | (z & -> & -> & Hz)] Hx; cbn [np_log1p num flog1p].
  - destruct (decide (-1 < x)); [reflexivity | lra].
  - destruct (decide (numpy_int z)) as [| Hout].
    + destruct (decide (-1 < IZR z)); [reflexivity | lra].
    + exfalso. apply Hout. unfold numpy_int. apply (le_IZR 0) in Hx. lia.
Qed.

Lemma np_log1p_big_int z : (2 ^ 64 <= z)%Z -> np_log1p (PyInt z) = Raise TypeError.
Proof.
  intros Hz. cbn [np_log1p]. destruct (decide (numpy_int z)) as [Hin |]; [| reflexivity].
  unfold numpy_int in Hin. lia.
Qed.

Lemma float_of_numpy_int z : numpy_int z -> float_of_int z = Ok (Fin (IZR z)).
Proof.
  intros Hz. unfold float_of_int.
  destruct (decide (Z.abs z < 2 ^ 1024 - 2 ^ 970)%Z) as [| Hout]; [reflexivity |].
  exfalso. apply Hout. unfold numpy_int in Hz.
  assert (2 ^ 64 < 2 ^ 1024 - 2 ^ 970)%Z as Hbound by (vm_compute; reflexivity).
  assert (2 ^ 63 < 2 ^ 64)%Z as Hpow by (vm_compute; reflexivity).
  lia.
Qed.

(** The operations of the generator do not tell an int that NumPy converts
    from the float of the same value. *)
Lemma numpy_int_as_float z (c x : npfloat) :
  numpy_int z ->
  py_mul (PyInt z) c = py_mul (num (IZR z)) c
  /\ py_gt (PyInt z) c = py_gt (num (IZR z)) c
  /\ py_ge x (PyInt z) = py_ge x (num (IZR z))
  /\ py_le x (PyInt z) = py_le x (num (IZR z))
  /\ py_sub (PyInt z) (PyNum x) = py_sub (num (IZR z)) (PyNum x)
  /\ py_sub (PyNum x) (PyInt z) = py_sub (PyNum x) (num (IZR z))
  /\ (forall z', numpy_int z' ->
      py_sub (PyInt z) (PyInt z') = py_sub (num (IZR z)) (num (IZR z')))
  /\ np_log1p (PyInt z) = np_log1p (num (IZR z))
  /\ (w ← py_max c (PyInt z); np_log1p w) = (w ← py_max c (num (IZR z)); np_log1p w).
Proof.
  intros Hz. pose proof (float_of_numpy_int z Hz) as Hfloat.
  assert (np_log1p (PyInt z) = np_log1p (num (IZR z))) as Hlog.
  { cbn [np_log1p num]. destruct (decide (numpy_int z)); [reflexivity | contradiction]. }
  cbn [py_mul py_gt py_ge py_le py_sub num]. rewrite Hfloat.
  do 6 (split; [reflexivity |]). split; [| split; [exact Hlog |]].
  { intros z' Hz'. unfold float_of_int, numpy_int in *.
    assert (2 ^ 65 < 2 ^ 1024 - 2 ^ 970)%Z as Hbound by (vm_compute; reflexivity).
    assert (2 ^ 63 < 2 ^ 64 /\ 2 * 2 ^ 64 = 2 ^ 65)%Z as [Hpow Hpow'] by (vm_compute; auto).
    destruct (decide (Z.abs (z - z') < 2 ^ 1024 - 2 ^ 970)%Z) as [_ | Hout]; [| lia].
    cbn [fsub fneg fadd]. rewrite minus_IZR. reflexivity. }
  cbn [py_max num mbind result_bind]. unfold fmax.
  destruct (fgt (Fin (IZR z)) c); [exact Hlog | reflexivity].
Qed.

(** [np.log1p(max(0, v))] for such a number. *)
Lemma py_max_log1p_small v e :
  small_number v e ->
  exists w, py_max (Fin 0) v = Ok w /\ np_log1p w = Ok (Fin (ln (1 + Rmax 0 e))).
Proof.
  intros [-> | (z & -> & -> & Hz)]; cbn [py_max num].
  - eexists. split; [reflexivity |]. rewrite fmax_Fin.
    apply np_log1p_small; [now left | apply Rmax_l].
  - unfold fgt, flt. case_bool_decide as Hpos; eexists; (split; [reflexivity |]).
    + rewrite Rmax_right by lra. apply np_log1p_small; [right; eauto | lra].
    + rewrite Rmax_left by lra. apply np_log1p_small; [now left | lra].
Qed.

Lemma mention_confidence_small th M v n :
  small_number (MIN_MENTIONS th) M -> 0 < M -> small_number v n -> 0 <= n ->
  _calculate_mention_confidence th v = Ok (Fin (confidence_formula M n)).
Proof.
  intros HM Hpos Hv Hn.
  unfold _calculate_mention_confidence, _calculate_mention_confidence_body.
  rewrite (np_log1p_small v n Hv Hn), (np_log1p_small _ M HM) by lra.
  cbn [mbind result_bind fdiv].
  pose proof (ln_1p_pos M Hpos) as Hden.
  destruct (decide (ln (1 + M) = 0)); [lra |].
  rewrite fmax_Fin, fmin_Fin. cbn [try_except mret result_ret].
  do 2 f_equal. unfold confidence_formula, clamp, Rmax, Rmin.
  repeat destruct (Rle_dec _ _); lra.
Qed.

Lemma mention_confidence_big th z :
  (2 ^ 64 <= z)%Z -> _calculate_mention_confidence th (PyInt z) = Ok (Fin 0.0).
Proof.
  intros Hz. unfold _calculate_mention_confidence, _calculate_mention_confidence_body.
  now rewrite np_log1p_big_int.
Qed.

Lemma engagement_impact_small th m v e :
  small_number (MIN_ENGAGEMENT th) m -> 0 < m -> small_number v e ->
  _calculate_engagement_impact th v = Ok (Fin (engagement_formula m e)).
Proof.
  intros Hm Hpos Hv.
  destruct (py_max_log1p_small v e Hv) as (w & Hw & Hlog).
  unfold _calculate_engagement_impact, _calculate_engagement_impact_body.
  rewrite Hw. cbn [mbind result_bind]. rewrite Hlog, (np_log1p_small _ m Hm) by lra.
  cbn [mbind result_bind fdiv].
  pose proof (ln_1p_pos m Hpos) as Hden.
  destruct (decide (ln (1 + m) = 0)); [lra |].
  rewrite fmin_Fin. cbn [try_except mret result_ret]. do 2 f_equal.
  unfold engagement_formula. f_equal. lra.
Qed.

Lemma engagement_impact_big th z :
  (2 ^ 64 <= z)%Z -> _calculate_engagement_impact th (PyInt z) = Ok (Fin 0.0).
Proof.
  intros Hz. unfold _calculate_engagement_impact, _calculate_engagement_impact_body.
  cbn [py_max mbind result_bind]. unfold fgt, flt.
  assert (0 < IZR z) by (apply (IZR_lt 0); lia).
  case_bool_decide; [| lra].
  now rewrite np_log1p_big_int.
Qed.


(** C6.  Let [MIN_MENTIONS] be positive.  For every mention count
    that is not negative and is a float or an int below [2^64], the mention
    confidence is [ln(1 + n) / ln(1 + MIN_MENTIONS)] clamped to [0, 1]; it is
    [0] at [n = 0] and exactly [1] at [n = MIN_MENTIONS], and it does not
    decrease when [n] grows within these counts.  It never exceeds [1],
    whatever the argument.  For an int count from [2^64] on, [np.log1p]
    raises, the handler answers, and the confidence is [0.0]. *)
Theorem C6_mention_confidence (th : SignalThresholds) (M : R) :
  small_number (MIN_MENTIONS th) M -> 0 < M ->
  (forall v n, small_number v n -> 0 <= n ->
     _calculate_mention_confidence th v
     = Ok (Fin (clamp 0 1 (ln (1 + n) / ln (1 + M)))))
  /\ (forall v, small_number v 0 -> _calculate_mention_confidence th v = Ok (Fin 0))
  /\ (forall v, small_number v M -> _calculate_mention_confidence th v = Ok (Fin 1))
  /\ (forall v1 v2 n1 n2,
      small_number v1 n1 -> small_number v2 n2 -> 0 <= n1 -> n1 <= n2 ->
      exists c1 c2,
        _calculate_mention_confidence th v1 = Ok (Fin c1) /\
        _calculate_mention_confidence th v2 = Ok (Fin c2) /\
        c1 <= c2)
  /\ (forall v, exists c, _calculate_mention_confidence th v = Ok (Fin c) /\ c <= 1)
  /\ (forall z, (2 ^ 64 <= z)%Z ->
      _calculate_mention_confidence th (PyInt z) = Ok (Fin 0.0)).
Proof.
  intros HM Hpos.
  pose proof (fun v n => mention_confidence_small th M v n HM Hpos) as Hformula.
  split; [exact Hformula |]. split; [| split; [| split; [| split]]].
  - intros v Hv. rewrite (Hformula v 0 Hv) by lra. do 2 f_equal.
    unfold confidence_formula. rewrite ln_ratio_zero. apply clamp_id. lra.
  - intros v Hv. rewrite (Hformula v M Hv) by lra. do 2 f_equal.
    unfold confidence_formula. rewrite ln_ratio_self by exact Hpos.
    apply clamp_id. lra.
  - intros v1 v2 n1 n2 Hv1 Hv2 Hn1 Hle. eexists _, _.
    split; [exact (Hformula v1 n1 Hv1 Hn1) |].
    split; [exact (Hformula v2 n2 Hv2 ltac:(lra)) |].
    now apply confidence_formula_mono.
  - intros v. destruct (mention_confidence_range th v) as (c & Hc & Hr).
    exists c. split; [exact Hc | lra].
  - intros z Hz. now apply mention_confidence_big.
Qed.

(** The default [MIN_MENTIONS = 5]: five mentions give confidence [1]. *)
Lemma C6_mention_confidence_witness :
  _calculate_mention_confidence default_thresholds (PyInt 5) = Ok (Fin 1).
Proof.
  refine (proj1 (proj2 (proj2 (C6_mention_confidence default_thresholds 5 _ _)))
            (PyInt 5) _).
  - left. reflexivity.
  - lra.
  - right. exists 5%Z. split; [reflexivity |]. split; [reflexivity | lia].
Defined.

(** The claim of C6 as it is stated, for every mention count that is not
    negative, fails at the count [2^64]: the formula gives [1] there and
    the code [0.0], which is also less than the confidence [1] of the
    smaller count [5]. *)
Lemma C6_mention_confidence_counterexample :
  _calculate_mention_confidence default_thresholds (PyInt (2 ^ 64)) = Ok (Fin 0.0)
  /\ clamp 0 1 (ln (1 + IZR (2 ^ 64)) / ln (1 + 5)) = 1
  /\ _calculate_mention_confidence default_thresholds (PyInt 5) = Ok (Fin 1)
  /\ ~ (forall n : Z, (0 <= n)%Z ->
        _calculate_mention_confidence default_thresholds (PyInt n)
        = Ok (Fin (clamp 0 1 (ln (1 + IZR n) / ln (1 + 5)))))
  /\ ~ (forall n1 n2 : Z, (0 <= n1)%Z -> (n1 <= n2)%Z ->
        exists c1 c2,
          _calculate_mention_confidence default_thresholds (PyInt n1) = Ok (Fin c1) /\
          _calculate_mention_confidence default_thresholds (PyInt n2) = Ok (Fin c2) /\
          c1 <= c2).
Proof.
  assert (_calculate_mention_confidence default_thresholds (PyInt (2 ^ 64)) = Ok (Fin 0.0))
    as Hbig by (apply mention_confidence_big; lia).
  assert (clamp 0 1 (ln (1 + IZR (2 ^ 64)) / ln (1 + 5)) = 1) as Hone.
  { apply (confidence_formula_saturated 5 (IZR (2 ^ 64))); [lra |].
    apply (IZR_le 5). lia. }
  assert (_calculate_mention_confidence default_thresholds (PyInt 5) = Ok (Fin 1)) as Hfive.
  { rewrite (mention_confidence_small default_thresholds 5 (PyInt 5) 5);
      [| now left | lra | right; exists 5%Z; split; [reflexivity |];
                          split; [reflexivity | lia] | lra].
    now rewrite confidence_formula_saturated by lra. }
  split; [exact Hbig |]. split; [exact Hone |]. split; [exact Hfive |]. split.
  - intros Hall. specialize (Hall (2 ^ 64)%Z ltac:(lia)).
    rewrite Hbig, Hone in Hall. injection Hall as Heq. lra.
  - intros Hmono. destruct (Hmono 5%Z (2 ^ 64)%Z ltac:(lia) ltac:(lia))
      as (c1 & c2 & H1 & H2 & Hle).
    rewrite Hfive in H1. rewrite Hbig in H2.
    injection H1 as <-. injection H2 as <-. lra.
Qed.




(** *** The sell side with the default thresholds *)

(** A signal at the lower end of the range: sentiment [-1], no engagement,
    no mention. *)
Lemma weakest_signal :
  exists sig,
    generate_signal default_thresholds (PyStr "BTC")
      (PyDict (<["compound" := num (-1)]> {["neg" := num 1]})) (num 0) (num 0)
    = Ok (Some sig)
    /\ signal_type sig = SignalType.value SignalType.SELL
    /\ signal_strength sig = Fin (-0.5).
Proof.
  set (d := <["compound" := num (-1)]> {["neg" := num 1]} : gmap string pyval).
  assert (_calculate_sentiment_score (PyDict d) = Ok (Fin (-1))) as Hs.
  { rewrite (sentiment_score_fields d (-1) 0 1);
      [| left; reflexivity | right; split; reflexivity | left; reflexivity].
    do 2 f_equal. unfold sentiment_formula, sign, clamp, Rmax, Rmin.
    destruct (decide (0 < -1)); [lra |]. repeat destruct (Rle_dec _ _); lra. }
  assert (_calculate_engagement_impact default_thresholds (num 0) = Ok (Fin 0)) as He.
  { rewrite (engagement_impact_formula default_thresholds 100.0 0 eq_refl) by lra.
    do 2 f_equal. unfold engagement_formula.
    rewrite Rmax_left by lra. rewrite ln_ratio_zero. apply Rmin_right. lra. }
  assert (_calculate_mention_confidence default_thresholds (num 0) = Ok (Fin 0)) as Hc.
  { rewrite (mention_confidence_formula default_thresholds 5 0 eq_refl) by lra.
    do 2 f_equal. unfold confidence_formula. rewrite ln_ratio_zero.
    apply clamp_id. lra. }
  destruct (classify_first_match default_thresholds _ _ _ _
              (Fin (-1 * 0.5 + 0 * 0.3 + 0 * 0.2)) default_cut_points)
    as (t & Ht & _ & _ & _ & Hsell & _).
  rewrite !fge_Fin, !fle_Fin in Hsell.
  rewrite Hsell in Ht by lra.
  eexists. split.
  - apply (generate_signal_components default_thresholds _ _ _ _
             (Fin (-1)) (Fin 0) (Fin 0) SignalType.SELL Hs He Hc Ht).
  - split; [reflexivity |]. cbn [signal_strength fmul fadd]. f_equal. lra.
Qed.

(** C10.  With the default thresholds [generate_signal] returns on every
    input a signal whose strength is at least [-0.5]; the signal is never a
    STRONG_SELL, and it is a SELL only when the strength is exactly [-0.5],
    which does happen. *)
Theorem C10_strong_sell_unreachable :
  (forall coin sentiment_data mention_count engagement_score,
   exists sig x,
     generate_signal default_thresholds coin sentiment_data mention_count engagement_score
     = Ok (Some sig)
     /\ signal_strength sig = Fin x
     /\ -0.5 <= x
     /\ ~ (x <= -0.8)
     /\ signal_type sig <> SignalType.value SignalType.STRONG_SELL
     /\ (signal_type sig = SignalType.value SignalType.SELL -> x = -0.5))
  /\ (exists coin sentiment_data mention_count engagement_score sig,
       generate_signal default_thresholds coin sentiment_data mention_count engagement_score
       = Ok (Some sig)
       /\ signal_type sig = SignalType.value SignalType.SELL
       /\ signal_strength sig = Fin (-0.5)).
Proof.
  split; [| destruct weakest_signal as (sig & Hsig); eauto 10].
  intros coin sd mc es.
  destruct (generate_signal_finite default_thresholds (Fin 0.8) (Fin 0.5) (Fin (-0.8)) (Fin (-0.5)) 100.0
              coin sd mc es default_cut_points eq_refl ltac:(lra))
    as (r1 & r2 & r3 & t & _ & _ & _ & Hr1 & Hr2 & Hr3 & Hfm & Hsig).
  eexists _, _. split; [exact Hsig |]. cbn [signal_strength signal_type].
  split; [reflexivity |].
  set (x := r1 * 0.5 + r2 * 0.3 + r3 * 0.2) in *.
  assert (-0.5 <= x) as Hx by (unfold x; lra).
  split; [exact Hx |]. split; [lra |].
  destruct Hfm as (H1 & H2 & H3 & H4 & H5).
  rewrite !fge_Fin, !fle_Fin in *.
  destruct (Rle_dec 0.8 x) as [Hsb | Hsb]; [rewrite (H1 Hsb); split; [discriminate |]; discriminate |].
  destruct (Rle_dec 0.5 x) as [Hb | Hb]; [rewrite (H2 Hsb Hb); split; discriminate |].
  assert (~ x <= -0.8) as Hss by lra.
  destruct (Rle_dec x (-0.5)) as [Hs | Hs].
  - rewrite (H4 Hsb Hb Hss Hs). split; [discriminate |]. intros _. lra.
  - rewrite (H5 Hsb Hb Hss Hs). split; discriminate.
Qed.

(** *** Sorting in descending key order *)

Lemma flt_fle a b : flt a b = true -> fle a b = true.
Proof.
  destruct a, b; simpl; try congruence.
  rewrite !bool_decide_eq_true. lra.
Qed.

Lemma not_flt_fle a b : a <> NaN -> b <> NaN -> flt a b = false -> fle b a = true.
Proof.
  destruct a, b; simpl; try congruence.
  rewrite bool_decide_eq_false, bool_decide_eq_true. lra.
Qed.

Lemma fle_trans a b c : fle a b = true -> fle b c = true -> fle a c = true.
Proof.
  destruct a, b, c; simpl; try congruence.
  rewrite !bool_decide_eq_true. lra.
Qed.

Section SortedFacts.
Context {A : Type} (key : A -> npfloat).

Let desc (a b : A) : Prop := fge (key a) (key b) = true.

Lemma insert_desc_perm x l : insert_desc key x l ≡ₚ x :: l.
Proof.
  induction l as [| y l IH]; simpl; [reflexivity |].
  destruct (flt (key x) (key y)); [| reflexivity].
  rewrite IH. apply Permutation_swap.
Qed.

Lemma sorted_reverse_perm l : sorted_reverse key l ≡ₚ l.
Proof.
  induction l as [| x l IH]; simpl; [reflexivity |].
  rewrite insert_desc_perm. now rewrite IH.
Qed.

Lemma insert_desc_sorted x l :
  key x <> NaN -> Forall (fun a => key a <> NaN) l ->
  StronglySorted desc l -> StronglySorted desc (insert_desc key x l).
Proof.
  intros Hx Hl Hsorted.
  induction l as [| y l IH]; simpl.
  { repeat constructor. }
  apply Forall_cons in Hl as [Hy Hl].
  apply StronglySorted_inv in Hsorted as [Hsorted Hall].
  destruct (flt (key x) (key y)) eqn:Hlt.
  - constructor; [now apply IH |].
    rewrite insert_desc_perm. constructor; [| exact Hall].
    unfold desc, fge. now apply flt_fle.
  - assert (desc x y) as Hxy by (unfold desc, fge; now apply not_flt_fle).
    constructor; [now constructor |].
    constructor; [exact Hxy |].
    eapply Forall_impl; [exact Hall |].
    intros z Hyz. unfold desc, fge in *. eapply fle_trans; eassumption.
Qed.

Lemma sorted_reverse_sorted l :
  Forall (fun a => key a <> NaN) l -> StronglySorted desc (sorted_reverse key l).
Proof.
  induction l as [| x l IH]; intros Hl; simpl; [constructor |].
  apply Forall_cons in Hl as [Hx Hl].
  apply insert_desc_sorted; [exact Hx | | now apply IH].
  now rewrite sorted_reverse_perm.
Qed.

Lemma StronglySorted_adjacent (R : A -> A -> Prop) l i a b :
  StronglySorted R l -> l !! i = Some a -> l !! S i = Some b -> R a b.
Proof.
  intros Hsorted. revert i.
  induction Hsorted as [| x l Hsorted IH Hall]; intros i Ha Hb; [discriminate |].
  destruct i as [| i]; simpl in *.
  - injection Ha as <-. rewrite Forall_forall in Hall.
    apply Hall. eapply list_elem_of_lookup_2. exact Hb.
  - eapply IH; eassumption.
Qed.

Lemma sorted_reverse_adjacent l i a b :
  Forall (fun a => key a <> NaN) l ->
  sorted_reverse key l !! i = Some a -> sorted_reverse key l !! S i = Some b ->
  fge (key a) (key b) = true.
Proof.
  intros Hl. apply (StronglySorted_adjacent desc). now apply sorted_reverse_sorted.
Qed.

End SortedFacts.

(** *** The batch loop *)

Lemma batch_step_item th signals data :
  batch_step th signals data
  = Ok (match item_signal th data with
        | Ok (Some s) => signals ++ [s]
        | Ok None | Raise _ => signals
        end).
Proof.
  unfold batch_step, item_signal.
  destruct (getitem data "coin") as [coin |]; [| reflexivity].
  destruct (getitem data "sentiment") as [sentiment |]; [| reflexivity].
  destruct (getitem data "mentions") as [mentions |]; [| reflexivity].
  destruct (getitem data "engagement") as [engagement |]; [| reflexivity].
  cbn [mbind result_bind].
  destruct (generate_signal th coin sentiment mentions engagement) as [[s |] |];
    reflexivity.
Qed.

Lemma batch_step_successful th signals data :
  batch_step th signals data = Ok (signals ++ option_list (successful th data)).
Proof.
  rewrite batch_step_item. unfold successful.
  destruct (item_signal th data) as [[s |] |]; simpl; now rewrite ?app_nil_r.
Qed.

Lemma batch_loop_successful th coin_data signals :
  batch_loop th signals coin_data = Ok (signals ++ omap (successful th) coin_data).
Proof.
  revert signals. induction coin_data as [| data rest IH]; intros signals; simpl.
  - now rewrite app_nil_r.
  - rewrite batch_step_successful. cbn [mbind result_bind]. rewrite IH.
    destruct (successful th data); simpl; now rewrite <- ?app_assoc, ?app_nil_r.
Qed.

Lemma generate_signals_batch_successful th coin_data :
  generate_signals_batch th coin_data
  = Ok (sorted_reverse abs_strength (omap (successful th) coin_data)).
Proof.
  unfold generate_signals_batch. rewrite batch_loop_successful. reflexivity.
Qed.

Lemma generate_signals_batch_skip th data rest :
  successful th data = None ->
  generate_signals_batch th (data :: rest) = generate_signals_batch th rest.
Proof.
  intros Hfail. rewrite !generate_signals_batch_successful. simpl. now rewrite Hfail.
Qed.

(** The engagement impact is a number or [-inf], whatever the thresholds. *)
Lemma engagement_impact_shape th engagement_score :
  exists v, _calculate_engagement_impact th engagement_score = Ok v
            /\ v <> NaN /\ v <> PInf.
Proof.
  unfold _calculate_engagement_impact.
  destruct (_calculate_engagement_impact_body th engagement_score) as [v | e] eqn:Hbody;
    simpl.
  - unfold _calculate_engagement_impact_body in Hbody. bind_inv Hbody.
    injection Hbody as <-. eexists. split; [reflexivity |].
    match goal with |- context [fdiv ?x ?y] => destruct (fdiv x y) end;
      unfold fmin, flt; try case_bool_decide; split; congruence.
  - eexists. split; [reflexivity |]. split; congruence.
Qed.

(** No signal has [nan] as its strength. *)
Lemma signal_strength_not_nan th coin sentiment_data mention_count engagement_score sig :
  generate_signal th coin sentiment_data mention_count engagement_score = Ok (Some sig) ->
  abs_strength sig <> NaN.
Proof.
  unfold generate_signal, generate_signal_body.
  destruct (sentiment_score_range sentiment_data) as (r1 & -> & _).
  destruct (engagement_impact_shape th engagement_score) as (v & -> & Hnan & Hinf).
  destruct (mention_confidence_range th mention_count) as (r3 & -> & _).
  cbn [mbind result_bind].
  destruct (classify th _) as [t | e]; simpl; [| discriminate].
  intros [= <-]. unfold abs_strength. cbn [signal_strength].
  destruct v as [r2 | | |]; try congruence; cbn [fmul fadd fabs]; [discriminate |].
  unfold inf_times. destruct (decide (0 < 0.3)); [| lra]. discriminate.
Qed.

Lemma successful_not_nan th coin_data :
  Forall (fun s => abs_strength s <> NaN) (omap (successful th) coin_data).
Proof.
  rewrite Forall_forall. intros s Hs.
  apply list_elem_of_omap in Hs as (data & _ & Hdata).
  unfold successful, item_signal in Hdata.
  destruct (getitem data "coin") as [coin |]; [| discriminate].
  destruct (getitem data "sentiment") as [sentiment |]; [| discriminate].
  destruct (getitem data "mentions") as [mentions |]; [| discriminate].
  destruct (getitem data "engagement") as [engagement |]; [| discriminate].
  cbn [mbind result_bind] in Hdata.
  destruct (generate_signal th coin sentiment mentions engagement) as [[s' |] |] eqn:Hgen;
    try discriminate.
  injection Hdata as ->. eapply signal_strength_not_nan. exact Hgen.
Qed.

(** C8.  For every thresholds record and every batch, [generate_signals_batch]
    returns a list in which each signal is at least as strong, in absolute
    value, as the one after it; the list holds exactly the signals of the
    items that have one; an item whose extraction raises, or for which the
    classifier returns [None], is skipped and the rest of the batch is
    processed. *)
Theorem C8_batch_sorted_and_tolerant (th : SignalThresholds) (coin_data : list pyval) :
  exists out,
    generate_signals_batch th coin_data = Ok out
    /\ (forall i a b, out !! i = Some a -> out !! S i = Some b ->
        fge (fabs (signal_strength a)) (fabs (signal_strength b)) = true)
    /\ out ≡ₚ omap (successful th) coin_data
    /\ (forall s, s ∈ out <->
          exists data, data ∈ coin_data /\ item_signal th data = Ok (Some s))
    /\ (forall data e, item_signal th data = Raise e ->
        generate_signals_batch th (data :: coin_data) = Ok out)
    /\ (forall data, item_signal th data = Ok None ->
        generate_signals_batch th (data :: coin_data) = Ok out).
Proof.
  eexists. split; [apply generate_signals_batch_successful |].
  split; [| split; [| split; [| split]]].
  - intros i a b. apply (sorted_reverse_adjacent abs_strength).
    apply successful_not_nan.
  - apply sorted_reverse_perm.
  - intros s. rewrite sorted_reverse_perm, list_elem_of_omap.
    split; intros (data & Hin & Hdata); exists data; (split; [exact Hin |]).
    + unfold successful in Hdata.
      destruct (item_signal th data) as [[s' |] |]; congruence.
    + unfold successful. now rewrite Hdata.
  - intros data e Hraise. rewrite generate_signals_batch_skip.
    + apply generate_signals_batch_successful.
    + unfold successful. now rewrite Hraise.
  - intros data Hnone. rewrite generate_signals_batch_skip.
    + apply generate_signals_batch_successful.
    + unfold successful. now rewrite Hnone.
Qed.

(** *** Exceptions never leave the generator *)

(** C9.  Whatever the thresholds and the arguments, [generate_signal] does
    not raise: an exception met while it computes is caught and the result is
    [None]; the batch loop leaves out an item whose result is [None] and goes
    on with the others; and [_calculate_sentiment_score] does not raise
    either: an exception met while it reads and combines the fields is caught
    and the score is [0.0]. *)
Theorem C9_exceptions_are_caught :
  (forall th coin sentiment_data mention_count engagement_score,
     exists r,
       generate_signal th coin sentiment_data mention_count engagement_score = Ok r)
  /\ (forall th coin sentiment_data mention_count engagement_score e,
        generate_signal_body th coin sentiment_data mention_count engagement_score = Raise e ->
        generate_signal th coin sentiment_data mention_count engagement_score = Ok None)
  /\ (forall th signals data rest,
        item_signal th data = Ok None ->
        batch_step th signals data = Ok signals /\
        batch_loop th signals (data :: rest) = batch_loop th signals rest /\
        generate_signals_batch th (data :: rest) = generate_signals_batch th rest)
  /\ (forall th coin_data, exists out, generate_signals_batch th coin_data = Ok out)
  /\ (forall sentiment_data,
        exists score, _calculate_sentiment_score sentiment_data = Ok score)
  /\ (forall sentiment_data e,
        _calculate_sentiment_score_body sentiment_data = Raise e ->
        _calculate_sentiment_score sentiment_data = Ok (Fin 0.0)).
Proof.
  split; [| split; [| split; [| split; [| split]]]].
  - intros. apply try_except_default.
  - intros th coin sd mc es e Hbody. unfold generate_signal.
    now apply (try_except_caught _ e).
  - intros th signals data rest Hnone.
    assert (batch_step th signals data = Ok signals) as Hstep.
    { rewrite batch_step_item. now rewrite Hnone. }
    split; [exact Hstep |]. split.
    + simpl. now rewrite Hstep.
    + apply generate_signals_batch_skip. unfold successful. now rewrite Hnone.
  - intros th coin_data. eexists. apply generate_signals_batch_successful.
  - intros sd. apply try_except_default.
  - intros sd e Hbody. unfold _calculate_sentiment_score.
    now apply (try_except_caught _ e).
Qed.

(** The caught exceptions at work: a [TypeError] in [generate_signal], and a
    sentiment whose [compound] is a string. *)
Lemma C9_exceptions_are_caught_witness :
  generate_signal thresholds_without_strong_buy (PyStr "BTC") PyNone PyNone PyNone = Ok None
  /\ _calculate_sentiment_score (PyDict {["compound" := PyStr "high"]}) = Ok (Fin 0.0).
Proof.
  split.
  - exact (proj1 (proj2 C9_exceptions_are_caught)
             thresholds_without_strong_buy (PyStr "BTC") PyNone PyNone PyNone
             TypeError eq_refl).
  - exact (proj2 (proj2 (proj2 (proj2 (proj2 C9_exceptions_are_caught))))
             (PyDict {["compound" := PyStr "high"]}) TypeError eq_refl).
Defined.

(* ===================================================================== *)
(** ** The parser: aggregation and signals                                *)
(* ===================================================================== *)

Import TwitterTrendParser.

(** *** The dictionary of the coins has one entry per coin *)

Lemma add_mention_keys r coin d :
  map fst (add_mention r coin d)
  = if decide (coin ∈ map fst d) then map fst d else map fst d ++ [coin].
Proof.
  induction d as [| [k c] d IH]; simpl.
  - destruct (decide (coin ∈ [])) as [Hin | _]; [| reflexivity].
    now apply elem_of_nil in Hin.
  - destruct (decide (k = coin)) as [-> | Hne]; simpl.
    + destruct (decide (coin ∈ coin :: map fst d)) as [_ | Hnin]; [reflexivity |].
      exfalso. apply Hnin. left.
    + rewrite IH.
      destruct (decide (coin ∈ map fst d)) as [Hin | Hnin];
        destruct (decide (coin ∈ k :: map fst d)) as [Hin' | Hnin'];
        try reflexivity.
      * exfalso. apply Hnin'. now right.
      * exfalso. apply elem_of_cons in Hin' as [-> | Hin']; [now apply Hne | now apply Hnin].
Qed.

Lemma add_mention_NoDup r coin d :
  NoDup (map fst d) -> NoDup (map fst (add_mention r coin d)).
Proof.
  intros Hd. rewrite add_mention_keys.
  destruct (decide (coin ∈ map fst d)) as [Hin | Hnin]; [exact Hd |].
  apply NoDup_app. split; [exact Hd |]. split.
  - intros x Hx Hx'. apply list_elem_of_singleton in Hx'. now subst.
  - apply NoDup_singleton.
Qed.

Lemma add_result_NoDup d r :
  NoDup (map fst d) -> NoDup (map fst (add_result d r)).
Proof.
  unfold add_result. generalize (crypto_mentions r) as coins.
  intros coins. revert d.
  induction coins as [| coin coins IH]; intros d Hd; simpl; [exact Hd |].
  apply IH. now apply add_mention_NoDup.
Qed.

Lemma sums_NoDup (results : list Processed) d :
  NoDup (map fst d) -> NoDup (map fst (foldl add_result d results)).
Proof.
  revert d. induction results as [| r results IH]; intros d Hd; simpl; [exact Hd |].
  apply IH. now apply add_result_NoDup.
Qed.

(** *** Every coin handed to the generator gets its signal *)

Lemma coin_input_successful name data :
  exists s, successful default_thresholds (coin_input name data) = Some s
            /\ coin s = PyStr name
            /\ mention_count (metrics s) = num (INR (mentions data)).
Proof.
  unfold successful, item_signal.
  replace (getitem (coin_input name data) "coin") with (@Ok pyval (PyStr name))
    by reflexivity.
  cbn [mbind result_bind].
  destruct (getitem (coin_input name data) "sentiment") as [sentiment |] eqn:Hs;
    [| discriminate Hs].
  replace (getitem (coin_input name data) "mentions")
    with (@Ok pyval (num (INR (mentions data)))) by reflexivity.
  replace (getitem (coin_input name data) "engagement")
    with (@Ok pyval (num (total_engagement data))) by reflexivity.
  cbn [mbind result_bind].
  destruct (generate_signal_numeric default_thresholds (Fin 0.8) (Fin 0.5) (Fin (-0.8)) (Fin (-0.5))
              (PyStr name) sentiment (num (INR (mentions data)))
              (num (total_engagement data)) default_cut_points)
    as (sscore & impact & conf & t & _ & _ & _ & _ & ->).
  eexists. repeat split.
Qed.

Lemma coin_inputs_successful (l : list (string * CoinData)) :
  Forall2 (fun kv s => coin s = PyStr kv.1
                       /\ mention_count (metrics s) = num (INR (mentions kv.2)))
          l
          (omap (successful default_thresholds) (map (fun kv => coin_input kv.1 kv.2) l)).
Proof.
  induction l as [| [name data] l IH]; cbn [map omap list_omap fst snd].
  - constructor.
  - destruct (coin_input_successful name data) as (s & -> & Hcoin & Hcount).
    constructor; [now split | exact IH].
Qed.

(** *** The document of a non-empty corpus *)

Section ParserFacts.
Variable max_tweets : nat.
Variable _analyze_sentiment : string -> Polarity.
Variable _detect_crypto_mentions : string -> list string.

Lemma aggregate_inv (results : list Processed) agg :
  aggregate results = Ok agg ->
  results <> []
  /\ total_tweets agg = length results
  /\ coin_mentions agg
     = map (fun kv => (kv.1, finalize kv.2)) (foldl add_result [] results)
  /\ trading_signals agg
     = sorted_reverse abs_strength
         (omap (successful default_thresholds)
            (map (fun kv => coin_input kv.1 kv.2)
               (filter (fun kv => 5 <= mentions kv.2)%nat (coin_mentions agg)))).
Proof.
  unfold aggregate, truediv.
  destruct (decide (INR (length results) = 0)) as [Hzero | Hlen];
    cbn [mbind result_bind]; [discriminate |].
  rewrite generate_signals_batch_successful. cbn [mbind result_bind mret result_ret].
  intros [= <-]. cbn [total_tweets coin_mentions trading_signals].
  split; [| repeat split].
  intros ->. now apply Hlen.
Qed.

Lemma aggregate_nonempty (results : list Processed) :
  results <> [] -> exists agg, aggregate results = Ok agg.
Proof.
  intros Hne. unfold aggregate, truediv.
  destruct (decide (INR (length results) = 0)) as [Hzero | Hlen].
  - exfalso. destruct results as [| r results]; [now apply Hne |].
    apply (INR_eq _ 0) in Hzero. discriminate Hzero.
  - cbn [mbind result_bind]. rewrite generate_signals_batch_successful.
    eexists. reflexivity.
Qed.

Lemma process_tweets_aggregate entries :
  process_tweets max_tweets _analyze_sentiment _detect_crypto_mentions entries
  = aggregate (map (process_one _analyze_sentiment _detect_crypto_mentions)
                   (omap (fun tweet_data => tweet_data) (take max_tweets entries))).
Proof.
  unfold process_tweets, try_except.
  destruct (aggregate _); reflexivity.
Qed.

End ParserFacts.

(** *** Association lists with distinct keys *)

Lemma NoDup_keys_unique {V} (l : list (string * V)) k v v' :
  NoDup (map fst l) -> (k, v) ∈ l -> (k, v') ∈ l -> v = v'.
Proof.
  induction l as [| [k0 v0] l IH]; simpl; intros Hnd Hv Hv'.
  - now apply elem_of_nil in Hv.
  - apply NoDup_cons in Hnd as [Hk0 Hnd].
    assert (forall w, (k0, w) ∈ l -> False) as Hfresh.
    { intros w Hw. apply Hk0. apply list_elem_of_In, in_map_iff.
      exists (k0, w). split; [reflexivity | now apply list_elem_of_In]. }
    apply elem_of_cons in Hv as [Hv | Hv];
      apply elem_of_cons in Hv' as [Hv' | Hv'];
      simplify_eq.
    + reflexivity.
    + exfalso. eapply Hfresh. exact Hv'.
    + exfalso. eapply Hfresh. exact Hv.
    + now apply IH.
Qed.

Lemma Forall2_elem_of_r {X Y} (P : X -> Y -> Prop) l k y :
  Forall2 P l k -> y ∈ k -> exists x, x ∈ l /\ P x y.
Proof.
  induction 1 as [| x y' l k Hxy Hall IH]; intros Hy.
  - now apply elem_of_nil in Hy.
  - apply elem_of_cons in Hy as [-> | Hy].
    + exists x. split; [left | exact Hxy].
    + destruct (IH Hy) as (x' & Hx' & HP). exists x'. split; [now right | exact HP].
Qed.

Lemma Forall2_map_eq {X Y Z} (f : X -> Z) (g : Y -> Z) l k :
  Forall2 (fun x y => g y = f x) l k -> map g k = map f l.
Proof. induction 1; simpl; congruence. Qed.

(** C4 (evaluation of the code).  On a corpus without posts, and on one whose
    entries all fail extraction, [process_tweets] divides by the number of
    posts, zero: it raises [ZeroDivisionError] and returns no document. *)
Theorem C4_empty_corpus_raises
    (max_tweets : nat) (_analyze_sentiment : string -> Polarity)
    (_detect_crypto_mentions : string -> list string) :
  process_tweets max_tweets _analyze_sentiment _detect_crypto_mentions []
  = Raise ZeroDivisionError
  /\ (forall n,
        process_tweets max_tweets _analyze_sentiment _detect_crypto_mentions
          (replicate n None)
        = Raise ZeroDivisionError)
  /\ (forall agg,
        process_tweets max_tweets _analyze_sentiment _detect_crypto_mentions [] <> Ok agg).
Proof.
  assert (forall n,
            process_tweets max_tweets _analyze_sentiment _detect_crypto_mentions
              (replicate n None)
            = Raise ZeroDivisionError) as Hnone.
  { intros n. rewrite process_tweets_aggregate.
    assert (omap (fun tweet_data : option Tweet => tweet_data)
                 (take max_tweets (replicate n None)) = []) as ->.
    { rewrite take_replicate. generalize (min max_tweets n) as k.
      intros k. induction k as [| k IH]; simpl; [reflexivity | exact IH]. }
    unfold aggregate, truediv. simpl.
    destruct (decide (0 = 0)) as [_ | Hne]; [reflexivity | now destruct Hne]. }
  split; [exact (Hnone 0%nat) |]. split; [exact Hnone |].
  intros agg. pose proof (Hnone 0%nat) as H0. simpl in H0. rewrite H0. discriminate.
Qed.

(** *** Signals and mentioned coins *)

Lemma aggregate_signals (results : list Processed) agg :
  aggregate results = Ok agg ->
  let qualifying := filter (fun kv => 5 <= mentions kv.2)%nat (coin_mentions agg) in
  NoDup (map fst (coin_mentions agg))
  /\ exists sigs,
       trading_signals agg ≡ₚ sigs
       /\ Forall2 (fun kv s => coin s = PyStr kv.1
                               /\ mention_count (metrics s) = num (INR (mentions kv.2)))
                  qualifying sigs.
Proof.
  intros Hagg. apply aggregate_inv in Hagg as (_ & _ & Hcoins & Hsignals).
  split.
  - rewrite Hcoins, map_map. simpl. apply sums_NoDup. constructor.
  - eexists. split.
    + rewrite Hsignals. apply sorted_reverse_perm.
    + apply coin_inputs_successful.
Qed.

(** C5.  In every document [process_tweets] returns, the coins of the trading
    signals are, one for one, the coins of the aggregated mapping with at
    least 5 mentions (5 is also the [MIN_MENTIONS] of the generator the parser
    builds): each signal belongs to exactly one entry of the mapping, that
    entry has at least 5 mentions, and a coin with fewer mentions, 3 say, has
    no signal, whatever its sentiment and engagement are. *)
Theorem C5_signals_meet_min_mentions
    (max_tweets : nat) (_analyze_sentiment : string -> Polarity)
    (_detect_crypto_mentions : string -> list string)
    (entries : list (option Tweet)) (agg : AggregatedData) :
  process_tweets max_tweets _analyze_sentiment _detect_crypto_mentions entries = Ok agg ->
  MIN_MENTIONS default_thresholds = num (INR 5)
  /\ NoDup (map fst (coin_mentions agg))
  /\ map coin (trading_signals agg)
     ≡ₚ map (fun kv => PyStr kv.1)
            (filter (fun kv => 5 <= mentions kv.2)%nat (coin_mentions agg))
  /\ (forall s, s ∈ trading_signals agg ->
        exists name data,
          coin s = PyStr name
          /\ (name, data) ∈ coin_mentions agg
          /\ (5 <= mentions data)%nat
          /\ mention_count (metrics s) = num (INR (mentions data))
          /\ (forall data', (name, data') ∈ coin_mentions agg -> data' = data))
  /\ (forall name data,
        (name, data) ∈ coin_mentions agg -> (mentions data < 5)%nat ->
        forall s, s ∈ trading_signals agg -> coin s <> PyStr name).
Proof.
  rewrite process_tweets_aggregate. intros Hagg.
  apply aggregate_signals in Hagg as (Hnodup & sigs & Hperm & Hall).
  assert (forall s, s ∈ trading_signals agg ->
            exists name data,
              coin s = PyStr name
              /\ (name, data) ∈ coin_mentions agg
              /\ (5 <= mentions data)%nat
              /\ mention_count (metrics s) = num (INR (mentions data))
              /\ (forall data', (name, data') ∈ coin_mentions agg -> data' = data))
    as Hsignal.
  { intros s Hs. rewrite Hperm in Hs.
    destruct (Forall2_elem_of_r _ _ _ _ Hall Hs) as ([name data] & Hkv & Hcoin & Hcount).
    apply list_elem_of_filter in Hkv as [Hmin Hkv]. simpl in *.
    exists name, data. repeat split; try assumption.
    intros data' Hkv'. eapply NoDup_keys_unique; eassumption. }
  split; [| split; [| split; [| split]]].
  - simpl. unfold num. do 2 f_equal. lra.
  - exact Hnodup.
  - rewrite Hperm. apply Permutation_refl'.
    apply Forall2_map_eq. eapply Forall2_impl; [exact Hall |].
    intros kv s [Hcoin _]. exact Hcoin.
  - exact Hsignal.
  - intros name data Hkv Hfew s Hs Hcoin.
    destruct (Hsignal s Hs) as (name' & data' & Hcoin' & Hkv' & Hmin & _ & Hunique).
    rewrite Hcoin in Hcoin'. injection Hcoin' as <-.
    rewrite (Hunique data Hkv) in Hfew. lia.
Qed.

(** The sample corpus: [btc] has five mentions, [eth] three; the document is
    produced, its only signal is about [btc] and none is about [eth]. *)
Lemma C5_signals_meet_min_mentions_witness :
  exists agg,
    process_tweets 100 (fun _ => sample_polarity) sample_detector sample_entries = Ok agg
    /\ total_tweets agg = 5%nat
    /\ map coin (trading_signals agg) ≡ₚ [PyStr "btc"]
    /\ (forall s, s ∈ trading_signals agg -> coin s <> PyStr "eth").
Proof.
  destruct (aggregate_nonempty
              (map (process_one (fun _ => sample_polarity) sample_detector)
                   (omap (fun tweet_data => tweet_data) (take 100 sample_entries))))
    as (agg & Hagg); [discriminate |].
  rewrite <- process_tweets_aggregate in Hagg.
  exists agg. split; [exact Hagg |].
  pose proof Hagg as Hinv. rewrite process_tweets_aggregate in Hinv.
  apply aggregate_inv in Hinv as (_ & Htotal & Hcoins & _).
  split; [exact Htotal |].
  cbn in Hcoins.
  pose proof (C5_signals_meet_min_mentions 100 (fun _ => sample_polarity) sample_detector
                sample_entries agg Hagg) as (_ & _ & Hperm & _ & Hbelow).
  split.
  - rewrite Hperm, Hcoins. reflexivity.
  - eapply (Hbelow "eth").
    + rewrite Hcoins. right. left.
    + simpl. lia.
Defined.

(* ===================================================================== *)
(** ** Further properties of the pipeline                                 *)
(* ===================================================================== *)

(** *** The signal of a coin that passed the mention filter *)

(** The sentiment score of the dictionary the parser rebuilds from an
    average [a]: its [pos - neg] is [a] again. *)
Lemma coin_input_sentiment_score name data :
  exists sentiment,
    getitem (coin_input name data) "sentiment" = Ok sentiment
    /\ _calculate_sentiment_score sentiment
       = Ok (Fin (clamp (-1) 1 (0.8 * avg_sentiment data + 0.2 * sign (avg_sentiment data)))).
Proof.
  set (a := avg_sentiment data).
  set (d := list_to_map
              [ ("compound", PyNum (Fin a));
                ("pos", PyNum (fmax (Fin 0) (Fin a)));
                ("neg", PyNum (fmax (Fin 0) (fneg (Fin a))));
                ("neu", PyNum (fsub (Fin 1) (fabs (Fin a)))) ] : gmap string pyval).
  exists (PyDict d). split; [reflexivity |].
  assert (field d "compound" a) as Hc by (left; reflexivity).
  assert (field d "pos" (Rmax 0 a)) as Hp.
  { left. change (Some (PyNum (fmax (Fin 0) (Fin a))) = Some (num (Rmax 0 a))).
    now rewrite fmax_Fin. }
  assert (field d "neg" (Rmax 0 (- a))) as Hn.
  { left. change (Some (PyNum (fmax (Fin 0) (Fin (- a)))) = Some (num (Rmax 0 (- a)))).
    now rewrite fmax_Fin. }
  rewrite (sentiment_score_fields d _ _ _ Hc Hp Hn).
  do 2 f_equal. unfold sentiment_formula. f_equal.
  unfold Rmax. repeat destruct (Rle_dec _ _); lra.
Qed.


(** Everything about the signal of one coin with at least five mentions. *)
Lemma pipeline_signal name data :
  (5 <= mentions data)%nat ->
  exists s impact t,
    successful default_thresholds (coin_input name data) = Some s
    /\ coin s = PyStr name
    /\ sentiment_score (metrics s)
       = Fin (clamp (-1) 1 (0.8 * avg_sentiment data + 0.2 * sign (avg_sentiment data)))
    /\ engagement_impact (metrics s) = Fin impact /\ 0 <= impact <= 1
    /\ confidence s = Fin 1
    /\ signal_strength s
       = Fin (clamp (-1) 1 (0.8 * avg_sentiment data + 0.2 * sign (avg_sentiment data)) * 0.5
              + impact * 0.3 + 1 * 0.2)
    /\ signal_type s = SignalType.value t
    /\ first_match (Fin 0.8) (Fin 0.5) (Fin (-0.8)) (Fin (-0.5)) (signal_strength s) t.
Proof.
  intros Hmin.
  destruct (coin_input_sentiment_score name data) as (sentiment & Hget & Hs).
  destruct (engagement_impact_range default_thresholds 100.0
              (num (total_engagement data)) eq_refl ltac:(lra)) as (impact & He & Himpact).
  assert (_calculate_mention_confidence default_thresholds (num (INR (mentions data)))
          = Ok (Fin 1)) as Hc.
  { assert (5 <= INR (mentions data)) as H5
      by (pose proof (le_INR 5 _ Hmin) as H; simpl in H; lra).
    rewrite (mention_confidence_formula default_thresholds 5 _ eq_refl) by lra.
    now rewrite confidence_formula_saturated by lra. }
  set (ss := clamp (-1) 1 (0.8 * avg_sentiment data + 0.2 * sign (avg_sentiment data))) in *.
  destruct (classify_first_match default_thresholds _ _ _ _
              (Fin (ss * 0.5 + impact * 0.3 + 1 * 0.2)) default_cut_points)
    as (t & Ht & Hfm).
  pose proof (generate_signal_components default_thresholds (PyStr name) sentiment
                (num (INR (mentions data))) (num (total_engagement data))
                (Fin ss) (Fin impact) (Fin 1) t Hs He Hc Ht) as Hsig.
  eexists _, impact, t. split.
  - unfold successful, item_signal. rewrite Hget.
    replace (getitem (coin_input name data) "coin") with (@Ok pyval (PyStr name))
      by reflexivity.
    replace (getitem (coin_input name data) "mentions")
      with (@Ok pyval (num (INR (mentions data)))) by reflexivity.
    replace (getitem (coin_input name data) "engagement")
      with (@Ok pyval (num (total_engagement data))) by reflexivity.
    cbn [mbind result_bind]. rewrite Hsig. reflexivity.
  - cbn [coin metrics sentiment_score engagement_impact confidence signal_strength
         signal_type fmul fadd].
    do 3 (split; [reflexivity |]). split; [exact Himpact |].
    do 3 (split; [reflexivity |]). exact Hfm.
Qed.

Section PipelineFacts.
Variable max_tweets : nat.
Variable _analyze_sentiment : string -> Polarity.
Variable _detect_crypto_mentions : string -> list string.

(** Each signal of the document comes from one entry of the mapping that
    passed the filter. *)
Lemma signal_origin entries agg s :
  process_tweets max_tweets _analyze_sentiment _detect_crypto_mentions entries = Ok agg ->
  s ∈ trading_signals agg ->
  exists name data,
    (name, data) ∈ coin_mentions agg
    /\ (5 <= mentions data)%nat
    /\ successful default_thresholds (coin_input name data) = Some s.
Proof.
  rewrite process_tweets_aggregate. intros Hagg Hs.
  apply aggregate_inv in Hagg as (_ & _ & _ & Hsignals).
  rewrite Hsignals, sorted_reverse_perm in Hs.
  apply list_elem_of_omap in Hs as (item & Hitem & Hsucc).
  apply list_elem_of_In, in_map_iff in Hitem as ([name data] & <- & Hkv).
  apply list_elem_of_In, list_elem_of_filter in Hkv as [Hmin Hkv].
  exists name, data. auto.
Qed.

End PipelineFacts.

(** X1.  Every signal of a document [process_tweets] returns has confidence
    exactly [1.0]: its coin has at least five mentions, the default
    [MIN_MENTIONS], so the logarithmic confidence is saturated. *)
Theorem X1_pipeline_confidence_is_one
    (max_tweets : nat) (_analyze_sentiment : string -> Polarity)
    (_detect_crypto_mentions : string -> list string)
    (entries : list (option Tweet)) (agg : AggregatedData) :
  process_tweets max_tweets _analyze_sentiment _detect_crypto_mentions entries = Ok agg ->
  forall s, s ∈ trading_signals agg ->
    confidence s = Fin 1
    /\ exists n : nat, mention_count (metrics s) = num (INR n) /\ (5 <= n)%nat.
Proof.
  intros Hagg s Hs.
  destruct (signal_origin _ _ _ _ _ _ Hagg Hs) as (name & data & _ & Hmin & Hsucc).
  destruct (pipeline_signal name data Hmin)
    as (s' & impact & t & Hsucc' & _ & _ & _ & _ & Hconf & _).
  rewrite Hsucc in Hsucc'. injection Hsucc' as <-.
  split; [exact Hconf |].
  destruct (coin_input_successful name data) as (s'' & Hsucc'' & _ & Hcount).
  rewrite Hsucc in Hsucc''. injection Hsucc'' as <-.
  exists (mentions data). split; [exact Hcount | exact Hmin].
Qed.

(** X2.  No document of [process_tweets] holds a SELL or a STRONG_SELL
    signal: with confidence [1.0] the strength of every signal is at least
    [-0.3] (and at most [1.0]), above the SELL threshold [-0.5]. *)
Theorem X2_pipeline_never_sells
    (max_tweets : nat) (_analyze_sentiment : string -> Polarity)
    (_detect_crypto_mentions : string -> list string)
    (entries : list (option Tweet)) (agg : AggregatedData) :
  process_tweets max_tweets _analyze_sentiment _detect_crypto_mentions entries = Ok agg ->
  forall s, s ∈ trading_signals agg ->
    (exists x, signal_strength s = Fin x /\ -0.3 <= x <= 1.0)
    /\ signal_type s <> SignalType.value SignalType.SELL
    /\ signal_type s <> SignalType.value SignalType.STRONG_SELL
    /\ (signal_type s = SignalType.value SignalType.STRONG_BUY
        \/ signal_type s = SignalType.value SignalType.BUY
        \/ signal_type s = SignalType.value SignalType.NEUTRAL).
Proof.
  intros Hagg s Hs.
  destruct (signal_origin _ _ _ _ _ _ Hagg Hs) as (name & data & _ & Hmin & Hsucc).
  destruct (pipeline_signal name data Hmin)
    as (s' & impact & t & Hsucc' & _ & _ & _ & Himpact & _ & Hstrength & Htype & Hfm).
  rewrite Hsucc in Hsucc'. injection Hsucc' as <-.
  pose proof (clamp_bounds (-1) 1
                (0.8 * avg_sentiment data + 0.2 * sign (avg_sentiment data))
                ltac:(lra)) as Hss.
  rewrite Hstrength in Hfm. rewrite Htype, Hstrength.
  set (x := _ * 0.5 + impact * 0.3 + 1 * 0.2) in *.
  assert (-0.3 <= x <= 1.0) as Hx by (unfold x; lra).
  split; [eauto |].
  destruct Hfm as (H1 & H2 & H3 & H4 & H5).
  rewrite !fge_Fin, !fle_Fin in *.
  destruct (Rle_dec 0.8 x) as [Hsb | Hsb];
    [rewrite (H1 Hsb); repeat split; try discriminate; auto |].
  destruct (Rle_dec 0.5 x) as [Hb | Hb];
    [rewrite (H2 Hsb Hb); repeat split; try discriminate; auto |].
  rewrite (H5 Hsb Hb) by lra. repeat split; try discriminate; auto.
Qed.

(** X3.  In a document of [process_tweets] the sentiment score of a signal
    depends on the average sentiment [a] of its coin only: it is
    [0.8*a + 0.2] clamped for [a > 0] and [0.8*a - 0.2] clamped otherwise, so
    it is never inside [(-0.2, 0.2)]; and a coin whose average sentiment is
    not positive gets a NEUTRAL signal, whatever its engagement. *)
Theorem X3_pipeline_nonpositive_sentiment_is_neutral
    (max_tweets : nat) (_analyze_sentiment : string -> Polarity)
    (_detect_crypto_mentions : string -> list string)
    (entries : list (option Tweet)) (agg : AggregatedData) :
  process_tweets max_tweets _analyze_sentiment _detect_crypto_mentions entries = Ok agg ->
  forall s, s ∈ trading_signals agg ->
  exists name data score,
    coin s = PyStr name
    /\ (name, data) ∈ coin_mentions agg
    /\ sentiment_score (metrics s) = Fin score
    /\ score = clamp (-1) 1 (0.8 * avg_sentiment data
                             + (if decide (0 < avg_sentiment data) then 0.2 else -0.2))
    /\ (0 < avg_sentiment data -> 0.2 <= score)
    /\ (avg_sentiment data <= 0 ->
        score <= -0.2 /\ signal_type s = SignalType.value SignalType.NEUTRAL).
Proof.
  intros Hagg s Hs.
  destruct (signal_origin _ _ _ _ _ _ Hagg Hs) as (name & data & Hkv & Hmin & Hsucc).
  destruct (pipeline_signal name data Hmin)
    as (s' & impact & t & Hsucc' & Hcoin & Hscore & _ & Himpact & _ & Hstrength
        & Htype & Hfm).
  rewrite Hsucc in Hsucc'. injection Hsucc' as <-.
  eexists name, data, _. split; [exact Hcoin |]. split; [exact Hkv |].
  split; [exact Hscore |].
  set (a := avg_sentiment data) in *.
  assert (clamp (-1) 1 (0.8 * a + 0.2 * sign a)
          = clamp (-1) 1 (0.8 * a + (if decide (0 < a) then 0.2 else -0.2))) as Heq.
  { unfold sign. destruct (decide (0 < a)); f_equal; lra. }
  split; [exact Heq |].
  split.
  - intros Hpos. unfold sign, clamp, Rmax, Rmin.
    destruct (decide (0 < a)); [| lra]. repeat destruct (Rle_dec _ _); lra.
  - intros Hneg.
    assert (clamp (-1) 1 (0.8 * a + 0.2 * sign a) <= -0.2) as Hlow.
    { unfold sign, clamp, Rmax, Rmin.
      destruct (decide (0 < a)); [lra |]. repeat destruct (Rle_dec _ _); lra. }
    split; [exact Hlow |].
    pose proof (clamp_bounds (-1) 1 (0.8 * a + 0.2 * sign a) ltac:(lra)) as Hss.
    rewrite Hstrength in Hfm. rewrite Htype.
    set (x := _ * 0.5 + impact * 0.3 + 1 * 0.2) in *.
    assert (-0.3 <= x <= 0.4) as Hx by (unfold x; lra).
    destruct Hfm as (_ & _ & _ & _ & H5).
    rewrite !fge_Fin, !fle_Fin in *.
    rewrite H5 by lra. reflexivity.
Qed.

Import Samples.

(** The sample corpus gives a document with a signal, whatever the analyzer
    says. *)
Lemma sample_document (analyzer : string -> Polarity) :
  exists agg s,
    process_tweets 100 analyzer sample_detector sample_entries = Ok agg
    /\ s ∈ trading_signals agg.
Proof.
  destruct (aggregate_nonempty
              (map (process_one analyzer sample_detector)
                   (omap (fun tweet_data => tweet_data) (take 100 sample_entries))))
    as (agg & Hagg); [discriminate |].
  pose proof Hagg as Hinv. apply aggregate_inv in Hinv as (_ & _ & Hcoins & _).
  pose proof Hagg as Hsigs. apply aggregate_signals in Hsigs as (_ & sigs & Hperm & Hall).
  cbn in Hcoins. rewrite Hcoins in Hall. cbn in Hall.
  rewrite <- process_tweets_aggregate in Hagg.
  inversion Hall as [| kv s qualifying sigs' _ _ Hq Hsigs']; subst.
  exists agg, s. split; [exact Hagg |]. rewrite Hperm. left.
Qed.

Lemma X1_pipeline_confidence_is_one_witness :
  exists agg s,
    process_tweets 100 (fun _ => sample_polarity) sample_detector sample_entries = Ok agg
    /\ s ∈ trading_signals agg
    /\ confidence s = Fin 1.
Proof.
  destruct (sample_document (fun _ => sample_polarity)) as (agg & s & Hagg & Hs).
  exists agg, s. split; [exact Hagg |]. split; [exact Hs |].
  exact (proj1 (X1_pipeline_confidence_is_one _ _ _ _ _ Hagg s Hs)).
Defined.

Lemma X2_pipeline_never_sells_witness :
  exists agg s,
    process_tweets 100 (fun _ => bearish_polarity) sample_detector sample_entries = Ok agg
    /\ s ∈ trading_signals agg
    /\ signal_type s <> SignalType.value SignalType.SELL
    /\ signal_type s <> SignalType.value SignalType.STRONG_SELL.
Proof.
  destruct (sample_document (fun _ => bearish_polarity)) as (agg & s & Hagg & Hs).
  exists agg, s. split; [exact Hagg |]. split; [exact Hs |].
  pose proof (X2_pipeline_never_sells _ _ _ _ _ Hagg s Hs) as (_ & Hsell & Hstrong & _).
  split; assumption.
Defined.

Lemma X3_pipeline_nonpositive_sentiment_is_neutral_witness :
  exists agg s,
    process_tweets 100 (fun _ => bearish_polarity) sample_detector sample_entries = Ok agg
    /\ s ∈ trading_signals agg
    /\ exists name data score,
         coin s = PyStr name /\ (name, data) ∈ coin_mentions agg
         /\ sentiment_score (metrics s) = Fin score.
Proof.
  destruct (sample_document (fun _ => bearish_polarity)) as (agg & s & Hagg & Hs).
  exists agg, s. split; [exact Hagg |]. split; [exact Hs |].
  destruct (X3_pipeline_nonpositive_sentiment_is_neutral _ _ _ _ _ Hagg s Hs)
    as (name & data & score & Hcoin & Hkv & Hscore & _).
  exists name, data, score. auto.
Defined.

(* ===================================================================== *)
(** ** The aggregation                                                    *)
(* ===================================================================== *)

Import Summary.

Lemma add_result_pairs d r :
  add_result d r
  = foldl (fun d p => add_mention p.2 p.1 d) d
          (map (fun coin => (coin, r)) (crypto_mentions r)).
Proof.
  unfold add_result. generalize (crypto_mentions r) as coins. intros coins. revert d.
  induction coins as [| coin coins IH]; intros d; simpl; [reflexivity | apply IH].
Qed.

Lemma sums_pairs (results : list Processed) d :
  foldl add_result d results
  = foldl (fun d p => add_mention p.2 p.1 d) d (mention_pairs results).
Proof.
  revert d. induction results as [| r results IH]; intros d; simpl; [reflexivity |].
  unfold mention_pairs. simpl. rewrite foldl_app, <- add_result_pairs. apply IH.
Qed.

Lemma coin_lookup_add_mention name r coin d :
  coin_lookup name (add_mention r coin d)
  = if decide (coin = name)
    then Some (count_mention r (default new_coin (coin_lookup name d)))
    else coin_lookup name d.
Proof.
  induction d as [| [k c] d IH]; simpl.
  - destruct (decide (coin = name)); reflexivity.
  - destruct (decide (k = coin)) as [-> | Hk]; simpl.
    + destruct (decide (coin = name)); reflexivity.
    + destruct (decide (k = name)) as [-> | Hkn].
      * destruct (decide (coin = name)); [congruence | reflexivity].
      * exact IH.
Qed.

Lemma coin_lookup_pairs name pairs d :
  coin_lookup name (foldl (fun d p => add_mention p.2 p.1 d) d pairs)
  = match map snd (filter (fun p => p.1 = name) pairs) with
    | [] => coin_lookup name d
    | posts => Some (tally (default new_coin (coin_lookup name d)) posts)
    end.
Proof.
  revert d. induction pairs as [| [coin r] pairs IH]; intros d; [reflexivity |].
  cbn [foldl]. rewrite IH, coin_lookup_add_mention. cbn [fst snd].
  rewrite filter_cons. cbn [fst].
  destruct (decide (coin = name)) as [-> | Hne]; cbn [map snd default].
  - destruct (map snd (filter _ pairs)); reflexivity.
  - reflexivity.
Qed.

Lemma coin_lookup_elem_of name data (d : list (string * CoinData)) :
  NoDup (map fst d) -> (name, data) ∈ d <-> coin_lookup name d = Some data.
Proof.
  induction d as [| [k c] d IH]; simpl; intros Hnd.
  - split; [intros H; now apply elem_of_nil in H | discriminate].
  - apply NoDup_cons in Hnd as [Hk Hnd]. rewrite elem_of_cons.
    destruct (decide (k = name)) as [-> | Hne].
    + split.
      * intros [[= ->] | Hin]; [reflexivity |].
        exfalso. apply Hk. apply list_elem_of_In, in_map_iff.
        exists (name, data). split; [reflexivity | now apply list_elem_of_In].
      * intros [= ->]. now left.
    + rewrite <- IH by exact Hnd. split.
      * intros [[= -> _] | Hin]; [congruence | exact Hin].
      * intros Hin. now right.
Qed.

Lemma foldl_Rplus a l : foldl Rplus a l = a + Rsum l.
Proof.
  unfold Rsum. revert a. induction l as [| x l IH]; intros a; simpl; [lra |].
  rewrite (IH (a + x)), (IH (0 + x)). lra.
Qed.

Lemma tally_fields c posts :
  mentions (tally c posts) = (mentions c + length posts)%nat
  /\ avg_sentiment (tally c posts)
     = avg_sentiment c + Rsum (map (fun r => compound (sentiment r)) posts)
  /\ total_engagement (tally c posts)
     = total_engagement c + Rsum (map engagement_score posts).
Proof.
  unfold tally. revert c. induction posts as [| r posts IH]; intros c; simpl.
  - unfold Rsum. simpl. repeat split; [lia | lra | lra].
  - destruct (IH (count_mention r c)) as (-> & -> & ->). simpl.
    unfold Rsum. simpl. rewrite !(foldl_Rplus (0 + _)). unfold Rsum.
    repeat split; [lia | lra | lra].
Qed.

(** The entry of a coin in the document, in closed form. *)
Lemma coin_record (results : list Processed) agg name data :
  aggregate results = Ok agg ->
  (name, data) ∈ coin_mentions agg
  <-> posts_mentioning name results <> []
      /\ data = finalize (tally new_coin (posts_mentioning name results)).
Proof.
  intros Hagg. apply aggregate_inv in Hagg as (_ & _ & Hcoins & _).
  rewrite Hcoins. clear Hcoins.
  pose proof (sums_NoDup results [] (NoDup_nil_2 : NoDup (map fst []))) as Hnd.
  assert (forall c, (name, c) ∈ foldl add_result [] results
                    <-> posts_mentioning name results <> []
                        /\ c = tally new_coin (posts_mentioning name results)) as Hsum.
  { intros c. rewrite (coin_lookup_elem_of _ _ _ Hnd), sums_pairs, coin_lookup_pairs.
    unfold posts_mentioning. cbn [coin_lookup default].
    destruct (map snd (filter _ (mention_pairs results))) as [| r posts].
    - split; [discriminate | intros [Hne _]; now destruct Hne].
    - split; [intros [= <-]; split; [discriminate | reflexivity] | intros [_ ->]; reflexivity]. }
  split.
  - intros Hin. apply list_elem_of_In, in_map_iff in Hin as ([k c] & [= -> <-] & Hkc).
    apply list_elem_of_In, Hsum in Hkc as [Hne ->]. simpl. now split.
  - intros [Hne ->]. apply list_elem_of_In, in_map_iff.
    exists (name, tally new_coin (posts_mentioning name results)).
    split; [reflexivity |]. apply list_elem_of_In, Hsum. now split.
Qed.

Lemma aggregate_average (results : list Processed) agg :
  aggregate results = Ok agg ->
  average_sentiment agg
  = Rsum (map (fun r => compound (sentiment r)) results) / INR (length results).
Proof.
  unfold aggregate, truediv.
  destruct (decide (INR (length results) = 0)); cbn [mbind result_bind]; [discriminate |].
  rewrite generate_signals_batch_successful. cbn [mbind result_bind mret result_ret].
  intros [= <-]. reflexivity.
Qed.

Lemma omap_length_le {X Y} (f : X -> option Y) l : (length (omap f l) <= length l)%nat.
Proof.
  induction l as [| x l IH]; [simpl; lia |].
  cbn [omap list_omap]. destruct (f x); simpl; lia.
Qed.

Lemma Rsum_bounds lo hi l :
  Forall (fun x => lo <= x <= hi) l ->
  INR (length l) * lo <= Rsum l <= INR (length l) * hi.
Proof.
  unfold Rsum. induction 1 as [| x l Hx Hl IH]; [simpl; lra |].
  rewrite length_cons, S_INR. cbn [foldl]. rewrite foldl_Rplus. unfold Rsum. lra.
Qed.

Lemma mean_bounds lo hi l :
  l <> [] -> Forall (fun x => lo <= x <= hi) l ->
  lo <= Rsum l / INR (length l) <= hi.
Proof.
  intros Hne Hall. pose proof (Rsum_bounds lo hi l Hall) as Hsum.
  assert (0 < INR (length l)) as Hlen.
  { destruct l; [now destruct Hne |]. rewrite length_cons. apply lt_0_INR. lia. }
  split.
  - apply (Rmult_le_reg_r (INR (length l))); [exact Hlen |].
    unfold Rdiv. rewrite Rmult_assoc, Rinv_l by lra. lra.
  - apply (Rmult_le_reg_r (INR (length l))); [exact Hlen |].
    unfold Rdiv. rewrite Rmult_assoc, Rinv_l by lra. lra.
Qed.

(** X4.  In the document of [process_tweets], the entry of a coin counts the
    posts that mention it: [mentions] is their number (never zero),
    [total_engagement] the sum of their engagement scores and [avg_sentiment]
    the mean of their compound scores. *)
Theorem X4_coin_entry_summarises_its_posts
    (max_tweets : nat) (_analyze_sentiment : string -> Polarity)
    (_detect_crypto_mentions : string -> list string)
    (entries : list (option Tweet)) (agg : AggregatedData) :
  process_tweets max_tweets _analyze_sentiment _detect_crypto_mentions entries = Ok agg ->
  let results := map (process_one _analyze_sentiment _detect_crypto_mentions)
                     (omap (fun tweet_data => tweet_data) (take max_tweets entries)) in
  forall name data, (name, data) ∈ coin_mentions agg ->
    let posts := posts_mentioning name results in
    (1 <= mentions data)%nat
    /\ mentions data = length posts
    /\ total_engagement data = Rsum (map engagement_score posts)
    /\ avg_sentiment data
       = Rsum (map (fun r => compound (sentiment r)) posts) / INR (length posts).
Proof.
  rewrite process_tweets_aggregate. intros Hagg results name data Hin posts.
  apply (coin_record _ _ _ _ Hagg) in Hin as [Hne ->]. fold results posts in Hne |- *.
  destruct (tally_fields new_coin posts) as (Hm & Ha & He).
  assert (0 < length posts)%nat as Hlen by (destruct posts; [now destruct Hne | simpl; lia]).
  unfold finalize. rewrite Hm. cbn [new_coin mentions Nat.add].
  destruct (decide (0 < length posts)%nat) as [_ | Hno]; [| lia].
  cbn [mentions avg_sentiment total_engagement]. rewrite Ha, He.
  cbn [new_coin avg_sentiment total_engagement].
  split; [lia |]. split; [reflexivity |]. split; [lra |]. f_equal. lra.
Qed.

(** X5.  The coins of the document are exactly the keywords detected in at
    least one processed post: no entry exists for a coin nobody mentions, and
    every mentioned coin has one. *)
Theorem X5_coins_are_the_mentioned_ones
    (max_tweets : nat) (_analyze_sentiment : string -> Polarity)
    (_detect_crypto_mentions : string -> list string)
    (entries : list (option Tweet)) (agg : AggregatedData) :
  process_tweets max_tweets _analyze_sentiment _detect_crypto_mentions entries = Ok agg ->
  let results := map (process_one _analyze_sentiment _detect_crypto_mentions)
                     (omap (fun tweet_data => tweet_data) (take max_tweets entries)) in
  forall name,
    (exists data, (name, data) ∈ coin_mentions agg)
    <-> exists r, r ∈ results /\ name ∈ crypto_mentions r.
Proof.
  rewrite process_tweets_aggregate. intros Hagg results name. fold results in Hagg.
  assert (posts_mentioning name results <> []
          <-> exists r, r ∈ results /\ name ∈ crypto_mentions r) as Hposts.
  { unfold posts_mentioning, mention_pairs. split.
    - intros Hne.
      destruct (filter _ _) as [| [k r] rest] eqn:Hf; [now destruct Hne |].
      assert ((k, r) ∈ filter (fun p : string * Processed => p.1 = name)
                (flat_map (fun r => map (fun coin => (coin, r)) (crypto_mentions r)) results))
        as Hin by (rewrite Hf; left).
      apply list_elem_of_filter in Hin as [Hk Hin]. simpl in Hk. subst k.
      apply list_elem_of_In, in_flat_map in Hin as (r' & Hr' & Hin).
      apply in_map_iff in Hin as (coin & [= -> ->] & Hcoin).
      exists r. split; now apply list_elem_of_In.
    - intros (r & Hr & Hcoin) Hnil.
      assert ((name, r) ∈ filter (fun p : string * Processed => p.1 = name)
                (flat_map (fun r => map (fun coin => (coin, r)) (crypto_mentions r)) results))
        as Hin.
      { apply list_elem_of_filter. split; [reflexivity |].
        apply list_elem_of_In, in_flat_map. exists r.
        split; [now apply list_elem_of_In |].
        apply in_map_iff. exists name. split; [reflexivity | now apply list_elem_of_In]. }
      destruct (filter _ _); [now apply elem_of_nil in Hin | discriminate]. }
  rewrite <- Hposts. split.
  - intros (data & Hin). now apply (coin_record _ _ _ _ Hagg) in Hin as [Hne _].
  - intros Hne. eexists. apply (coin_record _ _ _ _ Hagg). split; [exact Hne | reflexivity].
Qed.

(** X6.  [total_tweets] is the number of entries, among the first
    [max_tweets], whose extraction succeeded; in a returned document it is at
    least one and never exceeds [max_tweets] nor the number of entries, and
    [average_sentiment] is the mean compound score of the processed posts. *)
Theorem X6_document_totals
    (max_tweets : nat) (_analyze_sentiment : string -> Polarity)
    (_detect_crypto_mentions : string -> list string)
    (entries : list (option Tweet)) (agg : AggregatedData) :
  process_tweets max_tweets _analyze_sentiment _detect_crypto_mentions entries = Ok agg ->
  let tweets := omap (fun tweet_data => tweet_data) (take max_tweets entries) in
  total_tweets agg = length tweets
  /\ (1 <= total_tweets agg <= max_tweets)%nat
  /\ (total_tweets agg <= length entries)%nat
  /\ average_sentiment agg
     = Rsum (map (fun t => compound (_analyze_sentiment (text t))) tweets)
       / INR (total_tweets agg).
Proof.
  rewrite process_tweets_aggregate. intros Hagg tweets. fold tweets in Hagg.
  pose proof (aggregate_average _ _ Hagg) as Havg.
  apply aggregate_inv in Hagg as (Hne & Htotal & _).
  rewrite length_map in Htotal, Havg. rewrite map_map in Havg. cbn [process_one sentiment] in Havg.
  pose proof (omap_length_le (fun tweet_data : option Tweet => tweet_data)
                (take max_tweets entries)) as Hle.
  rewrite length_take in Hle. fold tweets in Hle.
  assert (0 < length tweets)%nat.
  { destruct tweets; [now destruct Hne | simpl; lia]. }
  split; [exact Htotal |]. split; [lia |]. split; [lia |].
  rewrite Htotal. exact Havg.
Qed.

(** The average of a coin lies between any two bounds of the compound scores
    of the processed posts. *)
Lemma coin_average_in_range (results : list Processed) agg lo hi name data :
  Forall (fun r => lo <= compound (sentiment r) <= hi) results ->
  aggregate results = Ok agg ->
  (name, data) ∈ coin_mentions agg -> lo <= avg_sentiment data <= hi.
Proof.
  intros Hres Hagg Hin.
  apply (coin_record _ _ _ _ Hagg) in Hin as [Hne ->].
  set (posts := posts_mentioning name results) in *.
  destruct (tally_fields new_coin posts) as (Hm & Ha & _).
  assert (0 < length posts)%nat as Hlen
    by (destruct posts; [now destruct Hne | simpl; lia]).
  unfold finalize. rewrite Hm. cbn [new_coin mentions Nat.add].
  destruct (decide (0 < length posts)%nat) as [_ | Hno]; [| lia].
  cbn [avg_sentiment]. rewrite Ha. cbn [new_coin avg_sentiment].
  replace (0.0 + Rsum (map (fun r => compound (sentiment r)) posts))
    with (Rsum (map (fun r => compound (sentiment r)) posts)) by lra.
  rewrite <- (length_map (fun r => compound (sentiment r)) posts).
  apply mean_bounds.
  - destruct posts; [now destruct Hne | discriminate].
  - apply Forall_forall. intros x Hx.
    apply list_elem_of_In, in_map_iff in Hx as (r & <- & Hr).
    rewrite Forall_forall in Hres. apply Hres.
    unfold posts, posts_mentioning, mention_pairs in Hr.
    apply in_map_iff in Hr as ([k r'] & Heq & Hin). simpl in Heq. subst r'.
    apply list_elem_of_In, list_elem_of_filter in Hin as [_ Hin].
    apply list_elem_of_In, in_flat_map in Hin as (r0 & Hr0 & Hin).
    apply in_map_iff in Hin as (coin & [= _ ->] & _). now apply list_elem_of_In.
Qed.

Lemma document_average_in_range (results : list Processed) agg lo hi :
  Forall (fun r => lo <= compound (sentiment r) <= hi) results ->
  aggregate results = Ok agg -> lo <= average_sentiment agg <= hi.
Proof.
  intros Hres Hagg. rewrite (aggregate_average _ _ Hagg).
  apply aggregate_inv in Hagg as (Hne & _).
  rewrite <- (length_map (fun r => compound (sentiment r)) results).
  apply mean_bounds; [destruct results; [now destruct Hne | discriminate] |].
  apply Forall_forall. intros x Hx.
  apply list_elem_of_In, in_map_iff in Hx as (r & <- & Hr).
  rewrite Forall_forall in Hres. apply Hres. now apply list_elem_of_In.
Qed.

(** X7.  Averages stay within the range of the analyzer: when every compound
    score lies between [-1] and [1], so do the [average_sentiment] of the
    document and the [avg_sentiment] of every coin.  (The bounds [-1] and [1]
    and their multiples by a number of posts are floats, so that rounding
    the sums and the quotients does not leave the range.) *)
Theorem X7_averages_stay_in_range
    (max_tweets : nat) (_analyze_sentiment : string -> Polarity)
    (_detect_crypto_mentions : string -> list string)
    (entries : list (option Tweet)) (agg : AggregatedData) :
  (forall text, -1 <= compound (_analyze_sentiment text) <= 1) ->
  process_tweets max_tweets _analyze_sentiment _detect_crypto_mentions entries = Ok agg ->
  -1 <= average_sentiment agg <= 1
  /\ forall name data, (name, data) ∈ coin_mentions agg -> -1 <= avg_sentiment data <= 1.
Proof.
  intros Hrange. rewrite process_tweets_aggregate. intros Hagg.
  set (results := map (process_one _analyze_sentiment _detect_crypto_mentions) _) in *.
  assert (Forall (fun r => -1 <= compound (sentiment r) <= 1) results) as Hres.
  { apply Forall_forall. intros r Hr.
    apply list_elem_of_In, in_map_iff in Hr as (t & <- & _). apply Hrange. }
  split.
  - eapply document_average_in_range; eassumption.
  - intros name data Hin. eapply coin_average_in_range; eassumption.
Qed.

(** The sample corpus has an entry for [eth]. *)
Lemma sample_document_coin (analyzer : string -> Polarity) :
  exists agg data,
    process_tweets 100 analyzer sample_detector sample_entries = Ok agg
    /\ ("eth", data) ∈ coin_mentions agg.
Proof.
  destruct (aggregate_nonempty
              (map (process_one analyzer sample_detector)
                   (omap (fun tweet_data => tweet_data) (take 100 sample_entries))))
    as (agg & Hagg); [discriminate |].
  pose proof Hagg as Hinv. apply aggregate_inv in Hinv as (_ & _ & Hcoins & _).
  cbn in Hcoins. rewrite <- process_tweets_aggregate in Hagg.
  exists agg. eexists. split; [exact Hagg |]. rewrite Hcoins. right. left.
Qed.

Lemma X4_coin_entry_summarises_its_posts_witness :
  exists agg data,
    process_tweets 100 (fun _ => sample_polarity) sample_detector sample_entries = Ok agg
    /\ ("eth", data) ∈ coin_mentions agg
    /\ (1 <= mentions data)%nat.
Proof.
  destruct (sample_document_coin (fun _ => sample_polarity)) as (agg & data & Hagg & Hin).
  exists agg, data. split; [exact Hagg |]. split; [exact Hin |].
  exact (proj1 (X4_coin_entry_summarises_its_posts _ _ _ _ _ Hagg "eth" data Hin)).
Defined.

Lemma X5_coins_are_the_mentioned_ones_witness :
  exists agg data,
    process_tweets 100 (fun _ => sample_polarity) sample_detector sample_entries = Ok agg
    /\ ("eth", data) ∈ coin_mentions agg
    /\ exists r, "eth" ∈ crypto_mentions r.
Proof.
  destruct (sample_document_coin (fun _ => sample_polarity)) as (agg & data & Hagg & Hin).
  exists agg, data. split; [exact Hagg |]. split; [exact Hin |].
  destruct (proj1 (X5_coins_are_the_mentioned_ones _ _ _ _ _ Hagg "eth")
              (ex_intro _ data Hin)) as (r & _ & Hr).
  exists r. exact Hr.
Defined.

Lemma X6_document_totals_witness :
  exists agg s,
    process_tweets 100 (fun _ => sample_polarity) sample_detector sample_entries = Ok agg
    /\ s ∈ trading_signals agg
    /\ total_tweets agg = 5%nat.
Proof.
  destruct (sample_document (fun _ => sample_polarity)) as (agg & s & Hagg & Hs).
  exists agg, s. split; [exact Hagg |]. split; [exact Hs |].
  exact (proj1 (X6_document_totals _ _ _ _ _ Hagg)).
Defined.

Lemma X7_averages_stay_in_range_witness :
  exists agg data,
    process_tweets 100 (fun _ => bearish_polarity) sample_detector sample_entries = Ok agg
    /\ ("eth", data) ∈ coin_mentions agg
    /\ -1 <= avg_sentiment data <= 1.
Proof.
  destruct (sample_document_coin (fun _ => bearish_polarity)) as (agg & data & Hagg & Hin).
  exists agg, data. split; [exact Hagg |]. split; [exact Hin |].
  refine (proj2 (X7_averages_stay_in_range _ _ _ _ _ _ Hagg) "eth" data Hin).
  intros _. simpl. lra.
Defined.

(* ===================================================================== *)
(** ** Edge cases of the signal generator                                 *)
(* ===================================================================== *)

Import Edges.

Lemma dict_get_float_field d key x :
  float_field d key x -> dict_get (PyDict d) key (num 0) = Ok (PyNum x).
Proof.
  intros [Hk | [Hk ->]]; simpl; rewrite Hk; reflexivity.
Qed.

(** Closes a goal about a value [v] that [Hv] says is not a number, once
    the two numeric cases are refuted. *)
Ltac not_number Hv v :=
  let Hfloat := fresh "Hfloat" in
  let Hint := fresh "Hint" in
  let E := fresh "E" in
  destruct Hv as [Hfloat Hint];
  destruct v eqn:E; try reflexivity;
  [ first [now destruct (Hfloat _ E) | now destruct (Hfloat _ eq_refl)]
  | first [now destruct (Hint _ E) | now destruct (Hint _ eq_refl)] ].

Lemma py_mul_not_a_number v c : not_a_number v -> py_mul v c = Raise TypeError.
Proof. intros Hv. not_number Hv v. Qed.

Lemma py_max_not_a_number c v : not_a_number v -> py_max c v = Raise TypeError.
Proof. intros Hv. not_number Hv v. Qed.

Lemma np_log1p_not_a_number v : not_a_number v -> np_log1p v = Raise TypeError.
Proof. intros Hv. not_number Hv v. Qed.

Lemma py_sub_not_a_number a b :
  not_a_number a \/ not_a_number b -> exists e, py_sub a b = Raise e.
Proof.
  intros [[Hx Hz] | [Hx Hz]].
  - destruct a as [| x | | | z]; [| now destruct (Hx x) | | | now destruct (Hz z)];
      eexists; reflexivity.
  - destruct b as [| x | | | z]; [| now destruct (Hx x) | | | now destruct (Hz z)];
      destruct a; eexists; reflexivity.
Qed.

Lemma fadd_NaN_l x : fadd NaN x = NaN.
Proof. now destruct x. Qed.

Lemma sentiment_clamp_special :
  fmax (Fin (-1.0)) (fmin (Fin 1.0) NaN) = Fin 1.0
  /\ fmax (Fin (-1.0)) (fmin (Fin 1.0) PInf) = Fin 1.0
  /\ fmax (Fin (-1.0)) (fmin (Fin 1.0) NInf) = Fin (-1.0).
Proof.
  unfold fmax, fmin, fgt, flt. cbn. case_bool_decide; [| lra]. repeat split.
Qed.

Lemma inf_times_pos b a : 0 < a -> inf_times b a = if b then PInf else NInf.
Proof.
  intros Ha. unfold inf_times. destruct (decide (0 < a)); [reflexivity | lra].
Qed.

(** The weighted sum of a [compound] of [+inf], and of [-inf], for the
    difference [x] of [pos] and [neg] and a last term [c]. *)
Lemma weighted_sum_PInf x c :
  fmax (Fin (-1.0)) (fmin (Fin 1.0)
    (fadd (fadd PInf (fmul x (Fin 0.3))) (Fin c))) = Fin 1.0.
Proof.
  destruct sentiment_clamp_special as (Hnan & Hinf & _).
  destruct x as [a | | |]; cbn [fmul]; rewrite ?inf_times_pos by lra; cbn [fadd];
    assumption.
Qed.

Lemma weighted_sum_NInf x c :
  fmax (Fin (-1.0)) (fmin (Fin 1.0)
    (fadd (fadd NInf (fmul x (Fin 0.3))) (Fin c)))
  = Fin (if decide (x = PInf \/ x = NaN) then 1.0 else -1.0).
Proof.
  destruct sentiment_clamp_special as (Hnan & _ & Hinf).
  destruct x as [a | | |]; cbn [fmul]; rewrite ?inf_times_pos by lra; cbn [fadd];
    destruct (decide _) as [[H | H] | H]; try discriminate; try assumption;
    exfalso; apply H; auto.
Qed.

(** X8.  [_calculate_sentiment_score] returns a number of [-1, 1] on every
    argument.  It is [0.0] for what is not a dictionary and for a dictionary
    whose [compound], [pos] or [neg] is present and not a number.  When [pos]
    and [neg] are floats or missing: a [compound] of [nan] scores the maximum
    [1.0] (the comparison in [min(1.0, nan)] is false), as does [+inf]; a
    [compound] of [-inf] scores [-1.0] when [pos] and [neg] are in [0, 1],
    and [1.0] when [pos - neg] is [+inf] or [nan], the sum being [nan]
    then. *)
Theorem X8_sentiment_score_edges :
  (forall sentiment_data,
     exists r, _calculate_sentiment_score sentiment_data = Ok (Fin r) /\ -1 <= r <= 1)
  /\ (forall sentiment_data,
        (forall d, sentiment_data <> PyDict d) ->
        _calculate_sentiment_score sentiment_data = Ok (Fin 0.0))
  /\ (forall d key v,
        key = "compound" \/ key = "pos" \/ key = "neg" ->
        d !! key = Some v -> not_a_number v ->
        _calculate_sentiment_score (PyDict d) = Ok (Fin 0.0))
  /\ (forall d p n,
        d !! "compound" = Some (PyNum NaN) -> float_field d "pos" p -> float_field d "neg" n ->
        _calculate_sentiment_score (PyDict d) = Ok (Fin 1.0))
  /\ (forall d p n,
        d !! "compound" = Some (PyNum PInf) -> float_field d "pos" p -> float_field d "neg" n ->
        _calculate_sentiment_score (PyDict d) = Ok (Fin 1.0))
  /\ (forall d p n,
        d !! "compound" = Some (PyNum NInf) -> field d "pos" p -> field d "neg" n ->
        0 <= p <= 1 -> 0 <= n <= 1 ->
        _calculate_sentiment_score (PyDict d) = Ok (Fin (-1.0)))
  /\ (forall d p n,
        d !! "compound" = Some (PyNum NInf) -> float_field d "pos" p -> float_field d "neg" n ->
        fsub p n = PInf \/ fsub p n = NaN ->
        _calculate_sentiment_score (PyDict d) = Ok (Fin 1.0)).
Proof.
  assert (forall d p n,
            d !! "compound" = Some (PyNum NInf) ->
            float_field d "pos" p -> float_field d "neg" n ->
            _calculate_sentiment_score (PyDict d)
            = Ok (Fin (if decide (fsub p n = PInf \/ fsub p n = NaN) then 1.0 else -1.0)))
    as Hninf.
  { intros d p n Hc Hp Hn.
    unfold _calculate_sentiment_score, _calculate_sentiment_score_body.
    rewrite (dict_get_float_field _ _ _ (or_introl Hc)),
      (dict_get_float_field _ _ _ Hp), (dict_get_float_field _ _ _ Hn).
    cbn [mbind result_bind py_mul py_sub py_gt mret result_ret try_except].
    replace (fmul NInf (Fin 0.5)) with NInf by (cbn [fmul]; now rewrite inf_times_pos by lra).
    cbn [fgt flt fmul]. now rewrite weighted_sum_NInf. }
  split; [exact sentiment_score_range |].
  split; [| split; [| split; [| split; [| split]]]].
  - intros sd Hsd. destruct sd as [| x | s | d | z]; try reflexivity. now destruct (Hsd d).
  - intros d key v Hkey Hk Hv.
    unfold _calculate_sentiment_score, _calculate_sentiment_score_body.
    cbn [dict_get mbind result_bind].
    destruct Hkey as [-> | [-> | ->]]; rewrite Hk; cbn [default].
    + now rewrite py_mul_not_a_number.
    + destruct (py_mul _ _); cbn [mbind result_bind try_except]; [| reflexivity].
      match goal with
      | |- context [py_sub ?a ?b] =>
          destruct (py_sub_not_a_number a b (or_introl Hv)) as [e ->]
      end.
      reflexivity.
    + destruct (py_mul _ _); cbn [mbind result_bind try_except]; [| reflexivity].
      match goal with
      | |- context [py_sub ?a ?b] =>
          destruct (py_sub_not_a_number a b (or_intror Hv)) as [e ->]
      end.
      reflexivity.
  - intros d p n Hc Hp Hn.
    unfold _calculate_sentiment_score, _calculate_sentiment_score_body.
    rewrite (dict_get_float_field _ _ _ (or_introl Hc)),
      (dict_get_float_field _ _ _ Hp), (dict_get_float_field _ _ _ Hn).
    cbn [mbind result_bind py_mul py_sub py_gt fmul fgt flt mret result_ret try_except].
    rewrite !fadd_NaN_l. now rewrite (proj1 sentiment_clamp_special).
  - intros d p n Hc Hp Hn.
    unfold _calculate_sentiment_score, _calculate_sentiment_score_body.
    rewrite (dict_get_float_field _ _ _ (or_introl Hc)),
      (dict_get_float_field _ _ _ Hp), (dict_get_float_field _ _ _ Hn).
    cbn [mbind result_bind py_mul py_sub py_gt mret result_ret try_except].
    replace (fmul PInf (Fin 0.5)) with PInf by (cbn [fmul]; now rewrite inf_times_pos by lra).
    cbn [fgt flt fmul]. now rewrite weighted_sum_PInf.
  - intros d p n Hc Hp Hn _ _.
    assert (forall key x, field d key x -> float_field d key (Fin x)) as Hfloat.
    { intros key x [Hk | [Hk ->]]; [now left | now right]. }
    rewrite (Hninf d (Fin p) (Fin n) Hc (Hfloat _ _ Hp) (Hfloat _ _ Hn)).
    destruct (decide _) as [[H | H] | _]; [discriminate H | discriminate H | reflexivity].
  - intros d p n Hc Hp Hn Hdiff. rewrite (Hninf d p n Hc Hp Hn).
    destruct (decide _) as [_ | H]; [reflexivity | contradiction].
Qed.

(** A [compound] of [nan] alone, and a [compound] of [-inf] beside a [pos]
    of [+inf]. *)
Lemma X8_sentiment_score_edges_witness :
  _calculate_sentiment_score (PyDict {["compound" := PyNum NaN]}) = Ok (Fin 1.0)
  /\ _calculate_sentiment_score
       (PyDict (<["compound" := PyNum NInf]> {["pos" := PyNum PInf]}))
     = Ok (Fin 1.0).
Proof.
  split.
  - refine (proj1 (proj2 (proj2 (proj2 X8_sentiment_score_edges)))
              {["compound" := PyNum NaN]} (Fin 0) (Fin 0) _ _ _).
    + reflexivity.
    + right. split; reflexivity.
    + right. split; reflexivity.
  - refine (proj2 (proj2 (proj2 (proj2 (proj2 (proj2 X8_sentiment_score_edges)))))
              (<["compound" := PyNum NInf]> {["pos" := PyNum PInf]}) PInf (Fin 0) _ _ _ _).
    + reflexivity.
    + left. reflexivity.
    + right. split; reflexivity.
    + left. reflexivity.
Defined.

(** *** Ints in the logarithms *)

Lemma not_numpy_int z : (2 ^ 64 <= z)%Z -> ~ numpy_int z.
Proof. unfold numpy_int. lia. Qed.

(** An int below [2^64] gives the engagement impact of the float of the same
    value: a negative one is floored at [0] before NumPy sees it. *)
Lemma engagement_impact_int th z :
  (z < 2 ^ 64)%Z ->
  _calculate_engagement_impact th (PyInt z) = _calculate_engagement_impact th (num (IZR z)).
Proof.
  intros Hz. unfold _calculate_engagement_impact, _calculate_engagement_impact_body.
  cbn [py_max num mbind result_bind]. unfold fmax, fgt, flt.
  case_bool_decide as Hpos; [| reflexivity].
  cbn [np_log1p]. destruct (decide (numpy_int z)) as [| Hout]; [reflexivity |].
  exfalso. apply Hout. unfold numpy_int. split; [| exact Hz].
  apply lt_IZR in Hpos. lia.
Qed.

Lemma mention_confidence_int th z :
  numpy_int z ->
  _calculate_mention_confidence th (PyInt z) = _calculate_mention_confidence th (num (IZR z)).
Proof.
  intros Hz. unfold _calculate_mention_confidence, _calculate_mention_confidence_body.
  cbn [np_log1p num]. destruct (decide (numpy_int z)); [reflexivity | contradiction].
Qed.

(** Outside the range of the 64-bit integers [np.log1p] rejects the int,
    and the handler answers. *)
Lemma mention_confidence_big_int th z :
  ~ numpy_int z -> _calculate_mention_confidence th (PyInt z) = Ok (Fin 0.0).
Proof.
  intros Hz. unfold _calculate_mention_confidence, _calculate_mention_confidence_body.
  cbn [np_log1p]. destruct (decide (numpy_int z)); [contradiction | reflexivity].
Qed.

(** X9.  With a positive [MIN_ENGAGEMENT], [_calculate_engagement_impact] is
    [0] for every score that is zero or negative (the score is floored at 0
    before the logarithm), exactly [1] for every float score at or above
    [MIN_ENGAGEMENT], for every int score at or above it and below [2^64],
    and for [+inf]; it is [0] for [nan] and [-inf], [0.0] for an argument
    that is not a number, and [0.0] again for an int score from [2^64] on,
    which [np.log1p] rejects. *)
Theorem X9_engagement_impact_edges (th : SignalThresholds) (m : R) :
  MIN_ENGAGEMENT th = num m -> 0 < m ->
  (forall e, e <= 0 -> _calculate_engagement_impact th (num e) = Ok (Fin 0))
  /\ (forall e, m <= e -> _calculate_engagement_impact th (num e) = Ok (Fin 1))
  /\ _calculate_engagement_impact th (PyNum PInf) = Ok (Fin 1.0)
  /\ _calculate_engagement_impact th (PyNum NaN) = Ok (Fin 0)
  /\ _calculate_engagement_impact th (PyNum NInf) = Ok (Fin 0)
  /\ (forall v, not_a_number v -> _calculate_engagement_impact th v = Ok (Fin 0.0))
  /\ (forall z, (z <= 0)%Z -> _calculate_engagement_impact th (PyInt z) = Ok (Fin 0))
  /\ (forall z, m <= IZR z -> (z < 2 ^ 64)%Z ->
      _calculate_engagement_impact th (PyInt z) = Ok (Fin 1))
  /\ (forall z, (2 ^ 64 <= z)%Z ->
      _calculate_engagement_impact th (PyInt z) = Ok (Fin 0.0)).
Proof.
  intros Hm Hpos.
  cut ((forall e, e <= 0 -> _calculate_engagement_impact th (num e) = Ok (Fin 0))
  /\ (forall e, m <= e -> _calculate_engagement_impact th (num e) = Ok (Fin 1))
  /\ _calculate_engagement_impact th (PyNum PInf) = Ok (Fin 1.0)
  /\ _calculate_engagement_impact th (PyNum NaN) = Ok (Fin 0)
  /\ _calculate_engagement_impact th (PyNum NInf) = Ok (Fin 0)
  /\ (forall v, not_a_number v -> _calculate_engagement_impact th v = Ok (Fin 0.0))).
  { intros (Hlow & Hhigh & Hinf & Hnan & Hninf & Hbad).
    do 6 (split; [assumption |]).
    split; [| split].
    - intros z Hz. rewrite engagement_impact_int by lia.
      apply Hlow. apply (IZR_le z 0). exact Hz.
    - intros z Hz Hlt. rewrite engagement_impact_int by exact Hlt. now apply Hhigh.
    - intros z Hz. now apply engagement_impact_big. }
  pose proof (ln_1p_pos m Hpos) as Hden.
  assert (_calculate_engagement_impact th (num 0) = Ok (Fin 0)) as Hzero.
  { rewrite (engagement_impact_formula th m 0 Hm Hpos). do 2 f_equal.
    unfold engagement_formula. rewrite Rmax_left by lra.
    rewrite ln_ratio_zero. apply Rmin_right. lra. }
  assert (forall x, fmax (Fin 0) x = Fin 0 ->
                    _calculate_engagement_impact th (PyNum x) = Ok (Fin 0)) as Hfloor.
  { intros x Hx. rewrite <- Hzero.
    unfold _calculate_engagement_impact, _calculate_engagement_impact_body.
    cbn [py_max num mbind result_bind]. rewrite Hx.
    replace (fmax (Fin 0) (Fin 0)) with (Fin 0); [reflexivity |].
    rewrite fmax_Fin. f_equal. now rewrite Rmax_left by lra. }
  split; [| split; [| split; [| split; [| split]]]].
  - intros e He. rewrite (engagement_impact_formula th m e Hm Hpos). do 2 f_equal.
    unfold engagement_formula. rewrite Rmax_left by lra.
    rewrite ln_ratio_zero. apply Rmin_right. lra.
  - intros e He. rewrite (engagement_impact_formula th m e Hm Hpos). do 2 f_equal.
    unfold engagement_formula. rewrite Rmax_right by lra.
    apply Rmin_left.
    pose proof (ln_1p_le m e ltac:(lra) He) as Hnum.
    apply (Rmult_le_reg_r (ln (1 + m))); [exact Hden |].
    unfold Rdiv. rewrite Rmult_assoc, Rinv_l by lra. lra.
  - unfold _calculate_engagement_impact, _calculate_engagement_impact_body.
    rewrite Hm. cbn [py_max np_log1p num mbind result_bind flog1p fmax fgt flt].
    destruct (decide (-1 < m)); [| lra]. cbn [fdiv flog1p].
    destruct (decide (ln (1 + m) < 0)); [lra |]. reflexivity.
  - apply Hfloor. reflexivity.
  - apply Hfloor. reflexivity.
  - intros v Hv. unfold _calculate_engagement_impact, _calculate_engagement_impact_body.
    now rewrite py_max_not_a_number.
Qed.

Lemma X9_engagement_impact_edges_witness :
  _calculate_engagement_impact default_thresholds (num (-250)) = Ok (Fin 0)
  /\ _calculate_engagement_impact default_thresholds (PyStr "many") = Ok (Fin 0.0)
  /\ _calculate_engagement_impact default_thresholds (PyInt (2 ^ 64 - 1)) = Ok (Fin 1)
  /\ _calculate_engagement_impact default_thresholds (PyInt (2 ^ 64)) = Ok (Fin 0.0).
Proof.
  pose proof (X9_engagement_impact_edges default_thresholds 100.0 eq_refl ltac:(lra))
    as (Hfloor & _ & _ & _ & _ & Hbad & _ & Hint & Hbig).
  split; [| split; [| split]].
  - apply Hfloor. lra.
  - apply Hbad. split; intros; discriminate.
  - apply Hint; [| lia].
    apply (Rle_trans _ (IZR 100)); [lra | apply IZR_le; lia].
  - apply Hbig. lia.
Defined.

(** X10.  With a positive [MIN_MENTIONS], [_calculate_mention_confidence] is
    exactly [1] for every float count at or above [MIN_MENTIONS], for every
    int count at or above it and below [2^64], and for [+inf]; it is [0] for
    every count that is zero or negative (also below [-1], where the
    logarithm is [-inf] or [nan]), [0] for [nan], [0.0] for an argument that
    is not a number, and [0.0] again for an int count from [2^64] on, which
    [np.log1p] rejects. *)
Theorem X10_mention_confidence_edges (th : SignalThresholds) (M : R) :
  MIN_MENTIONS th = num M -> 0 < M ->
  (forall n, M <= n -> _calculate_mention_confidence th (num n) = Ok (Fin 1))
  /\ (forall n, n <= 0 ->
      exists z, _calculate_mention_confidence th (num n) = Ok (Fin z) /\ z = 0)
  /\ _calculate_mention_confidence th (PyNum PInf) = Ok (Fin 1.0)
  /\ _calculate_mention_confidence th (PyNum NaN) = Ok (Fin 0.0)
  /\ _calculate_mention_confidence th (PyNum NInf) = Ok (Fin 0.0)
  /\ (forall v, not_a_number v -> _calculate_mention_confidence th v = Ok (Fin 0.0))
  /\ (forall k, M <= IZR k -> (k < 2 ^ 64)%Z ->
      _calculate_mention_confidence th (PyInt k) = Ok (Fin 1))
  /\ (forall k, (k <= 0)%Z ->
      exists z, _calculate_mention_confidence th (PyInt k) = Ok (Fin z) /\ z = 0)
  /\ (forall k, (2 ^ 64 <= k)%Z ->
      _calculate_mention_confidence th (PyInt k) = Ok (Fin 0.0)).
Proof.
  intros HM Hpos.
  cut ((forall n, M <= n -> _calculate_mention_confidence th (num n) = Ok (Fin 1))
  /\ (forall n, n <= 0 ->
      exists z, _calculate_mention_confidence th (num n) = Ok (Fin z) /\ z = 0)
  /\ _calculate_mention_confidence th (PyNum PInf) = Ok (Fin 1.0)
  /\ _calculate_mention_confidence th (PyNum NaN) = Ok (Fin 0.0)
  /\ _calculate_mention_confidence th (PyNum NInf) = Ok (Fin 0.0)
  /\ (forall v, not_a_number v -> _calculate_mention_confidence th v = Ok (Fin 0.0))).
  { intros (Hhigh & Hlow & Hinf & Hnan & Hninf & Hbad).
    do 6 (split; [assumption |]).
    split; [| split].
    - intros k Hk Hlt. rewrite mention_confidence_int; [now apply Hhigh |].
      unfold numpy_int. split; [| exact Hlt].
      assert (0 < IZR k) as Hk0 by lra. apply lt_IZR in Hk0. lia.
    - intros k Hk. destruct (decide (numpy_int k)) as [Hin | Hout].
      + rewrite mention_confidence_int by exact Hin.
        apply Hlow. apply (IZR_le k 0). exact Hk.
      + exists 0.0. split; [now apply mention_confidence_big_int | lra].
    - intros k Hk. apply mention_confidence_big_int. now apply not_numpy_int. }
  pose proof (ln_1p_pos M Hpos) as Hden.
  assert (forall x, _calculate_mention_confidence th (PyNum x)
                    = Ok (fmin (Fin 1.0) (fmax (Fin 0.0) (fdiv (flog1p x) (Fin (ln (1 + M)))))))
    as Hbody.
  { intros x. unfold _calculate_mention_confidence, _calculate_mention_confidence_body.
    rewrite HM. cbn [np_log1p num mbind result_bind flog1p].
    destruct (decide (-1 < M)); [| lra]. reflexivity. }
  assert (forall x, fgt x (Fin 0.0) = false -> fmin (Fin 1.0) (fmax (Fin 0.0) x) = Fin 0.0)
    as Hlow.
  { intros x Hgt. unfold fmax. rewrite Hgt. unfold fmin, flt.
    case_bool_decide; [reflexivity | lra]. }
  split; [| split; [| split; [| split; [| split]]]].
  - intros n Hn. rewrite (mention_confidence_formula th M n HM Hpos) by lra.
    now rewrite confidence_formula_saturated.
  - intros n Hn. exists 0.0. split; [| lra]. unfold num. rewrite Hbody. f_equal. apply Hlow.
    cbn [flog1p]. destruct (decide (-1 < n)) as [Hn1 | Hn1].
    + cbn [fdiv]. destruct (decide (ln (1 + M) = 0)); [lra |].
      unfold fgt, flt. apply bool_decide_eq_false.
      assert (ln (1 + n) <= 0) as Hnum.
      { rewrite <- ln_1. destruct Hn as [Hn | ->]; [left; apply ln_increasing; lra |].
        rewrite Rplus_0_r. lra. }
      assert (ln (1 + n) / ln (1 + M) <= 0); [| lra].
      apply (Rmult_le_reg_r (ln (1 + M))); [exact Hden |].
      unfold Rdiv. rewrite Rmult_assoc, Rinv_l by lra. lra.
    + destruct (decide (n = -1)); cbn [fdiv]; [| reflexivity].
      destruct (decide (ln (1 + M) < 0)); [lra | reflexivity].
  - rewrite Hbody. cbn [flog1p fdiv]. destruct (decide (ln (1 + M) < 0)); [lra |].
    reflexivity.
  - rewrite Hbody. f_equal. now apply Hlow.
  - rewrite Hbody. f_equal. now apply Hlow.
  - intros v Hv. unfold _calculate_mention_confidence, _calculate_mention_confidence_body.
    rewrite (np_log1p_not_a_number v Hv). reflexivity.
Qed.

Lemma X10_mention_confidence_edges_witness :
  _calculate_mention_confidence default_thresholds (num 5000) = Ok (Fin 1)
  /\ _calculate_mention_confidence default_thresholds PyNone = Ok (Fin 0.0)
  /\ _calculate_mention_confidence default_thresholds (PyInt (2 ^ 64 - 1)) = Ok (Fin 1)
  /\ _calculate_mention_confidence default_thresholds (PyInt (2 ^ 64)) = Ok (Fin 0.0).
Proof.
  pose proof (X10_mention_confidence_edges default_thresholds 5 eq_refl ltac:(lra))
    as (Hsat & _ & _ & _ & _ & Hbad & Hint & _ & Hbig).
  split; [| split; [| split]].
  - apply Hsat. lra.
  - apply Hbad. split; intros; discriminate.
  - apply Hint; [| lia]. apply (IZR_le 5). lia.
  - apply Hbig. lia.
Defined.

(** *** Thresholds and items the generator cannot use *)

Lemma classify_strong_buy_raises th x :
  not_a_number (STRONG_BUY th) -> classify th x = Raise TypeError.
Proof.
  intros Hsb. unfold classify.
  not_number Hsb (STRONG_BUY th).
Qed.

(** X11.  If the [STRONG_BUY] threshold is not a number, the first comparison
    of the classifier raises on every input: [generate_signal] returns [None]
    for every coin and [generate_signals_batch] returns the empty list for
    every batch, without any error reaching the caller. *)
Theorem X11_unusable_threshold_silences_the_generator (th : SignalThresholds) :
  not_a_number (STRONG_BUY th) ->
  (forall coin sentiment_data mention_count engagement_score,
     generate_signal th coin sentiment_data mention_count engagement_score = Ok None)
  /\ (forall coin_data, generate_signals_batch th coin_data = Ok []).
Proof.
  intros Hsb.
  assert (forall coin sentiment_data mention_count engagement_score,
            generate_signal th coin sentiment_data mention_count engagement_score = Ok None)
    as Hnone.
  { intros coin sd mc es. unfold generate_signal, generate_signal_body.
    destruct (sentiment_score_range sd) as (r1 & -> & _).
    destruct (engagement_impact_shape th es) as (v & -> & _).
    destruct (mention_confidence_range th mc) as (r3 & -> & _).
    cbn [mbind result_bind]. now rewrite classify_strong_buy_raises. }
  split; [exact Hnone |].
  intros coin_data. rewrite generate_signals_batch_successful.
  replace (omap (successful th) coin_data) with (@nil Signal); [reflexivity |].
  induction coin_data as [| data rest IH]; [reflexivity |].
  cbn [omap list_omap]. rewrite <- IH.
  unfold successful, item_signal.
  destruct (getitem data "coin"); [| reflexivity].
  destruct (getitem data "sentiment"); [| reflexivity].
  destruct (getitem data "mentions"); [| reflexivity].
  destruct (getitem data "engagement"); [| reflexivity].
  cbn [mbind result_bind]. now rewrite Hnone.
Qed.

Lemma X11_unusable_threshold_silences_the_generator_witness :
  generate_signals_batch thresholds_without_strong_buy
    [PyDict (list_to_map [("coin", PyStr "BTC"); ("sentiment", PyDict ∅);
                          ("mentions", num 10); ("engagement", num 500)])]
  = Ok [].
Proof.
  refine (proj2 (X11_unusable_threshold_silences_the_generator
                   thresholds_without_strong_buy _) _).
  split; intros; discriminate.
Defined.

Lemma has_all_keys_item th data :
  has_all_keys data = true ->
  exists m coin sentiment mentions engagement,
    data = PyDict m /\ m !! "coin" = Some coin
    /\ item_signal th data = generate_signal th coin sentiment mentions engagement.
Proof.
  destruct data as [| x | s | m | z]; try discriminate. cbn [has_all_keys].
  rewrite !andb_true_iff, !bool_decide_eq_true.
  intros ((([coin Hc] & [sentiment Hs]) & [mentions Hm]) & [engagement He]).
  exists m, coin, sentiment, mentions, engagement.
  split; [reflexivity |]. split; [exact Hc |].
  unfold item_signal, getitem. now rewrite Hc, Hs, Hm, He.
Qed.

Lemma missing_key_item th data :
  has_all_keys data = false -> exists e, item_signal th data = Raise e.
Proof.
  destruct data as [| x | s | m | z]; try (intros _; eexists; reflexivity).
  cbn [has_all_keys]. unfold item_signal, getitem.
  destruct (m !! "coin"); [| intros _; eexists; reflexivity].
  destruct (m !! "sentiment"); [| intros _; eexists; reflexivity].
  destruct (m !! "mentions"); [| intros _; eexists; reflexivity].
  destruct (m !! "engagement"); [| intros _; eexists; reflexivity].
  intros Hfalse. exfalso. revert Hfalse.
  rewrite !andb_false_iff, !bool_decide_eq_false. intros [[[H | H] | H] | H]; apply H; eauto.
Qed.

(** X12.  With numeric cut points the batch drops an item exactly when it is
    not a dictionary or lacks one of the keys [coin], [sentiment], [mentions],
    [engagement]: every item that has the four keys gets a signal carrying its
    [coin], whatever the four values are, so the output has as many signals as
    there are such items. *)
Theorem X12_batch_drops_only_items_without_keys
    (th : SignalThresholds) (sb b ss s : npfloat) (coin_data : list pyval) :
  numeric_cut_points th sb b ss s ->
  exists out,
    generate_signals_batch th coin_data = Ok out
    /\ length out = length (filter (fun data => has_all_keys data = true) coin_data)
    /\ (forall data, data ∈ coin_data -> has_all_keys data = true ->
        exists m v sig, data = PyDict m /\ m !! "coin" = Some v
                        /\ sig ∈ out /\ coin sig = v)
    /\ (forall data, has_all_keys data = false -> successful th data = None).
Proof.
  intros Hcuts.
  assert (forall data, has_all_keys data = true ->
            exists m v sig, data = PyDict m /\ m !! "coin" = Some v
                            /\ successful th data = Some sig /\ coin sig = v) as Hgood.
  { intros data Hkeys.
    destruct (has_all_keys_item th data Hkeys)
      as (m & v & sentiment & mentions & engagement & -> & Hv & Hitem).
    destruct (generate_signal_numeric th sb b ss s v sentiment mentions engagement Hcuts)
      as (sscore & impact & conf & t & _ & _ & _ & _ & Hsig).
    exists m, v. eexists. split; [reflexivity |]. split; [exact Hv |].
    unfold successful. rewrite Hitem, Hsig. split; reflexivity. }
  assert (forall data, has_all_keys data = false -> successful th data = None) as Hbad.
  { intros data Hkeys. destruct (missing_key_item th data Hkeys) as (e & He).
    unfold successful. now rewrite He. }
  eexists. split; [apply generate_signals_batch_successful |].
  split; [| split; [| exact Hbad]].
  - rewrite sorted_reverse_perm.
    induction coin_data as [| data rest IH]; [reflexivity |].
    cbn [omap list_omap]. rewrite filter_cons.
    destruct (has_all_keys data) eqn:Hkeys.
    + destruct (Hgood data Hkeys) as (m & v & sig & _ & _ & -> & _).
      destruct (decide (true = true)); [| congruence]. simpl. now rewrite IH.
    + rewrite (Hbad data Hkeys).
      destruct (decide (false = true)); [discriminate | exact IH].
  - intros data Hin Hkeys.
    destruct (Hgood data Hkeys) as (m & v & sig & Hdata & Hv & Hsucc & Hcoin).
    exists m, v, sig. split; [exact Hdata |]. split; [exact Hv |].
    split; [| exact Hcoin].
    rewrite sorted_reverse_perm. apply list_elem_of_omap. eauto.
Qed.

Lemma X12_batch_drops_only_items_without_keys_witness :
  exists out,
    generate_signals_batch default_thresholds
      [PyNone;
       PyDict (list_to_map [("coin", PyStr "BTC"); ("sentiment", PyNone);
                            ("mentions", PyNone); ("engagement", PyNone)]);
       PyDict (list_to_map [("coin", PyStr "ETH"); ("mentions", num 7)])]
    = Ok out
    /\ length out = 1%nat.
Proof.
  destruct (X12_batch_drops_only_items_without_keys default_thresholds
              (Fin 0.8) (Fin 0.5) (Fin (-0.8)) (Fin (-0.5))
              [PyNone;
               PyDict (list_to_map [("coin", PyStr "BTC"); ("sentiment", PyNone);
                                    ("mentions", PyNone); ("engagement", PyNone)]);
               PyDict (list_to_map [("coin", PyStr "ETH"); ("mentions", num 7)])]
              (conj eq_refl (conj eq_refl (conj eq_refl eq_refl))))
    as (out & Hout & Hlen & _).
  exists out. split; [exact Hout | exact Hlen].
Defined.

(** X13.  An item whose values are unusable is not skipped: when the
    sentiment is not a dictionary and the mention count and the engagement
    are not numbers, the three components fall back to [0.0] and, with the
    default thresholds, [generate_signal] returns a NEUTRAL signal of strength
    and confidence zero. *)
Theorem X13_unusable_values_give_neutral_signal
    (coin sentiment_data mention_count engagement_score : pyval) :
  (forall d, sentiment_data <> PyDict d) ->
  not_a_number mention_count -> not_a_number engagement_score ->
  exists sig x,
    generate_signal default_thresholds coin sentiment_data mention_count engagement_score
    = Ok (Some sig)
    /\ signal_type sig = SignalType.value SignalType.NEUTRAL
    /\ signal_strength sig = Fin x /\ x = 0
    /\ confidence sig = Fin 0.0
    /\ sentiment_score (metrics sig) = Fin 0.0
    /\ engagement_impact (metrics sig) = Fin 0.0.
Proof.
  intros Hsd Hmc Hes.
  assert (_calculate_sentiment_score sentiment_data = Ok (Fin 0.0)) as Hs.
  { destruct sentiment_data as [| y | str | d | z]; try reflexivity. now destruct (Hsd d). }
  assert (_calculate_engagement_impact default_thresholds engagement_score = Ok (Fin 0.0))
    as He.
  { unfold _calculate_engagement_impact, _calculate_engagement_impact_body.
    rewrite (py_max_not_a_number _ _ Hes). reflexivity. }
  assert (_calculate_mention_confidence default_thresholds mention_count = Ok (Fin 0.0))
    as Hc.
  { unfold _calculate_mention_confidence, _calculate_mention_confidence_body.
    rewrite (np_log1p_not_a_number _ Hmc). reflexivity. }
  destruct (classify_first_match default_thresholds _ _ _ _
              (Fin (0.0 * 0.5 + 0.0 * 0.3 + 0.0 * 0.2)) default_cut_points)
    as (t & Ht & _ & _ & _ & _ & Hneutral).
  rewrite !fge_Fin, !fle_Fin in Hneutral. rewrite Hneutral in Ht by lra.
  eexists _, _. split.
  - apply (generate_signal_components default_thresholds coin sentiment_data
             mention_count engagement_score _ _ _ _ Hs He Hc Ht).
  - cbn [signal_type signal_strength confidence metrics sentiment_score
         engagement_impact fmul fadd].
    split; [reflexivity |]. split; [reflexivity |]. split; [lra |]. repeat split.
Qed.

Lemma X13_unusable_values_give_neutral_signal_witness :
  exists sig,
    generate_signal default_thresholds PyNone PyNone PyNone (PyStr "a lot") = Ok (Some sig)
    /\ signal_type sig = SignalType.value SignalType.NEUTRAL.
Proof.
  destruct (X13_unusable_values_give_neutral_signal PyNone PyNone PyNone (PyStr "a lot"))
    as (sig & x & Hsig & Htype & _).
  - intros d. discriminate.
  - split; intros; discriminate.
  - split; intros; discriminate.
  - exists sig. split; [exact Hsig | exact Htype].
Defined.

(** *** Ties keep the order of the input *)

Lemma flt_irrefl a : flt a a = false.
Proof. destruct a; simpl; try reflexivity. apply bool_decide_eq_false. lra. Qed.

Lemma insert_desc_stable {A} (key : A -> npfloat) (k : npfloat) x l :
  filter (fun a => key a = k) (insert_desc key x l) = filter (fun a => key a = k) (x :: l).
Proof.
  induction l as [| y l IH]; [reflexivity |]. cbn [insert_desc].
  destruct (flt (key x) (key y)) eqn:Hlt; [| reflexivity].
  rewrite (filter_cons _ y), IH, !filter_cons.
  destruct (decide (key x = k)) as [Hx | Hx]; [| reflexivity].
  destruct (decide (key y = k)) as [Hy | Hy]; [| reflexivity].
  rewrite Hx, Hy, flt_irrefl in Hlt. discriminate.
Qed.

Lemma sorted_reverse_stable {A} (key : A -> npfloat) (k : npfloat) l :
  filter (fun a => key a = k) (sorted_reverse key l) = filter (fun a => key a = k) l.
Proof.
  induction l as [| x l IH]; [reflexivity |]. cbn [sorted_reverse foldr].
  rewrite insert_desc_stable, !filter_cons. fold (sorted_reverse key l). now rewrite IH.
Qed.

(** X14.  The batch is sorted stably: the signals that have the same
    absolute strength appear in the output in the order of their items in
    the input. *)
Theorem X14_batch_ties_keep_input_order
    (th : SignalThresholds) (coin_data : list pyval) (k : npfloat) :
  exists out,
    generate_signals_batch th coin_data = Ok out
    /\ filter (fun sig => fabs (signal_strength sig) = k) out
       = filter (fun sig => fabs (signal_strength sig) = k)
                (omap (successful th) coin_data).
Proof.
  eexists. split; [apply generate_signals_batch_successful |].
  apply (sorted_reverse_stable abs_strength).
Qed.

(** *** Monotonicity *)

Lemma fge_mono x y a : x <= y -> fge (Fin x) a = true -> fge (Fin y) a = true.
Proof.
  intros Hxy. unfold fge. destruct a; simpl; try congruence.
  rewrite !bool_decide_eq_true. lra.
Qed.

Lemma fle_mono x y a : x <= y -> fle (Fin y) a = true -> fle (Fin x) a = true.
Proof.
  intros Hxy. destruct a; simpl; try congruence.
  rewrite !bool_decide_eq_true. lra.
Qed.

Lemma classify_mono th sb b ss s x y t1 t2 :
  numeric_cut_points th sb b ss s -> x <= y ->
  classify th (Fin x) = Ok t1 -> classify th (Fin y) = Ok t2 ->
  (rank t1 <= rank t2)%nat.
Proof.
  intros Hcuts Hxy Hx Hy.
  destruct (classify_first_match th sb b ss s (Fin x) Hcuts) as (t1' & Hx' & Hfx).
  destruct (classify_first_match th sb b ss s (Fin y) Hcuts) as (t2' & Hy' & Hfy).
  rewrite Hx in Hx'. rewrite Hy in Hy'. injection Hx' as <-. injection Hy' as <-.
  destruct Hfx as (X1 & X2 & X3 & X4 & X5). destruct Hfy as (Y1 & Y2 & Y3 & Y4 & Y5).
  pose proof (fge_mono x y sb Hxy) as Msb. pose proof (fge_mono x y b Hxy) as Mb.
  pose proof (fle_mono x y ss Hxy) as Mss. pose proof (fle_mono x y s Hxy) as Ms.
  destruct (fge (Fin y) sb) eqn:Eysb.
  { rewrite Y1 by reflexivity. destruct t1; simpl; lia. }
  destruct (fge (Fin x) sb) eqn:Exsb; [specialize (Msb eq_refl); discriminate |].
  destruct (fge (Fin y) b) eqn:Eyb.
  { rewrite Y2 by congruence.
    destruct (fge (Fin x) b) eqn:Exb; [rewrite X2 by congruence; simpl; lia |].
    destruct (fle (Fin x) ss) eqn:Exss; [rewrite X3 by congruence; simpl; lia |].
    destruct (fle (Fin x) s) eqn:Exs; [rewrite X4 by congruence; simpl; lia |].
    rewrite X5 by congruence. simpl. lia. }
  destruct (fge (Fin x) b) eqn:Exb; [specialize (Mb eq_refl); discriminate |].
  destruct (fle (Fin x) ss) eqn:Exss.
  { rewrite X3 by congruence. simpl. lia. }
  destruct (fle (Fin y) ss) eqn:Eyss; [specialize (Mss eq_refl); discriminate |].
  destruct (fle (Fin x) s) eqn:Exs.
  { rewrite X4 by congruence.
    destruct (fle (Fin y) s) eqn:Eys; [rewrite Y4 by congruence; simpl; lia |].
    rewrite Y5 by congruence. simpl. lia. }
  destruct (fle (Fin y) s) eqn:Eys; [specialize (Ms eq_refl); discriminate |].
  rewrite X5, Y5 by congruence. simpl. lia.
Qed.

(** X15.  For every thresholds record with numeric cut points, in whatever
    order they are, the classification is monotone: of two strengths the
    larger one never gets the more bearish type in the order STRONG_SELL,
    SELL, NEUTRAL, BUY, STRONG_BUY. *)
Theorem X15_classification_is_monotone
    (th : SignalThresholds) (sb b ss s : npfloat) (x y : R) :
  numeric_cut_points th sb b ss s -> x <= y ->
  exists t1 t2,
    classify th (Fin x) = Ok t1 /\ classify th (Fin y) = Ok t2
    /\ (rank t1 <= rank t2)%nat.
Proof.
  intros Hcuts Hxy.
  destruct (classify_first_match th sb b ss s (Fin x) Hcuts) as (t1 & Hx & _).
  destruct (classify_first_match th sb b ss s (Fin y) Hcuts) as (t2 & Hy & _).
  exists t1, t2. split; [exact Hx |]. split; [exact Hy |].
  eapply classify_mono; eassumption.
Qed.

Lemma X15_classification_is_monotone_witness :
  exists t1 t2,
    classify default_thresholds (Fin (-0.5)) = Ok t1
    /\ classify default_thresholds (Fin 0.8) = Ok t2
    /\ (rank t1 <= rank t2)%nat.
Proof.
  apply (X15_classification_is_monotone default_thresholds
           (Fin 0.8) (Fin 0.5) (Fin (-0.8)) (Fin (-0.5)) (-0.5) 0.8).
  - repeat split.
  - lra.
Defined.

(** X16.  For thresholds with numeric cut points and positive
    [MIN_ENGAGEMENT] and [MIN_MENTIONS], more engagement or more mentions
    never weaken a signal, as long as the numbers are floats or ints below
    [2^64]: with the same coin and sentiment, a larger engagement score and a
    larger (non-negative) mention count give a signal strength that is at
    least as large and a type that is at least as bullish. *)
Theorem X16_engagement_and_mentions_never_weaken
    (th : SignalThresholds) (sb b ss s : npfloat) (m M : R)
    (coin sentiment_data mentions1 mentions2 engagement1 engagement2 : pyval)
    (e1 e2 n1 n2 : R) :
  numeric_cut_points th sb b ss s ->
  small_number (MIN_ENGAGEMENT th) m -> 0 < m ->
  small_number (MIN_MENTIONS th) M -> 0 < M ->
  small_number engagement1 e1 -> small_number engagement2 e2 ->
  small_number mentions1 n1 -> small_number mentions2 n2 ->
  e1 <= e2 -> 0 <= n1 -> n1 <= n2 ->
  exists sig1 sig2 t1 t2 x1 x2,
    generate_signal th coin sentiment_data mentions1 engagement1 = Ok (Some sig1)
    /\ generate_signal th coin sentiment_data mentions2 engagement2 = Ok (Some sig2)
    /\ signal_strength sig1 = Fin x1 /\ signal_strength sig2 = Fin x2 /\ x1 <= x2
    /\ signal_type sig1 = SignalType.value t1 /\ signal_type sig2 = SignalType.value t2
    /\ (rank t1 <= rank t2)%nat.
Proof.
  intros Hcuts Hm Hmpos HM HMpos Hes1 Hes2 Hmc1 Hmc2 He Hn1 Hn.
  destruct (sentiment_score_range sentiment_data) as (r & Hs & _).
  pose proof (engagement_impact_small th m _ e1 Hm Hmpos Hes1) as He1.
  pose proof (engagement_impact_small th m _ e2 Hm Hmpos Hes2) as He2.
  pose proof (mention_confidence_small th M _ n1 HM HMpos Hmc1 Hn1) as Hc1.
  pose proof (mention_confidence_small th M _ n2 HM HMpos Hmc2 ltac:(lra)) as Hc2.
  pose proof (engagement_formula_mono m e1 e2 Hmpos He) as Hei.
  pose proof (confidence_formula_mono M n1 n2 HMpos Hn1 Hn) as Hci.
  set (i1 := engagement_formula m e1) in *. set (i2 := engagement_formula m e2) in *.
  set (c1 := confidence_formula M n1) in *. set (c2 := confidence_formula M n2) in *.
  destruct (classify_first_match th sb b ss s (Fin (r * 0.5 + i1 * 0.3 + c1 * 0.2)) Hcuts)
    as (t1 & Ht1 & _).
  destruct (classify_first_match th sb b ss s (Fin (r * 0.5 + i2 * 0.3 + c2 * 0.2)) Hcuts)
    as (t2 & Ht2 & _).
  eexists _, _, t1, t2, _, _.
  split; [apply (generate_signal_components th coin sentiment_data mentions1 engagement1
                   (Fin r) (Fin i1) (Fin c1) t1 Hs He1 Hc1 Ht1) |].
  split; [apply (generate_signal_components th coin sentiment_data mentions2 engagement2
                   (Fin r) (Fin i2) (Fin c2) t2 Hs He2 Hc2 Ht2) |].
  cbn [signal_strength signal_type fmul fadd].
  split; [reflexivity |]. split; [reflexivity |].
  assert (r * 0.5 + i1 * 0.3 + c1 * 0.2 <= r * 0.5 + i2 * 0.3 + c2 * 0.2) as Hx by lra.
  split; [exact Hx |]. split; [reflexivity |]. split; [reflexivity |].
  eapply classify_mono; eassumption.
Qed.

Lemma X16_engagement_and_mentions_never_weaken_witness :
  exists sig1 sig2 t1 t2 x1 x2,
    generate_signal default_thresholds (PyStr "BTC") (PyDict ∅) (PyInt 2) (num 30)
    = Ok (Some sig1)
    /\ generate_signal default_thresholds (PyStr "BTC") (PyDict ∅) (PyInt 9) (num 400)
       = Ok (Some sig2)
    /\ signal_strength sig1 = Fin x1 /\ signal_strength sig2 = Fin x2 /\ x1 <= x2
    /\ signal_type sig1 = SignalType.value t1 /\ signal_type sig2 = SignalType.value t2
    /\ (rank t1 <= rank t2)%nat.
Proof.
  apply (X16_engagement_and_mentions_never_weaken default_thresholds
           (Fin 0.8) (Fin 0.5) (Fin (-0.8)) (Fin (-0.5)) 100.0 5
           (PyStr "BTC") (PyDict ∅) (PyInt 2) (PyInt 9) (num 30) (num 400) 30 400 2 9).
  - repeat split.
  - left. reflexivity.
  - lra.
  - left. reflexivity.
  - lra.
  - left. reflexivity.
  - left. reflexivity.
  - right. exists 2%Z. split; [reflexivity |]. split; [reflexivity | lia].
  - right. exists 9%Z. split; [reflexivity |]. split; [reflexivity | lia].
  - lra.
  - lra.
  - lra.
Defined.

(* ===================================================================== *)
(** ** Extraction of the tweets                                           *)
(* ===================================================================== *)

Import TweetFields.

(** What the body of [_extract_tweet_data] does once the [legacy] object is
    reached. *)
Lemma extract_follow tweet_entry :
  _extract_tweet_data tweet_entry
  = try_except
      (tweet ← follow tweet_entry legacy_path;
       full_text ← getitem tweet "full_text";
       created_at ← getitem tweet "created_at";
       favorite_count ← getitem tweet "favorite_count";
       retweet_count ← getitem tweet "retweet_count";
       mret (Some (PyDict (list_to_map
         [ ("text", full_text); ("created_at", created_at);
           ("favorites", favorite_count); ("retweets", retweet_count) ]))))
      (fun e => match e with KeyError => mret None | _ => Raise e end).
Proof.
  unfold _extract_tweet_data, legacy_path. cbn [follow].
  destruct (getitem tweet_entry "content") as [v1 |]; [| reflexivity]. cbn [mbind result_bind].
  destruct (getitem v1 "itemContent") as [v2 |]; [| reflexivity]. cbn [mbind result_bind].
  destruct (getitem v2 "tweet_results") as [v3 |]; [| reflexivity]. cbn [mbind result_bind].
  destruct (getitem v3 "result") as [v4 |]; [| reflexivity]. cbn [mbind result_bind].
  destruct (getitem v4 "legacy") as [v5 |]; reflexivity.
Qed.

Lemma getitem_raises v key e : getitem v key = Raise e -> e = KeyError \/ e = TypeError.
Proof.
  destruct v as [| x | s | m | z]; simpl; try (intros [= <-]; now right).
  destruct (m !! key); [discriminate | intros [= <-]; now left].
Qed.

Lemma getitem_not_dict v key : (forall d, v <> PyDict d) -> getitem v key = Raise TypeError.
Proof. intros Hv. destruct v as [| x | s | m | z]; try reflexivity. now destruct (Hv m). Qed.

Lemma follow_raises v path e : follow v path = Raise e -> e = KeyError \/ e = TypeError.
Proof.
  revert v. induction path as [| key path IH]; intros v; simpl; [discriminate |].
  destruct (getitem v key) as [v' |] eqn:Hget; cbn [mbind result_bind].
  - apply IH.
  - intros [= <-]. eapply getitem_raises. exact Hget.
Qed.

(** X17.  [_extract_tweet_data] returns the four fields [text],
    [created_at], [favorites], [retweets], copied from [full_text],
    [created_at], [favorite_count], [retweet_count] of the entry's [legacy]
    object, when the path to that object and the four keys exist; it returns
    [None] when a key is missing on the path or one of the four keys is
    missing in a [legacy] dictionary. *)
Theorem X17_extract_tweet_data_fields (tweet_entry : pyval) :
  (forall legacy full_text created_at favorite_count retweet_count,
     follow tweet_entry legacy_path = Ok (PyDict legacy) ->
     legacy !! "full_text" = Some full_text ->
     legacy !! "created_at" = Some created_at ->
     legacy !! "favorite_count" = Some favorite_count ->
     legacy !! "retweet_count" = Some retweet_count ->
     exists tweet_data,
       _extract_tweet_data tweet_entry = Ok (Some tweet_data)
       /\ getitem tweet_data "text" = Ok full_text
       /\ getitem tweet_data "created_at" = Ok created_at
       /\ getitem tweet_data "favorites" = Ok favorite_count
       /\ getitem tweet_data "retweets" = Ok retweet_count)
  /\ (follow tweet_entry legacy_path = Raise KeyError ->
      _extract_tweet_data tweet_entry = Ok None)
  /\ (forall legacy key,
        follow tweet_entry legacy_path = Ok (PyDict legacy) ->
        key ∈ ["full_text"; "created_at"; "favorite_count"; "retweet_count"] ->
        legacy !! key = None ->
        _extract_tweet_data tweet_entry = Ok None).
Proof.
  rewrite extract_follow. split; [| split].
  - intros legacy full_text created_at favorite_count retweet_count Hpath Ht Hc Hf Hr.
    rewrite Hpath. cbn [mbind result_bind getitem]. rewrite Ht, Hc, Hf, Hr.
    eexists. split; [reflexivity |]. repeat split.
  - intros ->. reflexivity.
  - intros legacy key -> Hkey Hmissing. cbn [mbind result_bind getitem].
    destruct (legacy !! "full_text") eqn:Ht; [| reflexivity].
    destruct (legacy !! "created_at") eqn:Hc; [| reflexivity].
    destruct (legacy !! "favorite_count") eqn:Hf; [| reflexivity].
    destruct (legacy !! "retweet_count") eqn:Hr; [| reflexivity].
    exfalso. repeat (apply elem_of_cons in Hkey as [-> | Hkey]; [congruence |]).
    now apply elem_of_nil in Hkey.
Qed.

(** X18.  [_extract_tweet_data] handles [KeyError] only: when a value on the
    path to [legacy], or [legacy] itself, is not a dictionary ([None], a
    number, a string), the [TypeError] of the indexing escapes, and
    [TypeError] is the only exception that can escape. *)
Theorem X18_extract_tweet_data_type_error (tweet_entry : pyval) :
  (follow tweet_entry legacy_path = Raise TypeError ->
   _extract_tweet_data tweet_entry = Raise TypeError)
  /\ (forall v, follow tweet_entry legacy_path = Ok v -> (forall d, v <> PyDict d) ->
      _extract_tweet_data tweet_entry = Raise TypeError)
  /\ ((forall d, tweet_entry <> PyDict d) ->
      _extract_tweet_data tweet_entry = Raise TypeError)
  /\ (forall e, _extract_tweet_data tweet_entry = Raise e -> e = TypeError).
Proof.
  split; [| split; [| split]].
  - rewrite extract_follow. intros ->. reflexivity.
  - rewrite extract_follow. intros v -> Hv. cbn [mbind result_bind].
    rewrite (getitem_not_dict v "full_text" Hv). reflexivity.
  - intros Hv. unfold _extract_tweet_data.
    rewrite (getitem_not_dict tweet_entry "content" Hv). reflexivity.
  - rewrite extract_follow. intros e.
    destruct (follow tweet_entry legacy_path) as [tweet | e'] eqn:Hpath; cbn [mbind result_bind].
    + destruct (getitem tweet "full_text") as [v1 | e1] eqn:H1; cbn [mbind result_bind].
      2: { apply getitem_raises in H1 as [-> | ->];
           intros Hraise; compute in Hraise; congruence. }
      destruct (getitem tweet "created_at") as [v2 | e2] eqn:H2; cbn [mbind result_bind].
      2: { apply getitem_raises in H2 as [-> | ->];
           intros Hraise; compute in Hraise; congruence. }
      destruct (getitem tweet "favorite_count") as [v3 | e3] eqn:H3; cbn [mbind result_bind].
      2: { apply getitem_raises in H3 as [-> | ->];
           intros Hraise; compute in Hraise; congruence. }
      destruct (getitem tweet "retweet_count") as [v4 | e4] eqn:H4; cbn [mbind result_bind].
      2: { apply getitem_raises in H4 as [-> | ->];
           intros Hraise; compute in Hraise; congruence. }
      discriminate.
    + apply follow_raises in Hpath as [-> | ->];
        intros Hraise; compute in Hraise; congruence.
Qed.

Lemma X17_extract_tweet_data_fields_witness :
  exists tweet_data,
    _extract_tweet_data sample_entry = Ok (Some tweet_data)
    /\ getitem tweet_data "text" = Ok (PyStr "Ethereum to the moon")
    /\ getitem tweet_data "favorites" = Ok (num 3).
Proof.
  destruct (proj1 (X17_extract_tweet_data_fields sample_entry) sample_legacy
              (PyStr "Ethereum to the moon") (PyStr "Mon Jan 01 00:00:00 +0000 2024")
              (num 3) (num 1) eq_refl eq_refl eq_refl eq_refl eq_refl)
    as (tweet_data & Hdata & Htext & _ & Hfav & _).
  exists tweet_data. split; [exact Hdata |]. split; [exact Htext | exact Hfav].
Defined.

Lemma X18_extract_tweet_data_type_error_witness :
  _extract_tweet_data entry_without_result = Raise TypeError.
Proof.
  exact (proj1 (X18_extract_tweet_data_type_error entry_without_result) eq_refl).
Defined.

(* ===================================================================== *)
(** ** Detection of the keywords                                          *)
(* ===================================================================== *)

Lemma append_cons ch (a b : string) : String ch a +:+ b = String ch (a +:+ b).
Proof. reflexivity. Qed.

Lemma append_nil (b : string) : "" +:+ b = b.
Proof. reflexivity. Qed.

Lemma append_assoc (a b c : string) : (a +:+ b) +:+ c = a +:+ b +:+ c.
Proof.
  induction a as [| ch a IH]; [reflexivity |].
  rewrite !append_cons. now rewrite IH.
Qed.

Lemma prefix_spec keyword text :
  String.prefix keyword text = true <-> exists post, text = keyword +:+ post.
Proof.
  revert text. induction keyword as [| a keyword IH]; intros text.
  - split; [intros _; now exists text | intros _; now destruct text].
  - destruct text as [| b text]; simpl.
    + split; [discriminate | intros (post & Hpost)].
      rewrite append_cons in Hpost. discriminate.
    + destruct (Ascii.ascii_dec a b) as [<- | Hne].
      * rewrite IH. split; intros (post & Hpost); exists post;
          rewrite append_cons in *; congruence.
      * split; [discriminate | intros (post & Hpost)].
        rewrite append_cons in Hpost. congruence.
Qed.

Lemma is_substring_spec keyword text :
  is_substring keyword text = true <-> exists pre post, text = pre +:+ keyword +:+ post.
Proof.
  split.
  - induction text as [| c text IH]; cbn [is_substring]; rewrite orb_true_iff.
    + intros [Hp | [=]]. apply prefix_spec in Hp as (post & ->). now exists "", post.
    + intros [Hp | Hs].
      * apply prefix_spec in Hp as (post & ->). now exists "", post.
      * destruct (IH Hs) as (pre & post & ->). now exists (String c pre), post.
  - intros (pre & post & ->). induction pre as [| c pre IH].
    + rewrite append_nil.
      assert (String.prefix keyword (keyword +:+ post) = true) as Hp
        by (apply prefix_spec; now exists post).
      destruct (keyword +:+ post); cbn [is_substring]; now rewrite Hp.
    + rewrite append_cons. cbn [is_substring]. rewrite IH. apply orb_true_r.
Qed.

Lemma is_substring_trans a b c :
  is_substring a b = true -> is_substring b c = true -> is_substring a c = true.
Proof.
  rewrite !is_substring_spec. intros (p1 & q1 & ->) (p2 & q2 & ->).
  exists (p2 +:+ p1), (q1 +:+ q2). now rewrite !append_assoc.
Qed.

(** X19.  [_detect_crypto_mentions] returns the keywords that occur as a
    substring of the lower-cased text, and only those, in the order of the
    keyword set and without repeating a keyword. *)
Theorem X19_detected_keywords_are_substrings
    (lower : string -> string) (crypto_keywords : list string) (text : string) :
  (forall keyword,
     In keyword (_detect_crypto_mentions lower crypto_keywords text)
     <-> In keyword crypto_keywords
         /\ exists pre post, lower text = pre +:+ keyword +:+ post)
  /\ sublist (_detect_crypto_mentions lower crypto_keywords text) crypto_keywords
  /\ (NoDup crypto_keywords ->
      NoDup (_detect_crypto_mentions lower crypto_keywords text)).
Proof.
  unfold _detect_crypto_mentions. split; [| split].
  - intros keyword. now rewrite filter_In, is_substring_spec.
  - induction crypto_keywords as [| k ks IH]; simpl; [constructor |].
    destruct (is_substring k (lower text)); now constructor.
  - intros Hnd. apply NoDup_ListNoDup. apply NoDup_ListNoDup in Hnd.
    now apply List.NoDup_filter.
Qed.

(** X20.  A keyword contained in another keyword is detected whenever the
    longer one is: with [eth] and [ethereum] both in the keyword set, every
    text in which [ethereum] is detected also mentions [eth]. *)
Theorem X20_nested_keywords_are_detected_together
    (lower : string -> string) (crypto_keywords : list string)
    (short long text : string) :
  In short crypto_keywords ->
  is_substring short long = true ->
  In long (_detect_crypto_mentions lower crypto_keywords text) ->
  In short (_detect_crypto_mentions lower crypto_keywords text).
Proof.
  unfold _detect_crypto_mentions. rewrite !filter_In.
  intros Hshort Hsub [_ Hlong]. split; [exact Hshort |].
  eapply is_substring_trans; eassumption.
Qed.

Lemma X20_nested_keywords_are_detected_together_witness :
  In "eth" (_detect_crypto_mentions (fun text => text) parser_keywords
              "ethereum breaks out").
Proof.
  apply (X20_nested_keywords_are_detected_together (fun text => text) parser_keywords
           "eth" "ethereum" "ethereum breaks out").
  - right. left. reflexivity.
  - reflexivity.
  - vm_compute. right. left. reflexivity.
Defined.

(** *** Nested keywords in the document *)

Lemma posts_mentioning_cons name r results :
  posts_mentioning name (r :: results)
  = map (fun _ => r) (filter (fun coin => coin = name) (crypto_mentions r))
    ++ posts_mentioning name results.
Proof.
  unfold posts_mentioning, mention_pairs. cbn [flat_map].
  rewrite filter_app, map_app. f_equal.
  generalize (crypto_mentions r) as coins. intros coins.
  induction coins as [| coin coins IH]; [reflexivity |].
  cbn [map]. rewrite !filter_cons. cbn [fst].
  destruct (decide (coin = name)); cbn [map snd]; now rewrite IH.
Qed.

Lemma NoDup_filter_eq_length (name : string) (l : list string) :
  NoDup l ->
  length (filter (fun coin => coin = name) l) = if decide (name ∈ l) then 1%nat else 0%nat.
Proof.
  induction 1 as [| x l Hx Hnd IH]; [reflexivity |].
  rewrite filter_cons. destruct (decide (x = name)) as [-> | Hne].
  - destruct (decide (name ∈ name :: l)) as [_ | Hn]; [| destruct Hn; left].
    simpl. rewrite IH. destruct (decide (name ∈ l)); [contradiction | reflexivity].
  - rewrite IH. destruct (decide (name ∈ l)) as [Hin | Hnin];
      destruct (decide (name ∈ x :: l)) as [Hin' | Hnin']; try reflexivity.
    + destruct Hnin'. now right.
    + apply elem_of_cons in Hin' as [-> | Hin']; [congruence | contradiction].
Qed.

Lemma posts_mentioning_le short long (results : list Processed) :
  Forall (fun r => NoDup (crypto_mentions r)
                   /\ (long ∈ crypto_mentions r -> short ∈ crypto_mentions r))
         results ->
  (length (posts_mentioning long results) <= length (posts_mentioning short results))%nat.
Proof.
  induction 1 as [| r results [Hnd Himp] Hrest IH]; [reflexivity |].
  rewrite !posts_mentioning_cons, !length_app, !length_map.
  rewrite !(NoDup_filter_eq_length _ _ Hnd).
  destruct (decide (long ∈ crypto_mentions r)) as [Hl | Hl];
    destruct (decide (short ∈ crypto_mentions r)) as [Hs | Hs]; try lia.
  destruct Hs. now apply Himp.
Qed.

(** X21.  Nested keywords are counted twice: when the parser detects with a
    duplicate-free keyword set that holds both [short] and [long], and [short]
    occurs inside [long] (as [eth] in [ethereum]), every document that has an
    entry for [long] has one for [short] with at least as many mentions. *)
Theorem X21_nested_keyword_has_more_mentions
    (max_tweets : nat) (_analyze_sentiment : string -> Polarity)
    (lower : string -> string) (crypto_keywords : list string)
    (short long : string)
    (entries : list (option Tweet)) (agg : AggregatedData) :
  List.NoDup crypto_keywords ->
  In short crypto_keywords ->
  is_substring short long = true ->
  process_tweets max_tweets _analyze_sentiment
    (_detect_crypto_mentions lower crypto_keywords) entries = Ok agg ->
  forall data, (long, data) ∈ coin_mentions agg ->
    exists data', (short, data') ∈ coin_mentions agg
                  /\ (mentions data <= mentions data')%nat.
Proof.
  intros Hnd Hshort Hsub. rewrite process_tweets_aggregate. intros Hagg data Hin.
  set (results := map (process_one _ _) _) in *.
  assert (length (posts_mentioning long results)
          <= length (posts_mentioning short results))%nat as Hle.
  { apply posts_mentioning_le. apply Forall_forall. intros r Hr.
    apply list_elem_of_In, in_map_iff in Hr as (t & <- & _). cbn [process_one crypto_mentions].
    split.
    - apply NoDup_ListNoDup. unfold _detect_crypto_mentions. now apply List.NoDup_filter.
    - rewrite !list_elem_of_In. intros Hlong.
      unfold _detect_crypto_mentions in *. rewrite filter_In in *.
      destruct Hlong as [_ Hlong]. split; [exact Hshort |].
      eapply is_substring_trans; eassumption. }
  apply (coin_record _ _ _ _ Hagg) in Hin as [Hne ->].
  assert (forall name, posts_mentioning name results <> [] ->
            mentions (finalize (tally new_coin (posts_mentioning name results)))
            = length (posts_mentioning name results)) as Hcount.
  { intros name Hposts. destruct (tally_fields new_coin (posts_mentioning name results))
      as (Hm & _). unfold finalize. rewrite Hm. cbn [new_coin mentions Nat.add].
    destruct (decide (0 < _)%nat); cbn [mentions]; [reflexivity | exact Hm]. }
  assert (posts_mentioning short results <> []) as Hne'.
  { intros Hnil. rewrite Hnil in Hle.
    destruct (posts_mentioning long results); [now destruct Hne | simpl in Hle; lia]. }
  eexists. split.
  - apply (coin_record _ _ _ _ Hagg). split; [exact Hne' | reflexivity].
  - rewrite !Hcount by assumption. exact Hle.
Qed.

Lemma parser_keywords_NoDup : List.NoDup parser_keywords.
Proof. apply NoDup_ListNoDup. apply (bool_decide_unpack _). vm_compute. exact I. Qed.

Lemma X21_nested_keyword_has_more_mentions_witness :
  exists agg data data',
    process_tweets 100 (fun _ => sample_polarity)
      (_detect_crypto_mentions (fun text => text) parser_keywords)
      [sample_tweet "ethereum breaks out"] = Ok agg
    /\ ("ethereum", data) ∈ coin_mentions agg
    /\ ("eth", data') ∈ coin_mentions agg
    /\ (mentions data <= mentions data')%nat.
Proof.
  destruct (aggregate_nonempty
              (map (process_one (fun _ => sample_polarity)
                      (_detect_crypto_mentions (fun text => text) parser_keywords))
                   (omap (fun tweet_data => tweet_data)
                      (take 100 [sample_tweet "ethereum breaks out"]))))
    as (agg & Hagg); [discriminate |].
  pose proof Hagg as Hinv. apply aggregate_inv in Hinv as (_ & _ & Hcoins & _).
  cbn in Hcoins. rewrite <- process_tweets_aggregate in Hagg.
  assert (exists data, ("ethereum", data) ∈ coin_mentions agg) as (data & Hin).
  { eexists. rewrite Hcoins. right. left. }
  destruct (X21_nested_keyword_has_more_mentions 100 (fun _ => sample_polarity)
              (fun text => text) parser_keywords "eth" "ethereum"
              [sample_tweet "ethereum breaks out"] agg
              parser_keywords_NoDup (or_intror (or_introl eq_refl)) eq_refl Hagg data Hin)
    as (data' & Hin' & Hle).
  exists agg, data, data'. auto.
Defined.

(** X22.  When the sentiment analyzer fails on every text,
    [_analyze_sentiment] substitutes zero scores, so a document is still
    produced: its [average_sentiment] and every coin's [avg_sentiment] are
    [0], and every signal is NEUTRAL with the sentiment score [-0.2] that the
    tie-break gives to a compound of zero. *)
Theorem X22_failing_analyzer_gives_neutral_signals
    (max_tweets : nat) (polarity_scores : string -> result Polarity)
    (_detect_crypto_mentions : string -> list string)
    (entries : list (option Tweet)) (agg : AggregatedData) :
  (forall text, exists e, polarity_scores text = Raise e) ->
  process_tweets max_tweets (_analyze_sentiment polarity_scores)
    _detect_crypto_mentions entries = Ok agg ->
  average_sentiment agg = 0
  /\ (forall name data, (name, data) ∈ coin_mentions agg -> avg_sentiment data = 0)
  /\ (forall s, s ∈ trading_signals agg ->
        signal_type s = SignalType.value SignalType.NEUTRAL
        /\ exists score, sentiment_score (metrics s) = Fin score /\ score = -0.2).
Proof.
  intros Hfail Hproc. pose proof Hproc as Hagg. rewrite process_tweets_aggregate in Hagg.
  set (results := map (process_one _ _) _) in *.
  assert (Forall (fun r => 0 <= compound (sentiment r) <= 0) results) as Hres.
  { apply Forall_forall. intros r Hr.
    apply list_elem_of_In, in_map_iff in Hr as (t & <- & _).
    cbn [process_one sentiment]. unfold _analyze_sentiment.
    destruct (Hfail (text t)) as (e & ->). cbn [compound]. lra. }
  assert (forall name data, (name, data) ∈ coin_mentions agg -> avg_sentiment data = 0)
    as Hcoins.
  { intros name data Hin.
    pose proof (coin_average_in_range results agg 0 0 name data Hres Hagg Hin). lra. }
  split; [pose proof (document_average_in_range results agg 0 0 Hres Hagg); lra |].
  split; [exact Hcoins |].
  intros s Hs.
  destruct (signal_origin _ _ _ _ _ _ Hproc Hs) as (name & data & Hkv & Hmin & Hsucc).
  destruct (pipeline_signal name data Hmin)
    as (s' & impact & t & Hsucc' & _ & Hscore & _ & Himpact & _ & Hstrength & Htype & Hfm).
  rewrite Hsucc in Hsucc'. injection Hsucc' as <-.
  rewrite (Hcoins name data Hkv) in *.
  assert (clamp (-1) 1 (0.8 * 0 + 0.2 * sign 0) = -0.2) as Hclamp.
  { unfold sign. destruct (decide (0 < 0)); [lra |]. rewrite clamp_id by lra. lra. }
  rewrite Hclamp in *. split; [| eauto].
  rewrite Hstrength in Hfm. rewrite Htype.
  destruct Hfm as (_ & _ & _ & _ & H5).
  rewrite !fge_Fin, !fle_Fin in H5. rewrite H5 by lra. reflexivity.
Qed.

Lemma X22_failing_analyzer_gives_neutral_signals_witness :
  exists agg s,
    process_tweets 100 (_analyze_sentiment broken_analyzer) sample_detector sample_entries
    = Ok agg
    /\ s ∈ trading_signals agg
    /\ signal_type s = SignalType.value SignalType.NEUTRAL.
Proof.
  destruct (sample_document (_analyze_sentiment broken_analyzer)) as (agg & s & Hagg & Hs).
  exists agg, s. split; [exact Hagg |]. split; [exact Hs |].
  refine (proj1 (proj2 (proj2 (X22_failing_analyzer_gives_neutral_signals 100
            broken_analyzer sample_detector sample_entries agg _ Hagg)) s Hs)).
  intros text. exists TypeError. reflexivity.
Defined.

(* ===================================================================== *)
(** ** Retrying with exponential backoff                                  *)
(* ===================================================================== *)

Import Logger.

Section RetryFacts.
Local Open Scope Z_scope.
Context {A : Type}.
Variable max_retries : Z.
Variable delay : Z.
Variable func : nat -> result A.
Variable sleep_accepts : Z -> bool.

Lemma backoff_S k : backoff delay (S k) = backoff delay k ++ [delay * 2 ^ Z.of_nat k].
Proof. unfold backoff. now rewrite seq_S, map_app. Qed.

Lemma backoff_nonneg_wait k : 0 <= delay -> (delay * 2 ^ Z.of_nat k <? 0) = false.
Proof.
  intros Hd. apply Z.ltb_ge. apply Z.mul_nonneg_nonneg; [exact Hd |].
  apply Z.pow_nonneg. lia.
Qed.

(** A run of failures that does not exhaust the attempts, each followed by a
    wait that [time.sleep] takes. *)
Lemma retry_loop_failures n : forall k fuel,
  0 <= delay ->
  (forall j, (k <= j < k + n)%nat -> exists e, func j = Raise e) ->
  (forall j, (k <= j < k + n)%nat -> sleep_accepts (delay * 2 ^ Z.of_nat j) = true) ->
  Z.of_nat (k + n) < max_retries ->
  retry_loop max_retries delay func sleep_accepts (n + fuel) k (backoff delay k)
  = retry_loop max_retries delay func sleep_accepts fuel (k + n) (backoff delay (k + n)).
Proof.
  induction n as [| n IH]; intros k fuel Hd Hfail Hsleep Hlt.
  - now rewrite Nat.add_0_r.
  - cbn [Nat.add retry_loop].
    destruct (Z.ltb_spec (Z.of_nat k) max_retries) as [_ | Hge]; [| lia].
    destruct (Hfail k ltac:(lia)) as (e & ->).
    destruct (Z.eqb_spec (Z.of_nat (S k)) max_retries) as [Heq | _]; [lia |].
    replace (Z.of_nat (S k) - 1) with (Z.of_nat k) by lia.
    rewrite (backoff_nonneg_wait k Hd), (Hsleep k) by lia. rewrite <- backoff_S.
    rewrite (IH (S k) fuel Hd);
      [| intros j Hj; apply Hfail; lia | intros j Hj; apply Hsleep; lia | lia].
    now replace (S k + n)%nat with (k + S n)%nat by lia.
Qed.

End RetryFacts.

(** X23.  With [max_retries] zero or negative the decorated function is not
    called at all: the wrapper returns [None] at once, whatever [func] would
    do. *)
Theorem X23_no_attempt_without_retries
    {A : Type} (max_retries delay : Z) (func : nat -> result A)
    (sleep_accepts : Z -> bool) :
  (max_retries <= 0)%Z ->
  wrapper max_retries delay func sleep_accepts = Some (Returned None, []).
Proof.
  intros Hmax. unfold wrapper. cbn [retry_loop].
  destruct (Z.ltb_spec (Z.of_nat 0) max_retries) as [Hlt | _]; [lia | reflexivity].
Qed.

Lemma X23_no_attempt_without_retries_witness :
  wrapper 0 5 (fun _ => Ok "value") sample_sleep = Some (Returned None, []).
Proof. apply X23_no_attempt_without_retries. lia. Defined.

(** X24.  If the first [k] calls of [func] raise and call number [k]
    returns [v], with [k < max_retries], a delay that is not negative and
    waits of [delay], [2*delay], [4*delay], ... that [time.sleep] takes, the
    wrapper returns [v] after exactly these [k] waits. *)
Theorem X24_retry_returns_first_success
    {A : Type} (max_retries delay : Z) (func : nat -> result A)
    (sleep_accepts : Z -> bool) (k : nat) (v : A) :
  (0 <= delay)%Z -> (Z.of_nat k < max_retries)%Z ->
  (forall j, (j < k)%nat -> exists e, func j = Raise e) ->
  (forall j, (j < k)%nat -> sleep_accepts (delay * 2 ^ Z.of_nat j)%Z = true) ->
  func k = Ok v ->
  wrapper max_retries delay func sleep_accepts
  = Some (Returned (Some v), backoff delay k)
  /\ length (backoff delay k) = k.
Proof.
  intros Hd Hk Hfail Hsleep Hok.
  split; [| unfold backoff; now rewrite length_map, length_seq].
  unfold wrapper.
  replace (S (Z.to_nat max_retries)) with (k + S (Z.to_nat max_retries - k))%nat by lia.
  change (@nil Z) with (backoff delay 0).
  rewrite (retry_loop_failures max_retries delay func sleep_accepts k 0 _ Hd);
    [| intros j Hj; apply Hfail; lia | intros j Hj; apply Hsleep; lia | simpl; lia].
  cbn [Nat.add retry_loop].
  destruct (Z.ltb_spec (Z.of_nat k) max_retries) as [_ | Hge]; [| lia].
  now rewrite Hok.
Qed.

Lemma X24_retry_returns_first_success_witness :
  wrapper 3 5 (fun k => if (k <? 2)%nat then Raise KeyError else Ok "value") sample_sleep
  = Some (Returned (Some "value"), [5; 10]%Z).
Proof.
  refine (proj1 (X24_retry_returns_first_success 3 5
            (fun k => if (k <? 2)%nat then Raise KeyError else Ok "value") sample_sleep
            2 "value" _ _ _ _ _)).
  - lia.
  - lia.
  - intros j Hj. exists KeyError. destruct j as [| [| j]]; [reflexivity | reflexivity | lia].
  - intros j Hj. destruct j as [| [| j]]; [reflexivity | reflexivity | lia].
  - reflexivity.
Defined.

(** X25.  Let the first [max_retries] calls of [func] all raise, with
    [max_retries >= 1] and a delay that is not negative.  If [time.sleep]
    takes the waits, [func] is called exactly [max_retries] times, the
    exception of the last call is raised again, and the wrapper has waited
    [max_retries - 1] times, not after the last failure.  If [time.sleep]
    refuses the wait after failure number [j], the first it refuses, the
    wrapper ends there with the exception of [time.sleep], after [j] waits
    and without another call. *)
Theorem X25_retry_gives_up_after_max_retries
    {A : Type} (max_retries delay : Z) (func : nat -> result A)
    (sleep_accepts : Z -> bool) (e : exn) :
  (0 <= delay)%Z -> (1 <= max_retries)%Z ->
  (forall j, (Z.of_nat j < max_retries)%Z -> exists e', func j = Raise e') ->
  func (Z.to_nat (max_retries - 1)) = Raise e ->
  ((forall j, (Z.of_nat j < max_retries - 1)%Z ->
      sleep_accepts (delay * 2 ^ Z.of_nat j)%Z = true) ->
   wrapper (A := A) max_retries delay func sleep_accepts
   = Some (Raised e, backoff delay (Z.to_nat (max_retries - 1))))
  /\ (forall j,
        (Z.of_nat j < max_retries - 1)%Z ->
        (forall i, (i < j)%nat -> sleep_accepts (delay * 2 ^ Z.of_nat i)%Z = true) ->
        sleep_accepts (delay * 2 ^ Z.of_nat j)%Z = false ->
        wrapper (A := A) max_retries delay func sleep_accepts
        = Some (SleepRejected (delay * 2 ^ Z.of_nat j)%Z, backoff delay j)).
Proof.
  intros Hd Hmax Hfail Hlast. split.
  - intros Hsleep. unfold wrapper.
    set (k := Z.to_nat (max_retries - 1)) in *.
    replace (S (Z.to_nat max_retries)) with (k + S (Z.to_nat max_retries - k))%nat by lia.
    change (@nil Z) with (backoff delay 0).
    rewrite (retry_loop_failures max_retries delay func sleep_accepts k 0 _ Hd);
      [| intros j Hj; apply Hfail; lia | intros j Hj; apply Hsleep; lia | simpl; lia].
    cbn [Nat.add retry_loop].
    destruct (Z.ltb_spec (Z.of_nat k) max_retries) as [_ | Hge]; [| lia].
    rewrite Hlast.
    destruct (Z.eqb_spec (Z.of_nat (S k)) max_retries) as [_ | Hne]; [reflexivity | lia].
  - intros j Hj Hbefore Hrefused. unfold wrapper.
    replace (S (Z.to_nat max_retries)) with (j + S (Z.to_nat max_retries - j))%nat by lia.
    change (@nil Z) with (backoff delay 0).
    rewrite (retry_loop_failures max_retries delay func sleep_accepts j 0 _ Hd);
      [| intros i Hi; apply Hfail; lia | intros i Hi; apply Hbefore; lia | simpl; lia].
    cbn [Nat.add retry_loop].
    destruct (Z.ltb_spec (Z.of_nat j) max_retries) as [_ | Hge]; [| lia].
    destruct (Hfail j ltac:(lia)) as (e' & ->).
    destruct (Z.eqb_spec (Z.of_nat (S j)) max_retries) as [Heq | _]; [lia |].
    replace (Z.of_nat (S j) - 1)%Z with (Z.of_nat j) by lia.
    now rewrite (backoff_nonneg_wait delay j Hd), Hrefused.
Qed.

(** Three failures with a delay of five seconds, and with a delay of [2^40]
    seconds, which is refused. *)
Lemma X25_retry_gives_up_after_max_retries_witness :
  wrapper (A := string) 3 5 (fun _ => Raise KeyError) sample_sleep
  = Some (Raised KeyError, [5; 10]%Z)
  /\ wrapper (A := string) 3 (2 ^ 40) (fun _ => Raise KeyError) sample_sleep
     = Some (SleepRejected (2 ^ 40)%Z, []).
Proof.
  split.
  - apply (X25_retry_gives_up_after_max_retries 3 5 (fun _ => Raise KeyError)
             sample_sleep KeyError).
    + lia.
    + lia.
    + intros j _. now exists KeyError.
    + reflexivity.
    + intros j Hj. destruct j as [| [| j]]; [reflexivity | reflexivity | lia].
  - apply (proj2 (X25_retry_gives_up_after_max_retries 3 (2 ^ 40)
                    (fun _ => Raise KeyError) sample_sleep KeyError
                    ltac:(lia) ltac:(lia)
                    (fun j _ => ex_intro _ KeyError eq_refl) eq_refl) 0%nat).
    + lia.
    + intros i Hi. lia.
    + reflexivity.
Defined.

(** X26.  A negative [delay] defeats the retry: when the first call raises
    and more than one attempt is allowed, [time.sleep] rejects the negative
    duration, so [func] is not called again and neither its value nor its
    exception is what the caller gets. *)
Theorem X26_negative_delay_stops_the_retry
    {A : Type} (max_retries delay : Z) (func : nat -> result A)
    (sleep_accepts : Z -> bool) (e : exn) :
  (delay < 0)%Z -> (2 <= max_retries)%Z -> func 0%nat = Raise e ->
  wrapper max_retries delay func sleep_accepts = Some (SleepRejected delay, []).
Proof.
  intros Hd Hmax Hfail. unfold wrapper. cbn [retry_loop].
  destruct (Z.ltb_spec (Z.of_nat 0) max_retries) as [_ | Hge]; [| lia].
  rewrite Hfail.
  destruct (Z.eqb_spec (Z.of_nat 1) max_retries) as [Heq | _]; [lia |].
  replace (delay * 2 ^ (Z.of_nat 1 - 1))%Z with delay by (simpl; lia).
  destruct (Z.ltb_spec delay 0) as [_ | Hge]; [reflexivity | lia].
Qed.

Lemma X26_negative_delay_stops_the_retry_witness :
  wrapper (A := string) 3 (-5) (fun _ => Raise KeyError) sample_sleep
  = Some (SleepRejected (-5), []).
Proof.
  apply (X26_negative_delay_stops_the_retry 3 (-5) (fun _ => Raise KeyError)
           sample_sleep KeyError).
  - lia.
  - lia.
  - reflexivity.
Defined.

Lemma retry_loop_total {A : Type} (max_retries delay : Z) (func : nat -> result A)
    (sleep_accepts : Z -> bool) fuel :
  forall k,
  (Z.max 0 (max_retries - Z.of_nat k) < Z.of_nat fuel)%Z ->
  exists out n,
    retry_loop max_retries delay func sleep_accepts fuel k (backoff delay k)
    = Some (out, backoff delay n)
    /\ (k <= n)%nat
    /\ (Z.of_nat n <= Z.max (Z.of_nat k) (max_retries - 1))%Z.
Proof.
  induction fuel as [| fuel IH]; intros k Hfuel; [lia |].
  cbn [retry_loop].
  destruct (Z.ltb_spec (Z.of_nat k) max_retries) as [Hlt | Hge].
  - destruct (func k) as [v | e].
    + eexists _, k. split; [reflexivity | lia].
    + destruct (Z.eqb_spec (Z.of_nat (S k)) max_retries) as [Heq | Hne].
      * eexists _, k. split; [reflexivity | lia].
      * destruct (Z.ltb_spec (delay * 2 ^ (Z.of_nat (S k) - 1)) 0) as [Hneg | Hpos].
        -- eexists _, k. split; [reflexivity | lia].
        -- destruct (sleep_accepts _); [| eexists _, k; split; [reflexivity | lia]].
           replace (Z.of_nat (S k) - 1)%Z with (Z.of_nat k) by lia.
           rewrite <- backoff_S.
           destruct (IH (S k) ltac:(lia)) as (out & n & Hloop & Hkn & Hn).
           exists out, n. split; [exact Hloop | lia].
  - eexists _, k. split; [reflexivity | lia].
Qed.

(** X27.  The wrapper always ends, after fewer than [max_retries] waits, and
    the waits it has made are always the first terms of the doubling
    sequence [delay], [2*delay], [4*delay], ... *)
Theorem X27_retry_ends_with_doubling_waits
    {A : Type} (max_retries delay : Z) (func : nat -> result A)
    (sleep_accepts : Z -> bool) :
  exists out n,
    wrapper max_retries delay func sleep_accepts = Some (out, backoff delay n)
    /\ (Z.of_nat n <= Z.max 0 (max_retries - 1))%Z
    /\ (forall j, (j < n)%nat -> backoff delay n !! j = Some (delay * 2 ^ Z.of_nat j)%Z).
Proof.
  destruct (retry_loop_total max_retries delay func sleep_accepts
              (S (Z.to_nat max_retries)) 0 ltac:(lia)) as (out & n & Hloop & _ & Hn).
  exists out, n. split; [exact Hloop |]. split; [exact Hn |].
  intros j Hj. unfold backoff. rewrite list_lookup_fmap.
  now rewrite lookup_seq_lt by exact Hj.
Qed.

(* ===================================================================== *)
(** ** Batches of the sentiment analyzer                                  *)
(* ===================================================================== *)

Import SentimentAnalyzer BatchView.

Section BatchFacts.
Variable Res : Type.
Variable _cached_analyze : string -> result (option Res).
Variable _analyze_single : string -> result Res.
Variable c : string -> option Res.
Variable s : string -> Res.

Lemma scan_loop l : forall k batch_results uncached_texts uncached_indices,
  (forall text, text ∈ l -> _cached_analyze text = Ok (c text)) ->
  for_each (scan Res _cached_analyze) (batch_results, uncached_texts, uncached_indices)
           (zip (seq k (length l)) l)
  = Ok (batch_results ++ omap c l,
        uncached_texts ++ map snd (uncached c k l),
        uncached_indices ++ map fst (uncached c k l)).
Proof.
  induction l as [| text l IH]; intros k res ut ui Hc.
  - simpl. now rewrite !app_nil_r.
  - cbn [length seq zip zip_with for_each scan snd fst].
    rewrite (Hc text) by left. cbn [mbind result_bind mret result_ret].
    cbn [omap list_omap uncached].
    destruct (c text) as [r |]; rewrite IH by (intros t Ht; apply Hc; now right).
    + now rewrite <- app_assoc.
    + cbn [map fst snd]. now rewrite <- !app_assoc.
Qed.

Lemma futures_loop texts : forall done,
  (forall text, text ∈ texts -> _analyze_single text = Ok (s text)) ->
  for_each (fun done text => r ← _analyze_single text; mret (done ++ [r])) done texts
  = Ok (done ++ map s texts).
Proof.
  induction texts as [| text texts IH]; intros done Hs.
  - simpl. now rewrite app_nil_r.
  - cbn [for_each]. rewrite (Hs text) by left. cbn [mbind result_bind mret result_ret].
    rewrite IH by (intros t Ht; apply Hs; now right). now rewrite <- app_assoc.
Qed.

Lemma uncached_texts_need_s l k text :
  In text (map snd (uncached c k l)) -> text ∈ l /\ c text = None.
Proof.
  revert k. induction l as [| t l IH]; intros k; cbn [uncached]; [intros [] |].
  destruct (c t) eqn:Hct.
  - intros Hin. destruct (IH _ Hin). split; [now right | assumption].
  - intros [<- | Hin]; [split; [left | exact Hct] |].
    destruct (IH _ Hin). split; [now right | assumption].
Qed.

(** Inserting the fresh results at their indices, in increasing order, puts
    every result at the position of its text. *)
Lemma insert_loop l : forall pre,
  foldl (fun acc p => list_insert_at p.1 p.2 acc) (pre ++ omap c l)
        (zip (map fst (uncached c (length pre) l))
             (map s (map snd (uncached c (length pre) l))))
  = pre ++ map (result_for c s) l.
Proof.
  induction l as [| text l IH]; intros pre; [reflexivity |].
  cbn [omap list_omap uncached map]. unfold result_for at 1.
  destruct (c text) as [r |]; cbn [default].
  - specialize (IH (pre ++ [r])). rewrite length_app in IH. cbn [length] in IH.
    rewrite Nat.add_1_r, <- !app_assoc in IH. exact IH.
  - cbn [map fst snd zip zip_with foldl].
    unfold list_insert_at at 2.
    rewrite take_app_length, drop_app_length.
    specialize (IH (pre ++ [s text])). rewrite length_app in IH. cbn [length] in IH.
    rewrite Nat.add_1_r, <- !app_assoc in IH. exact IH.
Qed.

Lemma analyze_one_batch_map l :
  (forall text, text ∈ l -> _cached_analyze text = Ok (c text)) ->
  (forall text, text ∈ l -> c text = None -> _analyze_single text = Ok (s text)) ->
  analyze_one_batch Res _cached_analyze _analyze_single l = Ok (map (result_for c s) l).
Proof.
  intros Hc Hs. unfold analyze_one_batch.
  rewrite (scan_loop l 0 [] [] [] Hc). cbn [mbind result_bind app].
  pose proof (insert_loop l []) as Hins. cbn [app length] in Hins.
  destruct (map snd (uncached c 0 l)) as [| text texts] eqn:Hu.
  - cbn [mret result_ret]. f_equal. rewrite <- Hins.
    destruct (map fst (uncached c 0 l)); reflexivity.
  - rewrite futures_loop.
    + cbn [mbind result_bind mret result_ret app]. f_equal. exact Hins.
    + intros t Ht. rewrite <- Hu in Ht. apply list_elem_of_In in Ht.
      destruct (uncached_texts_need_s _ _ _ Ht). now apply Hs.
Qed.

End BatchFacts.

Section BatchesFacts.
Variable Res : Type.
Variable _cached_analyze : string -> result (option Res).
Variable _analyze_single : string -> result Res.
Variable batch_size : BinNums.positive.
Variable c : string -> option Res.
Variable s : string -> Res.
Variable texts : list string.
Hypothesis cached : forall text, text ∈ texts -> _cached_analyze text = Ok (c text).
Hypothesis fresh :
  forall text, text ∈ texts -> c text = None -> _analyze_single text = Ok (s text).

Let size := Pos.to_nat batch_size.

Lemma batches_loop n : forall a results,
  for_each
    (fun results i =>
       batch_results ← analyze_one_batch Res _cached_analyze _analyze_single
                         (take size (drop i texts));
       mret (results ++ batch_results))
    results (map (fun k => k * size)%nat (seq a n))
  = Ok (results ++ map (result_for c s) (take (n * size) (drop (a * size) texts))).
Proof.
  induction n as [| n IH]; intros a results.
  - simpl. now rewrite app_nil_r.
  - cbn [seq map for_each].
    rewrite (analyze_one_batch_map Res _cached_analyze _analyze_single c s).
    + cbn [mbind result_bind mret result_ret]. rewrite IH. f_equal.
      rewrite <- app_assoc. f_equal. rewrite <- map_app. f_equal.
      replace (S a * size)%nat with (a * size + size)%nat by lia.
      rewrite <- drop_drop. replace (S n * size)%nat with (size + n * size)%nat by lia.
      apply take_take_drop.
    + intros text Ht. apply cached. now apply subseteq_take, subseteq_drop in Ht.
    + intros text Ht. apply fresh. now apply subseteq_take, subseteq_drop in Ht.
Qed.

Lemma analyze_batch_map :
  analyze_batch Res _cached_analyze _analyze_single batch_size texts
  = Ok (map (result_for c s) texts).
Proof.
  unfold analyze_batch, range_step. fold size.
  rewrite batches_loop. cbn [app Nat.mul drop]. do 2 f_equal.
  apply take_ge.
  assert (0 < size)%nat as Hsize by (unfold size; lia).
  pose proof (Nat.div_mod_eq (length texts + size - 1) size) as Hdiv.
  pose proof (Nat.mod_upper_bound (length texts + size - 1) size ltac:(lia)) as Hmod.
  nia.
Qed.

End BatchesFacts.

(** X28.  [analyze_batch] returns one result for each text, in the order of
    the texts and whatever the batch size: the cached result of the text when
    [_cached_analyze] has one, the result of [_analyze_single] otherwise
    (provided these calls return). *)
Theorem X28_analyze_batch_keeps_the_order
    (Res : Type) (_cached_analyze : string -> result (option Res))
    (_analyze_single : string -> result Res) (batch_size : BinNums.positive)
    (c : string -> option Res) (s : string -> Res) (texts : list string) :
  (forall text, text ∈ texts -> _cached_analyze text = Ok (c text)) ->
  (forall text, text ∈ texts -> c text = None -> _analyze_single text = Ok (s text)) ->
  exists results,
    analyze_batch Res _cached_analyze _analyze_single batch_size texts = Ok results
    /\ length results = length texts
    /\ (forall i text, texts !! i = Some text ->
        results !! i = Some (default (s text) (c text))).
Proof.
  intros Hc Hs. eexists. split; [now apply (analyze_batch_map _ _ _ _ c s) |].
  split; [apply length_map |].
  intros i text Hi.
  change (map (result_for c s) texts) with (result_for c s <$> texts).
  rewrite list_lookup_fmap, Hi. reflexivity.
Qed.

Lemma X28_analyze_batch_keeps_the_order_witness :
  exists results,
    analyze_batch string (fun text => Ok (if String.eqb text "b" then None else Some text))
      (fun text => Ok "fresh") 2 ["a"; "b"; "c"; "b"; "e"] = Ok results
    /\ results = ["a"; "fresh"; "c"; "fresh"; "e"].
Proof.
  destruct (X28_analyze_batch_keeps_the_order string
              (fun text => Ok (if String.eqb text "b" then None else Some text))
              (fun text => Ok "fresh") 2
              (fun text => if String.eqb text "b" then None else Some text)
              (fun _ => "fresh") ["a"; "b"; "c"; "b"; "e"]
              (fun _ _ => eq_refl) (fun _ _ _ => eq_refl))
    as (results & Hres & Hlen & Hith).
  exists results. split; [exact Hres |].
  pose proof (Hith 0%nat "a" eq_refl) as H0. pose proof (Hith 1%nat "b" eq_refl) as H1.
  pose proof (Hith 2%nat "c" eq_refl) as H2. pose proof (Hith 3%nat "b" eq_refl) as H3.
  pose proof (Hith 4%nat "e" eq_refl) as H4.
  destruct results as [| r0 [| r1 [| r2 [| r3 [| r4 [| r5 rest]]]]]]; try discriminate.
  cbn in H0, H1, H2, H3, H4. congruence.
Defined.



(** X30.  A sentiment dictionary without [compound], [pos] and [neg] at its
    top level, such as the nested result of the sentiment analyzer, scores
    [-0.2] whatever it holds, and with the default thresholds every signal
    generated from it is NEUTRAL. *)
Theorem X30_nested_sentiment_scores_the_tie_break (d : gmap string pyval) :
  d !! "compound" = None -> d !! "pos" = None -> d !! "neg" = None ->
  (exists score, _calculate_sentiment_score (PyDict d) = Ok (Fin score) /\ score = -0.2)
  /\ (forall coin mention_count engagement_score,
      exists sig,
        generate_signal default_thresholds coin (PyDict d) mention_count engagement_score
        = Ok (Some sig)
        /\ signal_type sig = SignalType.value SignalType.NEUTRAL).
Proof.
  intros Hc Hp Hn.
  assert (_calculate_sentiment_score (PyDict d) = Ok (Fin (sentiment_formula 0 0 0))) as Hs.
  { apply sentiment_score_fields; right; now split. }
  assert (sentiment_formula 0 0 0 = -0.2) as Hval.
  { unfold sentiment_formula, sign. destruct (decide (0 < 0)); [lra |].
    rewrite clamp_id by lra. lra. }
  split; [eexists; split; [exact Hs | exact Hval] |].
  intros coin mc es.
  destruct (engagement_impact_range default_thresholds 100.0 es eq_refl ltac:(lra))
    as (impact & He & Himpact).
  destruct (mention_confidence_range default_thresholds mc) as (conf & Hconf & Hcr).
  destruct (classify_first_match default_thresholds _ _ _ _
              (Fin (sentiment_formula 0 0 0 * 0.5 + impact * 0.3 + conf * 0.2))
              default_cut_points) as (t & Ht & _ & _ & _ & _ & H5).
  rewrite !fge_Fin, !fle_Fin in H5. rewrite H5 in Ht by (rewrite Hval; lra).
  eexists. split.
  - apply (generate_signal_components default_thresholds coin (PyDict d) mc es
             _ _ _ _ Hs He Hconf Ht).
  - reflexivity.
Qed.

Lemma X30_nested_sentiment_scores_the_tie_break_witness :
  exists score,
    _calculate_sentiment_score (analysis_dict (analysis_of_scores 0.1 0.2 0.7))
    = Ok (Fin score)
    /\ score = -0.2.
Proof.
  refine (proj1 (X30_nested_sentiment_scores_the_tie_break _ _ _ _)); reflexivity.
Defined.
